(** * chng: a shallow embedding of [chng.py] and the properties of its specification

    The program reads a diff, sends it to a chat-completion service and writes
    the answer as a changelog next to the diff; its settings live in a JSON file.

    Conventions of the embedding:
    - a Python [str] is a list of code points ([pystr]);
    - a Python object that can come out of [json.load] is a [value];
    - the file system, the terminal and the completion service make up the
      [world] that every method of [ChngApp] threads through;
    - a method is a function [world -> outcome A * world]. *)

From Stdlib Require Import NArith ZArith List Ascii String QArith Lia Bool.
From stdpp Require Import base option list gmap.

Set Warnings "-register-all".

Local Open Scope N_scope.
Local Open Scope list_scope.

(** ** Python strings *)

Definition pystr := list N.

(** A source literal, character by character. *)
Definition py (s : string) : pystr :=
  List.map N_of_ascii (list_ascii_of_string s).

Definition ch_quote : N := 34.
Definition ch_backslash : N := 92.
Definition ch_newline : N := 10.

Definition str_empty (s : pystr) : bool :=
  match s with [] => true | _ :: _ => false end.

Fixpoint str_eqb (a b : pystr) : bool :=
  match a, b with
  | [], [] => true
  | x :: a', y :: b' => (x =? y) && str_eqb a' b'
  | _, _ => false
  end.

(** [s.startswith(p)] *)
Fixpoint startswith (p s : pystr) : bool :=
  match p, s with
  | [], _ => true
  | x :: p', y :: s' => (x =? y) && startswith p' s'
  | _ :: _, [] => false
  end.

(** [sub in s] *)
Fixpoint contains (sub s : pystr) : bool :=
  startswith sub s ||
  match s with
  | [] => false
  | _ :: s' => contains sub s'
  end.

(** [s.split(sep, 1)]: at most one cut, at the first occurrence of [sep]. *)
Fixpoint split1 (sep s : pystr) : list pystr :=
  if startswith sep s then [[]; List.skipn (List.length sep) s]
  else match s with
       | [] => [[]]
       | x :: s' =>
           match split1 sep s' with
           | before :: after => (x :: before) :: after
           | [] => [[x]]
           end
       end.

(** [s.split(c)] for a separator of one character. *)
Fixpoint split_char (c : N) (s : pystr) : list pystr :=
  match s with
  | [] => [[]]
  | x :: s' =>
      if x =? c then [] :: split_char c s'
      else match split_char c s' with
           | piece :: pieces => (x :: piece) :: pieces
           | [] => [[x]]
           end
  end.

(** [sep.join(pieces)] *)
Fixpoint join (sep : pystr) (pieces : list pystr) : pystr :=
  match pieces with
  | [] => []
  | [p] => p
  | p :: rest => p ++ sep ++ join sep rest
  end.

(** [s.lstrip(chars)] and [s.rstrip(chars)] for a character class. *)
Fixpoint lstrip_with (drop : N -> bool) (s : pystr) : pystr :=
  match s with
  | [] => []
  | x :: s' => if drop x then lstrip_with drop s' else s
  end.

Definition rstrip_with (drop : N -> bool) (s : pystr) : pystr :=
  List.rev (lstrip_with drop (List.rev s)).

Definition in_chars (chars : pystr) (c : N) : bool :=
  List.existsb (N.eqb c) chars.

(** [str.isspace] on one code point: the characters Python's [strip()]
    removes (Unicode white space and the four ASCII separators). *)
Definition isspace (c : N) : bool :=
  ((9 <=? c) && (c <=? 13)) || ((28 <=? c) && (c <=? 32)) ||
  (c =? 133) || (c =? 160) || (c =? 5760) ||
  ((8192 <=? c) && (c <=? 8202)) || (c =? 8232) || (c =? 8233) ||
  (c =? 8239) || (c =? 8287) || (c =? 12288).

(** [s.strip()] *)
Definition strip (s : pystr) : pystr :=
  rstrip_with isspace (lstrip_with isspace s).

(** ** Python objects

    What [json.load] can return, and so what the configuration and its fields
    can be. A [dict] keeps its keys in insertion order; a number is kept as
    the text it was written with. *)

Inductive value :=
| VNone
| VBool (b : bool)
| VNum (lexeme : pystr)
| VStr (s : pystr)
| VList (items : list value)
| VDict (items : list (pystr * value)).

Definition dict := list (pystr * value).

Fixpoint dict_lookup (d : dict) (k : pystr) : option value :=
  match d with
  | [] => None
  | (k', v) :: d' => if str_eqb k k' then Some v else dict_lookup d' k
  end.

(** [d[k] = v]: an existing key keeps its place. *)
Fixpoint dict_set (d : dict) (k : pystr) (v : value) : dict :=
  match d with
  | [] => [(k, v)]
  | (k', v') :: d' =>
      if str_eqb k k' then (k', v) :: d' else (k', v') :: dict_set d' k v
  end.

(** ** Outcomes and the world *)

(** Python exceptions the program can meet, with the text [str(e)] gives
    where a handler prints it. [MarkupError] is what the terminal library
    raises on markup it cannot read. [OtherError] stands for every other
    subclass of [Exception] the operating system or a library raises.
    [Unmodelled] is no exception of Python: it marks a run that leaves what
    this development describes (the value of a JSON number is never read). *)
Inductive exn :=
| SystemExit (code : Z)
| AttributeError (msg : pystr)
| IndexError (msg : pystr)
| ValueError (msg : pystr)
| EOFError
| FileNotFoundError (msg : pystr)
| JSONDecodeError
| MarkupError (msg : pystr)
| OtherError (msg : pystr)
| APIError (msg : pystr)
| Unmodelled.

Inductive outcome (A : Type) :=
| Ok (a : A)
| Raise (e : exn).
Arguments Ok {A} a.
Arguments Raise {A} e.

(** The request [client.chat.completions.create] sends. *)
Record request := {
  req_base_url : pystr;
  req_api_key : value;
  req_model : value;
  req_messages : list (pystr * pystr);
  req_max_tokens : N;
  req_temperature : option Q
}.

(** What the service answers: an error with its message, or the choices of
    the response, each with a message content that may be [None]. *)
Inductive reply :=
| ApiRaise (msg : pystr)
| ApiResponse (choices : list (option pystr)).

(** Why a path cannot be read: its directory cannot be searched, so that
    [stat] and [open] both fail, or [open] alone fails (no permission on the
    file, a directory, bytes that are no UTF-8). Each with the error text. *)
Inductive refusal :=
| Unsearchable (msg : pystr)
| Unopenable (msg : pystr).

Definition refusal_text (r : refusal) : pystr :=
  match r with Unsearchable msg | Unopenable msg => msg end.

Record world := {
  files : gmap pystr pystr;        (* path to text of every file that exists *)
  unreadable : gmap pystr refusal; (* paths that cannot be read, and why *)
  unwritable : gmap pystr pystr;   (* paths [open(p, 'w')] refuses, with the error text *)
  unchmodable : gmap pystr pystr;  (* paths [os.chmod] refuses, with the error text *)
  modes : gmap pystr N;            (* permission bits set by [os.chmod] *)
  stdin : list pystr;              (* the lines the user will type *)
  console : list pystr;            (* what [console.print] printed, oldest first *)
  requests : list request;         (* the completion calls issued, oldest first *)
  api : request -> reply;          (* the completion service *)
  style_normalize : pystr -> pystr;
    (* the terminal library's [Style.normalize], which names a style *)
  literal_error : pystr -> option pystr;
    (* the error text when the parameters of an [@] tag do not evaluate *)
  client_refused : pystr -> value -> option pystr;
    (* the error text when [openai.OpenAI] rejects a base url and key *)
  locale_extra : N -> bool;
    (* the characters beyond ASCII that the locale's encoding can write *)
  codec_error : pystr -> pystr
    (* the text of the [UnicodeEncodeError] for a text it cannot write *)
}.

Definition M (A : Type) := world -> outcome A * world.

Definition ret {A} (a : A) : M A := fun w => (Ok a, w).
Definition raise {A} (e : exn) : M A := fun w => (Raise e, w).
Definition bind {A B} (m : M A) (k : A -> M B) : M B :=
  fun w => match m w with
           | (Ok a, w') => k a w'
           | (Raise e, w') => (Raise e, w')
           end.

Notation "x <- m ;; k" := (bind m (fun x => k))
  (at level 100, m at next level, right associativity).
Notation "m ;;; k" := (bind m (fun _ => k))
  (at level 100, right associativity).

(** [try: body except Exception as e: handler(e)]. [SystemExit] is no
    [Exception]; [Unmodelled] is never caught. *)
Definition try_except {A} (body : M A) (handler : exn -> M A) : M A :=
  fun w => match body w with
           | (Raise (SystemExit c), w') => (Raise (SystemExit c), w')
           | (Raise Unmodelled, w') => (Raise Unmodelled, w')
           | (Raise e, w') => handler e w'
           | r => r
           end.

(** [try: body except: handler]: a bare [except] catches [SystemExit] too. *)
Definition try_except_all {A} (body : M A) (handler : M A) : M A :=
  fun w => match body w with
           | (Raise Unmodelled, w') => (Raise Unmodelled, w')
           | (Raise _, w') => handler w'
           | r => r
           end.

(** [str(e)] *)
Definition exn_message (e : exn) : pystr :=
  match e with
  | AttributeError m | IndexError m | ValueError m | FileNotFoundError m
  | MarkupError m | OtherError m | APIError m => m
  | EOFError => py "EOF when reading a line"
  | SystemExit _ | JSONDecodeError | Unmodelled => []
  end.

(** ** The JSON codec of the standard library

    [json.dump(obj, f, indent=2)] and [json.load(f)], as CPython's [json]
    package computes them with its default settings ([ensure_ascii], strict
    strings). Two limits of the interpreter are left out: the recursion limit
    on deeply nested documents and the digit limit on huge integers. *)

Definition hexdigit (d : N) : N :=
  if d <? 10 then 48 + d else 87 + d.

(** ['\\u{0:04x}'.format(n)] *)
Definition escape_u (n : N) : pystr :=
  [ch_backslash; 117;
   hexdigit ((n / 4096) mod 16); hexdigit ((n / 256) mod 16);
   hexdigit ((n / 16) mod 16); hexdigit (n mod 16)].

(** The replacement of one character in [py_encode_basestring_ascii]. *)
Definition escape_char (c : N) : pystr :=
  if c =? ch_quote then [ch_backslash; ch_quote]
  else if c =? ch_backslash then [ch_backslash; ch_backslash]
  else if c =? 10 then [ch_backslash; 110]
  else if c =? 13 then [ch_backslash; 114]
  else if c =? 9 then [ch_backslash; 116]
  else if c =? 8 then [ch_backslash; 98]
  else if c =? 12 then [ch_backslash; 102]
  else if (32 <=? c) && (c <=? 126) then [c]
  else if c <? 65536 then escape_u c
  else
    let n := c - 65536 in
    escape_u (N.lor 55296 (N.land (N.shiftr n 10) 1023)) ++
    escape_u (N.lor 56320 (N.land n 1023)).

Definition encode_string (s : pystr) : pystr :=
  ch_quote :: List.flat_map escape_char s ++ [ch_quote].

(** The line break and indentation before an item at nesting depth [level]. *)
Definition newline_indent (level : nat) : pystr :=
  ch_newline :: List.repeat 32 (2 * level).

(** [json.dumps(v, indent=2)] at nesting depth [level]; [None] when [v]
    holds a number (its spelling is not described here). *)
Fixpoint dumps_at (level : nat) (v : value) : option pystr :=
  match v with
  | VNone => Some (py "null")
  | VBool true => Some (py "true")
  | VBool false => Some (py "false")
  | VNum _ => None
  | VStr s => Some (encode_string s)
  | VList [] => Some (py "[]")
  | VList items =>
      let fix go (l : list value) : option pystr :=
        match l with
        | [] => Some []
        | [x] => dumps_at (S level) x
        | x :: l' =>
            match dumps_at (S level) x, go l' with
            | Some a, Some b => Some (a ++ py "," ++ newline_indent (S level) ++ b)
            | _, _ => None
            end
        end in
      match go items with
      | Some body =>
          Some (py "[" ++ newline_indent (S level) ++ body ++ newline_indent level ++ py "]")
      | None => None
      end
  | VDict [] => Some (py "{}")
  | VDict items =>
      let member (kv : pystr * value) : option pystr :=
        match dumps_at (S level) (snd kv) with
        | Some b => Some (encode_string (fst kv) ++ py ": " ++ b)
        | None => None
        end in
      let fix go (l : list (pystr * value)) : option pystr :=
        match l with
        | [] => Some []
        | [kv] => member kv
        | kv :: l' =>
            match member kv, go l' with
            | Some a, Some b => Some (a ++ py "," ++ newline_indent (S level) ++ b)
            | _, _ => None
            end
        end in
      match go items with
      | Some body =>
          Some (py "{" ++ newline_indent (S level) ++ body ++ newline_indent level ++ py "}")
      | None => None
      end
  end.

Definition json_dumps (v : value) : option pystr := dumps_at 0 v.

(** White space between JSON tokens. *)
Definition is_ws (c : N) : bool :=
  (c =? 32) || (c =? 9) || (c =? 10) || (c =? 13).

Definition skip_ws (s : pystr) : pystr := lstrip_with is_ws s.

Definition is_digit (c : N) : bool := (48 <=? c) && (c <=? 57).

Definition hexval (c : N) : option N :=
  if is_digit c then Some (c - 48)
  else if (97 <=? c) && (c <=? 102) then Some (c - 87)
  else if (65 <=? c) && (c <=? 70) then Some (c - 55)
  else None.

Definition unhex4 (a b c d : N) : option N :=
  match hexval a, hexval b, hexval c, hexval d with
  | Some x, Some y, Some z, Some t => Some (4096 * x + 256 * y + 16 * z + t)
  | _, _, _, _ => None
  end.

Definition is_high_surrogate (u : N) : bool := (55296 <=? u) && (u <=? 56319).
Definition is_low_surrogate (u : N) : bool := (56320 <=? u) && (u <=? 57343).
Definition join_surrogates (hi lo : N) : N :=
  65536 + (N.lor (N.shiftl (N.land hi 1023) 10) (N.land lo 1023)).

Definition unescape (e : N) : option N :=
  if e =? ch_quote then Some ch_quote
  else if e =? ch_backslash then Some ch_backslash
  else if e =? 47 then Some 47
  else if e =? 98 then Some 8
  else if e =? 102 then Some 12
  else if e =? 110 then Some 10
  else if e =? 114 then Some 13
  else if e =? 116 then Some 9
  else None.

Definition push (c : N) (r : option (pystr * pystr)) : option (pystr * pystr) :=
  match r with
  | Some (body, rest) => Some (c :: body, rest)
  | None => None
  end.

(** [scanstring] in strict mode, from just after the opening quote: the
    decoded text and what follows the closing quote. *)
Fixpoint scanstring (s : pystr) : option (pystr * pystr) :=
  match s with
  | [] => None
  | c :: s1 =>
      if c =? ch_quote then Some ([], s1)
      else if c =? ch_backslash then
        match s1 with
        | [] => None
        | e :: s2 =>
            if e =? 117 then
              match s2 with
              | h1 :: h2 :: h3 :: h4 :: s3 =>
                  match unhex4 h1 h2 h3 h4 with
                  | None => None
                  | Some u =>
                      match s3 with
                      | b :: u' :: l1 :: l2 :: l3 :: l4 :: ((_ :: _) as s4) =>
                          if is_high_surrogate u && (b =? ch_backslash) && (u' =? 117) then
                            match unhex4 l1 l2 l3 l4 with
                            | None => None
                            | Some u2 =>
                                if is_low_surrogate u2
                                then push (join_surrogates u u2) (scanstring s4)
                                else push u (scanstring s3)
                            end
                          else push u (scanstring s3)
                      | _ => push u (scanstring s3)
                      end
                  end
              | _ => None
              end
            else
              match unescape e with
              | Some c' => push c' (scanstring s2)
              | None => None
              end
        end
      else if c <=? 31 then None
      else push c (scanstring s1)
  end.

(** The longest run of digits at the head of [s]. *)
Fixpoint span_digits (s : pystr) : pystr * pystr :=
  match s with
  | c :: s' =>
      if is_digit c then let '(ds, rest) := span_digits s' in (c :: ds, rest)
      else ([], s)
  | [] => ([], [])
  end.

(** The number at the head of [s], as its text: an integer part, then a
    fraction and an exponent when they are complete. *)
Definition scan_number (s : pystr) : option (pystr * pystr) :=
  let '(sign, s1) :=
    match s with
    | c :: s' => if c =? 45 then ([c], s') else ([], s)
    | [] => ([], s)
    end in
  match s1 with
  | [] => None
  | c :: s2 =>
      let int_part :=
        if c =? 48 then Some ([c], s2)
        else if is_digit c then let '(ds, rest) := span_digits s2 in Some (c :: ds, rest)
        else None in
      match int_part with
      | None => None
      | Some (ip, s3) =>
          let '(frac, s4) :=
            match s3 with
            | dot :: d :: s' =>
                if (dot =? 46) && is_digit d
                then let '(ds, rest) := span_digits s' in (dot :: d :: ds, rest)
                else ([], s3)
            | _ => ([], s3)
            end in
          let '(expo, s5) :=
            match s4 with
            | e :: s' =>
                if (e =? 101) || (e =? 69) then
                  let '(sg, s'') :=
                    match s' with
                    | p :: t => if (p =? 43) || (p =? 45) then ([p], t) else ([], s')
                    | [] => ([], s')
                    end in
                  match span_digits s'' with
                  | ([], _) => ([], s4)
                  | (ds, rest) => (e :: sg ++ ds, rest)
                  end
                else ([], s4)
            | [] => ([], s4)
            end in
          Some (sign ++ ip ++ frac ++ expo, s5)
      end
  end.

(** [s] without the prefix [p], when it starts with it. *)
Definition after_prefix (p s : pystr) : option pystr :=
  if startswith p s then Some (List.skipn (List.length p) s) else None.

(** The scanner: one JSON value at the head of [s] and the text after it.
    [fuel] bounds the nesting of calls. *)
Fixpoint parse_value (fuel : nat) (s : pystr) {struct fuel} : option (value * pystr) :=
  match fuel with
  | O => None
  | S fuel' =>
      match s with
      | [] => None
      | c :: s1 =>
          if c =? ch_quote then
            match scanstring s1 with
            | Some (body, rest) => Some (VStr body, rest)
            | None => None
            end
          else if c =? 123 then
            match skip_ws s1 with
            | [] => None
            | (c' :: s2) as s1' =>
                if c' =? 125 then Some (VDict [], s2)
                else parse_members fuel' [] s1'
            end
          else if c =? 91 then
            match skip_ws s1 with
            | [] => None
            | (c' :: s2) as s1' =>
                if c' =? 93 then Some (VList [], s2)
                else parse_elements fuel' [] s1'
            end
          else
            match after_prefix (py "null") s, after_prefix (py "true") s,
                  after_prefix (py "false") s, after_prefix (py "NaN") s,
                  after_prefix (py "Infinity") s, after_prefix (py "-Infinity") s with
            | Some rest, _, _, _, _, _ => Some (VNone, rest)
            | _, Some rest, _, _, _, _ => Some (VBool true, rest)
            | _, _, Some rest, _, _, _ => Some (VBool false, rest)
            | _, _, _, Some rest, _, _ => Some (VNum (py "NaN"), rest)
            | _, _, _, _, Some rest, _ => Some (VNum (py "Infinity"), rest)
            | _, _, _, _, _, Some rest => Some (VNum (py "-Infinity"), rest)
            | _, _, _, _, _, _ =>
                match scan_number s with
                | Some (lexeme, rest) => Some (VNum lexeme, rest)
                | None => None
                end
            end
      end
  end
with parse_members (fuel : nat) (acc : dict) (s : pystr) {struct fuel} : option (value * pystr) :=
  match fuel with
  | O => None
  | S fuel' =>
      match s with
      | [] => None
      | q :: s1 =>
          if q =? ch_quote then
            match scanstring s1 with
            | None => None
            | Some (key, s2) =>
                match skip_ws s2 with
                | [] => None
                | colon :: s3 =>
                    if colon =? 58 then
                      match parse_value fuel' (skip_ws s3) with
                      | None => None
                      | Some (v, s4) =>
                          let acc' := dict_set acc key v in
                          match skip_ws s4 with
                          | [] => None
                          | d :: s5 =>
                              if d =? 125 then Some (VDict acc', s5)
                              else if d =? 44 then parse_members fuel' acc' (skip_ws s5)
                              else None
                          end
                      end
                    else None
                end
            end
          else None
      end
  end
with parse_elements (fuel : nat) (acc : list value) (s : pystr) {struct fuel} : option (value * pystr) :=
  match fuel with
  | O => None
  | S fuel' =>
      match parse_value fuel' s with
      | None => None
      | Some (v, s1) =>
          let acc' := acc ++ [v] in
          match skip_ws s1 with
          | [] => None
          | d :: s2 =>
              if d =? 93 then Some (VList acc', s2)
              else if d =? 44 then parse_elements fuel' acc' (skip_ws s2)
              else None
          end
      end
  end.

(** [json.loads(text)]: one value, white space around it, nothing else;
    [None] where Python raises [JSONDecodeError]. *)
Definition json_loads (text : pystr) : option value :=
  if startswith [65279] text then None
  else
    match parse_value (2 * List.length text + 2) (skip_ws text) with
    | Some (v, rest) => if str_empty (skip_ws rest) then Some v else None
    | None => None
    end.

(** ** Paths

    [pathlib.Path] on a POSIX system, as far as the program uses it: a path
    is its root and its components, with empty and [.] components dropped. *)

Record path := {
  path_root : pystr;
  path_parts : list pystr
}.

Definition ch_slash : N := 47.
Definition ch_dot : N := 46.

Definition Path (s : pystr) : path :=
  {| path_root :=
       match s with
       | 47 :: 47 :: 47 :: _ => [ch_slash]
       | 47 :: 47 :: _ => [ch_slash; ch_slash]
       | 47 :: _ => [ch_slash]
       | _ => []
       end;
     path_parts :=
       List.filter (fun x => negb (str_empty x) && negb (str_eqb x [ch_dot]))
                   (split_char ch_slash s) |}.

(** [str(p)] *)
Definition path_str (p : path) : pystr :=
  match path_root p, path_parts p with
  | [], [] => [ch_dot]
  | root, parts => root ++ join [ch_slash] parts
  end.

(** [p.parent] *)
Definition path_parent (p : path) : path :=
  {| path_root := path_root p; path_parts := List.removelast (path_parts p) |}.

(** [p.name] *)
Definition path_name (p : path) : pystr := List.last (path_parts p) [].

(** [s.rfind(c)] *)
Fixpoint rfind_char (c : N) (s : pystr) : option nat :=
  match s with
  | [] => None
  | x :: s' =>
      match rfind_char c s' with
      | Some i => Some (S i)
      | None => if x =? c then Some O else None
      end
  end.

(** [p.stem]: the name without its last suffix; a leading or a final dot
    starts no suffix. *)
Definition path_stem (p : path) : pystr :=
  let name := path_name p in
  match rfind_char ch_dot name with
  | Some i =>
      if (Nat.ltb 0 i) && (Nat.ltb i (List.length name - 1))
      then List.firstn i name else name
  | None => name
  end.

(** [p / child] *)
Definition path_join (p : path) (child : pystr) : path :=
  let c := Path child in
  match path_root c with
  | [] => {| path_root := path_root p; path_parts := path_parts p ++ path_parts c |}
  | _ :: _ => c
  end.

(** ** Operations on the world *)

Definition set_files (f : gmap pystr pystr -> gmap pystr pystr) (w : world) : world :=
  {| files := f (files w); unreadable := unreadable w; unwritable := unwritable w;
     unchmodable := unchmodable w; modes := modes w; stdin := stdin w;
     console := console w; requests := requests w; api := api w;
     style_normalize := style_normalize w; literal_error := literal_error w;
     client_refused := client_refused w; locale_extra := locale_extra w;
     codec_error := codec_error w |}.

Definition set_modes (f : gmap pystr N -> gmap pystr N) (w : world) : world :=
  {| files := files w; unreadable := unreadable w; unwritable := unwritable w;
     unchmodable := unchmodable w; modes := f (modes w); stdin := stdin w;
     console := console w; requests := requests w; api := api w;
     style_normalize := style_normalize w; literal_error := literal_error w;
     client_refused := client_refused w; locale_extra := locale_extra w;
     codec_error := codec_error w |}.

Definition set_stdin (f : list pystr -> list pystr) (w : world) : world :=
  {| files := files w; unreadable := unreadable w; unwritable := unwritable w;
     unchmodable := unchmodable w; modes := modes w; stdin := f (stdin w);
     console := console w; requests := requests w; api := api w;
     style_normalize := style_normalize w; literal_error := literal_error w;
     client_refused := client_refused w; locale_extra := locale_extra w;
     codec_error := codec_error w |}.

Definition set_console (f : list pystr -> list pystr) (w : world) : world :=
  {| files := files w; unreadable := unreadable w; unwritable := unwritable w;
     unchmodable := unchmodable w; modes := modes w; stdin := stdin w;
     console := f (console w); requests := requests w; api := api w;
     style_normalize := style_normalize w; literal_error := literal_error w;
     client_refused := client_refused w; locale_extra := locale_extra w;
     codec_error := codec_error w |}.

Definition set_requests (f : list request -> list request) (w : world) : world :=
  {| files := files w; unreadable := unreadable w; unwritable := unwritable w;
     unchmodable := unchmodable w; modes := modes w; stdin := stdin w;
     console := console w; requests := f (requests w); api := api w;
     style_normalize := style_normalize w; literal_error := literal_error w;
     client_refused := client_refused w; locale_extra := locale_extra w;
     codec_error := codec_error w |}.

(** *** Console markup

    [console.print] reads its argument as markup: a tag is an opening
    bracket, a character among [a-z], [#], [/] and [@], then anything but an
    opening bracket up to the first closing bracket; an odd number of
    backslashes before it makes it plain text. A closing tag must close a
    tag that is open; the library raises [MarkupError] otherwise. *)

Definition is_tag_start (c : N) : bool :=
  ((97 <=? c) && (c <=? 122)) || (c =? 35) || (c =? 47) || (c =? 64).

(** The text of a tag after its first character, up to the closing bracket. *)
Fixpoint tag_body (s : pystr) : option pystr :=
  match s with
  | [] => None
  | c :: s' =>
      if c =? 93 then Some []
      else if c =? 91 then None
      else match tag_body s' with
           | Some b => Some (c :: b)
           | None => None
           end
  end.

(** The text of the tag that starts at the head of [s], if one does. *)
Definition tag_at (s : pystr) : option pystr :=
  match s with
  | 91 :: c :: s' =>
      if is_tag_start c then
        match tag_body s' with
        | Some b => Some (c :: b)
        | None => None
        end
      else None
  | _ => None
  end.

(** The tags of a text with the position of each, as [re.finditer] finds
    them from left to right: [run] counts the backslashes just passed,
    [skip] the characters left of the tag just read. *)
Fixpoint scan_tags (pos : N) (run skip : nat) (s : pystr) : list (N * pystr) :=
  match s with
  | [] => []
  | c :: s' =>
      match skip with
      | S k => scan_tags (pos + 1) 0 k s'
      | O =>
          if c =? ch_backslash then scan_tags (pos + 1) (S run) 0 s'
          else
            match tag_at s with
            | Some text =>
                if Nat.even run
                then (pos, text) :: scan_tags (pos + 1) 0 (S (List.length text)) s'
                else scan_tags (pos + 1) 0 (S (List.length text)) s'
            | None => scan_tags (pos + 1) 0 0 s'
            end
      end
  end.

(** [text.partition("=")]: the name of a tag and its parameters. *)
Definition tag_parts (text : pystr) : pystr * option pystr :=
  match split1 [61] text with
  | [name; parameters] => (name, Some parameters)
  | _ => (text, None)
  end.

(** [str(n)] *)
Fixpoint decimal_from (fuel : nat) (n : N) (acc : pystr) : pystr :=
  match fuel with
  | O => acc
  | S fuel' =>
      let acc' := (48 + n mod 10) :: acc in
      if n <? 10 then acc' else decimal_from fuel' (n / 10) acc'
  end.

Definition decimal (n : N) : pystr :=
  decimal_from (S (N.to_nat (N.log2 n))) n [].

(** The open tags, innermost first: normalized name and parameters. *)
Definition style_stack := list (pystr * option pystr).

(** [pop_style]: the innermost open tag of the given name leaves the stack. *)
Fixpoint pop_style (name : pystr) (stack : style_stack)
    : option ((pystr * option pystr) * style_stack) :=
  match stack with
  | [] => None
  | t :: stack' =>
      if str_eqb (fst t) name then Some (t, stack')
      else match pop_style name stack' with
           | Some (found, rest) => Some (found, t :: rest)
           | None => None
           end
  end.

(** [render] over the tags of a text: the message of the [MarkupError] it
    raises, if it raises one. Tags left open at the end are closed there. *)
Fixpoint render_tags (normalize : pystr -> pystr) (evaluate : pystr -> option pystr)
    (stack : style_stack) (tags : list (N * pystr)) : option pystr :=
  match tags with
  | [] => None
  | (pos, text) :: tags' =>
      let '(name, parameters) := tag_parts text in
      if startswith [47] name then
        let style_name := strip (List.tl name) in
        if str_empty style_name then
          match stack with
          | [] =>
              Some (py "closing tag '[/]' at position " ++ decimal pos
                    ++ py " has nothing to close")
          | open_tag :: stack' =>
              match (if startswith [64] (fst open_tag)
                     then match snd open_tag with
                          | Some p => if str_empty p then None else evaluate p
                          | None => None
                          end
                     else None) with
              | Some msg => Some msg
              | None => render_tags normalize evaluate stack' tags'
              end
          end
        else
          match pop_style (normalize style_name) stack with
          | None =>
              Some (py "closing tag '[" ++ text ++ py "]' at position " ++ decimal pos
                    ++ py " doesn't match any open tag")
          | Some (open_tag, stack') =>
              match (if startswith [64] (fst open_tag)
                     then match snd open_tag with
                          | Some p => if str_empty p then None else evaluate p
                          | None => None
                          end
                     else None) with
              | Some msg => Some msg
              | None => render_tags normalize evaluate stack' tags'
              end
          end
      else render_tags normalize evaluate ((normalize name, parameters) :: stack) tags'
  end.

(** The message of the [MarkupError] that printing [line] raises, if any. *)
Definition console_rejects (w : world) (line : pystr) : option pystr :=
  render_tags (style_normalize w) (literal_error w) [] (scan_tags 0 0 0 line).

(** [console.print(line)]: the line is printed when its markup can be read.
    How it is rendered is the terminal library's business, and the terminal
    is taken to show every character. *)
Definition console_print (line : pystr) : M unit :=
  fun w =>
    match console_rejects w line with
    | Some msg => (Raise (MarkupError msg), w)
    | None => (Ok tt, set_console (fun c => c ++ [line]) w)
    end.

(** [console.clear()]: the screen is wiped; what was printed stays printed. *)
Definition console_clear : M unit := ret tt.

(** [p.exists()]: [stat] fails with [PermissionError] where the directory
    cannot be searched; a file that is not there is no error. *)
Definition path_exists (p : pystr) : M bool :=
  fun w =>
    match unreadable w !! p with
    | Some (Unsearchable msg) => (Raise (OtherError msg), w)
    | _ => (Ok (match files w !! p with Some _ => true | None => false end), w)
    end.

(** [open(p, 'r').read()] *)
Definition read_text (p : pystr) : M pystr :=
  fun w =>
    match unreadable w !! p with
    | Some r => (Raise (OtherError (refusal_text r)), w)
    | None =>
        match files w !! p with
        | None =>
            (Raise (FileNotFoundError
                      (py "[Errno 2] No such file or directory: '" ++ p ++ py "'")), w)
        | Some text => (Ok text, w)
        end
    end.

(** [open(p, 'w')]: the file is created or emptied. *)
Definition open_write (p : pystr) : M unit :=
  fun w =>
    match unwritable w !! p with
    | Some msg => (Raise (OtherError msg), w)
    | None => (Ok tt, set_files (fun fs => <[p := []]> fs) w)
    end.

(** The characters the locale's encoding can write: those of ASCII and
    whichever others it covers. *)
Definition encodable (w : world) (c : N) : bool :=
  (c <? 128) || locale_extra w c.

(** [f.write(text)] on the file opened at [p], in the locale's encoding: a
    text it cannot encode raises [UnicodeEncodeError] and nothing of it is
    written. *)
Definition file_write (p : pystr) (text : pystr) : M unit :=
  fun w =>
    if List.forallb (encodable w) text
    then (Ok tt, set_files (fun fs => <[p := default [] (fs !! p) ++ text]> fs) w)
    else (Raise (OtherError (codec_error w text)), w).

(** [os.chmod(p, mode)] *)
Definition chmod (p : pystr) (mode : N) : M unit :=
  fun w =>
    match unchmodable w !! p with
    | Some msg => (Raise (OtherError msg), w)
    | None => (Ok tt, set_modes (fun ms => <[p := mode]> ms) w)
    end.

(** [Prompt.ask(..., default=d)]: an empty line stands for the default,
    any other answer is stripped. *)
Definition prompt_ask (d : value) : M value :=
  fun w =>
    match stdin w with
    | [] => (Raise EOFError, w)
    | line :: rest =>
        (Ok (if str_empty line then d else VStr (strip line)), set_stdin (fun _ => rest) w)
    end.

(** [openai.OpenAI(base_url=..., api_key=...)] *)
Record client := {
  base_url : pystr;
  api_key : value
}.

(** [openai.OpenAI(base_url=url, api_key=key)]: the constructor checks its
    arguments and raises where it rejects them. *)
Definition OpenAI (url : pystr) (key : value) : M client :=
  fun w =>
    match client_refused w url key with
    | Some msg => (Raise (OtherError msg), w)
    | None => (Ok {| base_url := url; api_key := key |}, w)
    end.

(** [client.chat.completions.create(...)]: the call is issued, and the
    service answers or fails. *)
Definition chat_create (c : client) (model : value) (messages : list (pystr * pystr))
    (max_tokens : N) (temperature : option Q) : M (list (option pystr)) :=
  fun w =>
    let r := {| req_base_url := base_url c; req_api_key := api_key c;
                req_model := model; req_messages := messages;
                req_max_tokens := max_tokens; req_temperature := temperature |} in
    let w' := set_requests (fun rs => rs ++ [r]) w in
    match api w r with
    | ApiRaise msg => (Raise (APIError msg), w')
    | ApiResponse choices => (Ok choices, w')
    end.

(** ** Dynamic typing *)

Definition type_name (v : value) : pystr :=
  match v with
  | VNone => py "NoneType"
  | VBool _ => py "bool"
  | VNum lexeme =>
      if List.existsb (in_chars (py ".eENI")) lexeme then py "float" else py "int"
  | VStr _ => py "str"
  | VList _ => py "list"
  | VDict _ => py "dict"
  end.

Definition no_attribute (v : value) (attr : pystr) : exn :=
  AttributeError (py "'" ++ type_name v ++ py "' object has no attribute '" ++ attr ++ py "'").

(** [bool(v)] *)
Definition truthy (v : value) : M bool :=
  match v with
  | VNone => ret false
  | VBool b => ret b
  | VNum _ => raise Unmodelled
  | VStr s => ret (negb (str_empty s))
  | VList l => ret (match l with [] => false | _ => true end)
  | VDict d => ret (match d with [] => false | _ => true end)
  end.

(** [str(v)], as an f-string formats [v]. *)
Definition str_of (v : value) : M pystr :=
  match v with
  | VNone => ret (py "None")
  | VBool true => ret (py "True")
  | VBool false => ret (py "False")
  | VStr s => ret s
  | VNum _ | VList _ | VDict _ => raise Unmodelled
  end.

(** [items.get(k, d)] on a dictionary. *)
Definition dict_get (items : dict) (k : pystr) (d : value) : value :=
  default d (dict_lookup items k).

(** [v.get(k, d)] *)
Definition config_get (config : value) (k : pystr) (d : value) : M value :=
  match config with
  | VDict items => ret (dict_get items k d)
  | _ => raise (no_attribute config (py "get"))
  end.

(** [v.rstrip(chars)] *)
Definition value_rstrip (v : value) (chars : pystr) : M pystr :=
  match v with
  | VStr s => ret (rstrip_with (in_chars chars) s)
  | _ => raise (no_attribute v (py "rstrip"))
  end.

(** ** The application: [ChngApp]

    [self.config] is the argument [config] of every method; [setup], the one
    method that assigns it, returns the new configuration. *)

(** [Path.home() / ".apikey"], as the shell spells it. *)
Definition config_file : pystr := py "~/.apikey".

Definition default_model : pystr := py "gpt-3.5-turbo".

Definition load_config : M value :=
  found <- path_exists config_file;;
  if found then
    try_except_all
      (text <- read_text config_file;;
       match json_loads text with
       | Some v => ret v
       | None => raise JSONDecodeError
       end)
      (ret (VDict []))
  else ret (VDict []).

Definition save_config (config : value) : M unit :=
  try_except
    (open_write config_file;;;
     text <- match json_dumps config with
             | Some t => ret t
             | None => raise Unmodelled
             end;;
     file_write config_file text;;;
     chmod config_file 384)
    (fun e => console_print (py "[red]Error saving config: " ++ exn_message e ++ py "[/red]")).

Definition get_api_url (config : value) : M (option pystr) :=
  u <- config_get config (py "url") (VStr []);;
  url <- value_rstrip u (py "/");;
  port <- config_get config (py "port") (VStr []);;
  if str_empty url then ret None
  else
    given <- truthy port;;
    if given then
      p <- str_of port;;
      if negb (contains (py ":" ++ p) url) then
        if contains (py "://") url then
          match split1 (py "://") url with
          | [protocol; rest] =>
              (* a split never returns an empty list *)
              let host := List.hd [] (split_char 58 (List.hd [] (split_char ch_slash rest))) in
              let path :=
                if contains (py "/") rest
                then py "/" ++ join (py "/") (List.tl (split_char ch_slash rest))
                else [] in
              ret (Some (protocol ++ py "://" ++ host ++ py ":" ++ p ++ path))
          | _ => raise (ValueError (py "not enough values to unpack (expected 2, got 1)"))
          end
        else ret (Some url)
      else ret (Some url)
    else ret (Some url).

Definition get_client (config : value) : M (option client) :=
  api_url <- get_api_url config;;
  key <- config_get config (py "key") (VStr []);;
  match api_url with
  | None | Some [] =>
      console_print (py "[red]Error: No API URL configured. Run with --setup[/red]");;;
      ret None
  | Some url =>
      given <- truthy key;;
      c <- OpenAI url (if given then key else VStr (py "dummy"));;
      ret (Some c)
  end.

Definition test_connection (config : value) : M bool :=
  try_except_all
    (c <- get_client config;;
     match c with
     | None => ret false
     | Some c =>
         model <- config_get config (py "model") (VStr default_model);;
         _ <- chat_create c model [(py "user", py "test")] 1 None;;
         ret true
     end)
    (ret false).

Definition setup (config : value) : M value :=
  console_clear;;;
  console_print (py "[bold blue]API Configuration Setup[/bold blue]" ++ [ch_newline]);;;
  current_url <- config_get config (py "url") (VStr []);;
  url <- prompt_ask current_url;;
  current_port <- config_get config (py "port") (VStr []);;
  has_port <- truthy current_port;;
  port_default <- (if has_port then str_of current_port else ret []);;
  port <- prompt_ask (VStr port_default);;
  current_key <- config_get config (py "key") (VStr []);;
  key <- prompt_ask current_key;;
  current_model <- config_get config (py "model") (VStr default_model);;
  model <- prompt_ask current_model;;
  let config' :=
    VDict [(py "url", url); (py "port", port); (py "key", key); (py "model", model)] in
  has_url <- truthy url;;
  has_key <- truthy key;;
  has_model <- truthy model;;
  let warnings :=
    (if has_url then [] else [py "URL is empty"]) ++
    (if has_key then [] else [py "API key is empty"]) ++
    (if has_model then [] else [py "Model is empty"]) in
  match warnings with
  | [] => ret tt
  | _ =>
      console_print ([ch_newline] ++ py "[yellow]Warning: " ++ join (py ", ") warnings ++ py "[/yellow]");;;
      console_print (py "[yellow]The app may not work properly without these values.[/yellow]")
  end;;;
  save_config config';;;
  console_print ([ch_newline] ++ py "[green]" ++ [10003] ++ py " Configuration saved to ~/.apikey[/green]");;;
  shown <- str_of model;;
  console_print (py "[blue]Using model: " ++ shown ++ py "[/blue]");;;
  console_print ([ch_newline] ++ py "[blue]Testing API connection...[/blue]");;;
  ok <- test_connection config';;
  (if ok
   then console_print (py "[green]" ++ [10003] ++ py " Connection successful![/green]")
   else console_print (py "[red]" ++ [10007] ++ py " Connection failed. Please check your settings.[/red]"));;;
  ret config'.

Definition prompt_for (diff_content : pystr) : pystr :=
  py "You are an expert software developer writing a changelog entry.

Given this git diff, create a concise, well-formatted changelog entry in markdown format.

Guidelines:
- Use clear, user-facing language
- Group related changes together
- Use bullet points for multiple changes
- Follow conventional changelog format (Added, Changed, Fixed, Removed, etc.)

Diff:
```
" ++ diff_content ++ py "
```

Generate a changelog entry:".

Definition generate_changelog (config : value) (diff_content : pystr) : M (option pystr) :=
  let prompt := prompt_for diff_content in
  c <- get_client config;;
  match c with
  | None => ret None
  | Some c =>
      try_except
        (model <- config_get config (py "model") (VStr default_model);;
         choices <- chat_create c model [(py "user", prompt)] 1000 (Some (3 # 10)%Q);;
         match choices with
         | [] => raise (IndexError (py "list index out of range"))
         | None :: _ => raise (no_attribute VNone (py "strip"))
         | Some content :: _ => ret (Some (strip content))
         end)
        (fun e =>
           console_print (py "[red]Error: " ++ exn_message e ++ py "[/red]");;;
           ret None)
  end.

(** [Path(filepath).parent / f"changelog-{Path(filepath).stem}.md"] *)
Definition output_file (filepath : pystr) : pystr :=
  path_str (path_join (path_parent (Path filepath))
                      (py "changelog-" ++ path_stem (Path filepath) ++ py ".md")).

Definition rule : pystr := List.repeat 61 60.

Definition process_file (config : value) (filepath : pystr) : M unit :=
  read <- try_except
            (text <- read_text filepath;; ret (Some (strip text)))
            (fun e =>
               match e with
               | FileNotFoundError _ =>
                   console_print (py "[red]Error: File '" ++ filepath ++ py "' not found[/red]");;;
                   ret None
               | _ =>
                   console_print (py "[red]Error reading file: " ++ exn_message e ++ py "[/red]");;;
                   ret None
               end);;
  match read with
  | None => ret tt
  | Some [] => console_print (py "[red]Error: File is empty[/red]")
  | Some content =>
      console_print (py "[blue]Processing " ++ filepath ++ py "...[/blue]");;;
      changelog <- generate_changelog config content;;
      match changelog with
      | None | Some [] => ret tt
      | Some changelog =>
          console_print ([ch_newline] ++ py "[bold green]Generated Changelog:[/bold green]");;;
          console_print rule;;;
          console_print changelog;;;
          console_print rule;;;
          try_except
            (open_write (output_file filepath);;;
             file_write (output_file filepath) (py "# Changelog" ++ [ch_newline; ch_newline] ++ changelog);;;
             console_print ([ch_newline] ++ py "[green]" ++ [10003] ++ py " Saved to "
                            ++ output_file filepath ++ py "[/green]"))
            (fun e =>
               console_print (py "[red]Error saving changelog: " ++ exn_message e ++ py "[/red]"))
      end
  end.

(** [main()], with [sys.argv] as [argv]. *)
Definition main (argv : list pystr) : M unit :=
  config <- load_config;;
  match argv with
  | [] | [_] =>
      console_print (py "Usage: chng <diff_file> or chng --setup");;;
      raise (SystemExit 1)
  | _ :: arg :: _ =>
      if str_eqb arg (py "--setup") then
        _ <- setup config;; ret tt
      else
        url <- config_get config (py "url") VNone;;
        configured <- truthy url;;
        if negb configured then
          console_print (py "[yellow]No API configuration found. Running setup...[/yellow]" ++ [ch_newline]);;;
          _ <- setup config;;
          console_print ([ch_newline] ++ py "[blue]Now you can run: chng <diff_file>[/blue]")
        else process_file config arg
  end.

(** The exit status of the process: [sys.exit(n)] gives [n], an exception
    nothing catches gives 1, a run that reaches the end of [main] gives 0. *)
Definition exit_status (argv : list pystr) (w : world) : option Z :=
  match fst (main argv w) with
  | Ok _ => Some 0%Z
  | Raise (SystemExit n) => Some n
  | Raise Unmodelled => None
  | Raise _ => Some 1%Z
  end.

(** ** Vocabulary of the statements *)

(** A Unicode scalar value: a code point that is no surrogate. *)
Definition is_scalar (c : N) : bool :=
  (c <? 1114112) && negb ((55296 <=? c) && (c <=? 57343)).

(** A style name stripped and in lower case, which is its normal form for
    the colours and attributes the program uses. *)
Definition style_lower (s : pystr) : pystr :=
  List.map (fun c => if (65 <=? c) && (c <=? 90) then c + 32 else c) (strip s).

(** A machine with a UTF-8 locale, on which every tag parameter evaluates
    and the client library accepts every address: its files, the paths it
    refuses to read, to write and to change the mode of, the lines the user
    will type and the completion service. *)
Definition machine (fs : gmap pystr pystr) (ur : gmap pystr refusal)
    (uw uc : gmap pystr pystr) (lines : list pystr) (service : request -> reply) : world :=
  {| files := fs; unreadable := ur; unwritable := uw; unchmodable := uc; modes := ∅;
     stdin := lines; console := []; requests := []; api := service;
     style_normalize := style_lower;
     literal_error := fun _ => None;
     client_refused := fun _ _ => None;
     locale_extra := is_scalar;
     codec_error := fun _ => py "'utf-8' codec can't encode characters" |}.

Definition world0 : world := machine ∅ ∅ ∅ ∅ [] (fun _ => ApiRaise []).

(** A computation that neither reads nor changes the world. *)
Definition pure_m {A} (m : M A) : Prop := exists r, forall w, m w = (r, w).

(** The line [generate_changelog] prints for an error with text [msg]. *)
Definition error_line (msg : pystr) : pystr :=
  py "[red]Error: " ++ msg ++ py "[/red]".

(** The request [generate_changelog] sends for a diff. *)
Definition changelog_request (c : client) (items : dict) (diff_content : pystr) : request :=
  {| req_base_url := base_url c; req_api_key := api_key c;
     req_model := dict_get items (py "model") (VStr default_model);
     req_messages := [(py "user", prompt_for diff_content)];
     req_max_tokens := 1000; req_temperature := Some (3 # 10)%Q |}.

Definition processing_line (filepath : pystr) : pystr :=
  py "[blue]Processing " ++ filepath ++ py "...[/blue]".

(** The world after [console.print] printed each of [lines]. *)
Definition printed (lines : list pystr) (w : world) : world :=
  List.fold_left (fun w line => set_console (fun c => c ++ [line]) w) lines w.

(** The lines [process_file] prints around a changelog. *)
Definition changelog_banner (changelog : pystr) : list pystr :=
  [[ch_newline] ++ py "[bold green]Generated Changelog:[/bold green]";
   rule; changelog; rule].

(** The line that names the file the changelog was saved to. *)
Definition saved_line (filepath : pystr) : pystr :=
  [ch_newline] ++ py "[green]" ++ [10003] ++ py " Saved to "
  ++ output_file filepath ++ py "[/green]".

(** The line [process_file] prints when saving fails with text [msg]. *)
Definition save_error_line (msg : pystr) : pystr :=
  py "[red]Error saving changelog: " ++ msg ++ py "[/red]".

(** The text [process_file] writes for a changelog. *)
Definition changelog_text (changelog : pystr) : pystr :=
  py "# Changelog" ++ [ch_newline; ch_newline] ++ changelog.

Definition local_config : dict :=
  [(py "url", VStr (py "http://localhost:11434/v1")); (py "port", VStr []);
   (py "key", VStr []); (py "model", VStr (py "llama2"))].

Definition local_client : client :=
  {| base_url := py "http://localhost:11434/v1"; api_key := VStr (py "dummy") |}.

(** A directory with one diff, and a service that answers every request
    with [answer]. *)
Definition diff_world (name text : pystr) (answer : reply) : world :=
  machine {[ name := text ]} ∅ ∅ ∅ [] (fun _ => answer).

(** A home directory that holds the configuration file with [text]. *)
Definition world_with_config (text : pystr) : world :=
  machine {[ config_file := text ]} ∅ ∅ ∅ [] (fun _ => ApiRaise []).

(** The line [process_file] prints for a file that is not there. *)
Definition not_found_line (filepath : pystr) : pystr :=
  py "[red]Error: File '" ++ filepath ++ py "' not found[/red]".

(** The line [process_file] prints for a file it could not read. *)
Definition read_error_line (msg : pystr) : pystr :=
  py "[red]Error reading file: " ++ msg ++ py "[/red]".

(** The configuration [setup] builds from four answers. *)
Definition config_record (url port key model : pystr) : value :=
  VDict [(py "url", VStr url); (py "port", VStr port);
         (py "key", VStr key); (py "model", VStr model)].

(** The text [json.dump(config, f, indent=2)] writes for it. *)
Definition config_text (url port key model : pystr) : pystr :=
  py "{" ++ newline_indent 1 ++
  encode_string (py "url") ++ py ": " ++ encode_string url ++ py "," ++ newline_indent 1 ++
  encode_string (py "port") ++ py ": " ++ encode_string port ++ py "," ++ newline_indent 1 ++
  encode_string (py "key") ++ py ": " ++ encode_string key ++ py "," ++ newline_indent 1 ++
  encode_string (py "model") ++ py ": " ++ encode_string model ++
  newline_indent 0 ++ py "}".

(** The line [save_config] prints when saving fails with text [msg]. *)
Definition config_error_line (msg : pystr) : pystr :=
  py "[red]Error saving config: " ++ msg ++ py "[/red]".

(** A home directory whose configuration file was written by [save_config]
    for [local_config], beside the files [fs]. *)
Definition configured_world (fs : gmap pystr pystr) (answer : reply) : world :=
  machine (<[config_file := config_text (py "http://localhost:11434/v1") [] [] (py "llama2")]> fs)
    ∅ ∅ ∅ [] (fun _ => answer).

(** A text of the service that names a route in brackets. *)
Definition route_error : pystr :=
  py "Error code: 404 - {'error': 'unknown route [/v1/chat/completions]'}".

(** The request [test_connection] sends. *)
Definition test_request (c : client) (items : dict) : request :=
  {| req_base_url := base_url c; req_api_key := api_key c;
     req_model := dict_get items (py "model") (VStr default_model);
     req_messages := [(py "user", py "test")];
     req_max_tokens := 1; req_temperature := None |}.

(** A world where nothing can be written to the configuration file. *)
Definition readonly_home (msg : pystr) : world :=
  machine ∅ ∅ {[ config_file := msg ]} ∅ [] (fun _ => ApiRaise []).

(** A world where the permissions of the configuration file cannot be set. *)
Definition fixed_modes_home (msg : pystr) : world :=
  machine ∅ ∅ ∅ {[ config_file := msg ]} [] (fun _ => ApiRaise []).

(** A directory with one diff where [refused] cannot be opened for writing. *)
Definition locked_world (name text refused msg : pystr) (answer : reply) : world :=
  machine {[ name := text ]} ∅ {[ refused := msg ]} ∅ [] (fun _ => answer).

(** A directory with one diff on a machine whose locale encodes the
    characters below 256 only. *)
Definition charmap_world (name text : pystr) (answer : reply) : world :=
  {| files := {[ name := text ]}; unreadable := ∅; unwritable := ∅; unchmodable := ∅;
     modes := ∅; stdin := []; console := []; requests := []; api := fun _ => answer;
     style_normalize := style_lower;
     literal_error := fun _ => None;
     client_refused := fun _ _ => None;
     locale_extra := fun c => c <? 256;
     codec_error := fun _ => py "'charmap' codec can't encode character" |}.

(** What [Prompt.ask] returns for a typed line when the current value is a
    string: the current value for an empty line, the stripped line otherwise. *)
Definition answered (current line : pystr) : pystr :=
  if str_empty line then current else strip line.

(** The two lines [setup] prints when an answer it needs is empty. *)
Definition setup_warnings (url key model : pystr) : list pystr :=
  match (if str_empty url then [py "URL is empty"] else []) ++
        (if str_empty key then [py "API key is empty"] else []) ++
        (if str_empty model then [py "Model is empty"] else []) with
  | [] => []
  | warnings =>
      [[ch_newline] ++ py "[yellow]Warning: " ++ join (py ", ") warnings ++ py "[/yellow]";
       py "[yellow]The app may not work properly without these values.[/yellow]"]
  end.

(** The line [setup] prints to name the model. *)
Definition model_line (model : pystr) : pystr :=
  py "[blue]Using model: " ++ model ++ py "[/blue]".

(** What [setup] prints between saving and testing. *)
Definition setup_saved_lines (model : pystr) : list pystr :=
  [[ch_newline] ++ py "[green]" ++ [10003] ++ py " Configuration saved to ~/.apikey[/green]";
   model_line model;
   [ch_newline] ++ py "[blue]Testing API connection...[/blue]"].

Definition setup_verdict (ok : bool) : pystr :=
  if ok then py "[green]" ++ [10003] ++ py " Connection successful![/green]"
  else py "[red]" ++ [10007] ++ py " Connection failed. Please check your settings.[/red]".

(** A fresh home directory and a user who types [lines]. *)
Definition typing_world (lines : list pystr) : world :=
  machine ∅ ∅ ∅ ∅ lines (fun _ => ApiRaise []).

(** A home directory that refuses the configuration file, and a user who
    types [lines]. *)
Definition readonly_typing_world (msg : pystr) (lines : list pystr) : world :=
  machine ∅ ∅ {[ config_file := msg ]} ∅ lines (fun _ => ApiRaise []).

(** A machine whose client library rejects a port that is no number. *)
Definition strict_client_world : world :=
  {| files := ∅; unreadable := ∅; unwritable := ∅; unchmodable := ∅;
     modes := ∅; stdin := []; console := []; requests := [];
     api := fun _ => ApiRaise [];
     style_normalize := style_lower;
     literal_error := fun _ => None;
     client_refused := fun url _ =>
       if contains (py ":abc") url then Some (py "Invalid port: 'abc'") else None;
     locale_extra := is_scalar;
     codec_error := fun _ => py "'utf-8' codec can't encode characters" |}.

(** * Properties *)



Section Strings.

Lemma startswith_true p s : startswith p s = true <-> exists t, s = p ++ t.
Proof.
  revert s. induction p as [|x p IH]; intros s; simpl.
  - split; eauto.
  - destruct s as [|y s]; simpl.
    + split; [discriminate | intros [t Ht]; discriminate].
    + rewrite andb_true_iff, N.eqb_eq, IH. split.
      * intros [-> [t ->]]. eauto.
      * intros [t Ht]. injection Ht as -> ->. eauto.
Qed.

Lemma skipn_length_app (p t : pystr) : List.skipn (List.length p) (p ++ t) = t.
Proof. induction p; simpl; auto. Qed.

Lemma contains_true sub s : contains sub s = true <-> exists a b, s = a ++ sub ++ b.
Proof.
  induction s as [|x s IH]; simpl.
  - rewrite orb_false_r, startswith_true. split.
    + intros [t Ht]. exists [], t. exact Ht.
    + intros [a [b H]]. destruct a; simpl in H.
      * eauto.
      * discriminate.
  - rewrite orb_true_iff, startswith_true, IH. split.
    + intros [[t Ht] | [a [b Hab]]].
      * exists [], t. exact Ht.
      * exists (x :: a), b. simpl. now f_equal.
    + intros [a [b H]]. destruct a as [|y a]; simpl in H.
      * left. eauto.
      * right. injection H as _ ->. eauto.
Qed.

Lemma contains_single c s : contains [c] s = true <-> List.In c s.
Proof.
  rewrite contains_true. split.
  - intros [a [b ->]]. apply in_or_app. right. now left.
  - intros H. apply in_split in H as [a [b ->]]. exists a, b. reflexivity.
Qed.

(** [split1] cuts at the first occurrence of the separator. *)
Lemma split1_cut sep s :
  sep <> [] -> contains sep s = true ->
  exists a b, split1 sep s = [a; b] /\ s = a ++ sep ++ b /\
    forall a' b', s = a' ++ sep ++ b' -> (List.length a <= List.length a')%nat.
Proof.
  intros Hsep. induction s as [|x s IH]; intros Hc.
  - simpl in Hc. rewrite orb_false_r in Hc. destruct sep; [congruence | discriminate].
  - simpl. destruct (startswith sep (x :: s)) eqn:Hs.
    + apply startswith_true in Hs as [t Ht]. exists [], t. rewrite Ht.
      rewrite skipn_length_app. repeat split. simpl. intros. lia.
    + simpl in Hc. rewrite Hs in Hc. simpl in Hc.
      destruct (IH Hc) as [a [b [E [Hab Hmin]]]]. rewrite E.
      exists (x :: a), b. repeat split.
      * simpl. now f_equal.
      * intros a' b' H'. destruct a' as [|y a']; simpl in H'.
        -- assert (startswith sep (x :: s) = true) by (apply startswith_true; eauto).
           congruence.
        -- injection H' as _ H'. simpl. specialize (Hmin _ _ H'). lia.
Qed.

Lemma split1_none sep s : contains sep s = false -> split1 sep s = [s].
Proof.
  induction s as [|x s IH]; simpl; intros H.
  - rewrite orb_false_r in H. now rewrite H.
  - apply orb_false_iff in H as [H1 H2]. rewrite H1, (IH H2). reflexivity.
Qed.

(** [split_char] cuts at every occurrence; the first piece and the rest. *)
Lemma split_char_cut c s :
  exists h t, split_char c s = h :: t /\ ~ List.In c h /\
    ((t = [] /\ s = h /\ ~ List.In c s) \/
     (t <> [] /\ s = h ++ c :: join [c] t /\ List.In c s)).
Proof.
  induction s as [|x s IH]; simpl.
  - exists [], []. repeat split; auto.
  - destruct IH as [h [t [E [Hh Hcase]]]]. rewrite E.
    destruct (N.eqb_spec x c) as [->|Hne].
    + exists [], (h :: t). split; [reflexivity|]. split; [intros []|].
      right. split; [congruence|]. split; [|now left].
      simpl. f_equal. destruct Hcase as [[-> [-> _]] | [Ht [-> _]]]; simpl; auto.
      destruct t; [congruence | reflexivity].
    + exists (x :: h), t. split; [reflexivity|]. split.
      * intros [H | H]; [congruence | auto].
      * destruct Hcase as [[-> [-> Hn]] | [Ht [-> Hin]]].
        -- left. repeat split; auto; intros [H | H]; [congruence | auto].
        -- right. repeat split; auto; now right.
Qed.

End Strings.

Lemma get_api_url_string_fields (items : dict) (raw port : pystr) (w : world) :
  dict_get items (py "url") (VStr []) = VStr raw ->
  dict_get items (py "port") (VStr []) = VStr port ->
  get_api_url (VDict items) w =
  (let url := rstrip_with (in_chars (py "/")) raw in
   if str_empty url then Ok None
   else if negb (str_empty port) && negb (contains (py ":" ++ port) url)
           && contains (py "://") url
        then match split1 (py "://") url with
             | [protocol; rest] =>
                 Ok (Some (protocol ++ py "://"
                           ++ List.hd [] (split_char 58 (List.hd [] (split_char ch_slash rest)))
                           ++ py ":" ++ port
                           ++ (if contains (py "/") rest
                               then py "/" ++ join (py "/") (List.tl (split_char ch_slash rest))
                               else [])))
             | _ => Raise (ValueError (py "not enough values to unpack (expected 2, got 1)"))
             end
        else Ok (Some url), w).
Proof.
  intros Hu Hp. unfold get_api_url, config_get, bind, ret. rewrite Hu, Hp.
  unfold value_rstrip, ret. cbv zeta.
  generalize (rstrip_with (in_chars (py "/")) raw). intros url.
  destruct (str_empty url); [reflexivity|].
  unfold truthy, str_of, raise, ret.
  destruct (str_empty port); cbn [negb andb]; cbv beta iota; [reflexivity|].
  destruct (contains (py ":" ++ port) url); cbn [negb andb]; [reflexivity|].
  destruct (contains (py "://") url); cbn [negb andb]; [|reflexivity].
  destruct (split1 (py "://") url) as [|? [|? [|? ?]]]; reflexivity.
Qed.

Lemma get_api_url_rebuilds (items : dict) (raw url port : pystr) (w : world) :
  dict_get items (py "url") (VStr []) = VStr raw ->
  dict_get items (py "port") (VStr []) = VStr port ->
  url = rstrip_with (in_chars (py "/")) raw ->
  contains (py "://") url = true ->
  port <> [] ->
  contains (py ":" ++ port) url = false ->
  exists scheme host ignored path,
    url = scheme ++ py "://" ++ host ++ ignored ++ path /\
    (forall a b, url = a ++ py "://" ++ b -> (List.length scheme <= List.length a)%nat) /\
    ~ List.In 58 host /\ ~ List.In ch_slash host /\
    (ignored = [] \/ exists i, ignored = 58 :: i) /\ ~ List.In ch_slash ignored /\
    (path = [] \/ exists p, path = ch_slash :: p) /\
    get_api_url (VDict items) w =
      (Ok (Some (scheme ++ py "://" ++ host ++ py ":" ++ port ++ path)), w).
Proof.
  intros Hu Hp -> Hsep Hport Hnot.
  rewrite (get_api_url_string_fields items raw port w Hu Hp). cbv zeta.
  set (url := rstrip_with (in_chars (py "/")) raw) in *.
  destruct (split1_cut (py "://") url) as [scheme [rest [Hsplit [Hurl Hfirst]]]];
    [discriminate | exact Hsep |].
  assert (Hne : str_empty url = false).
  { rewrite Hurl. destruct scheme; reflexivity. }
  rewrite Hne, Hnot, Hsep, Hsplit.
  replace (str_empty port) with false by (destruct port; [congruence | reflexivity]).
  cbn [negb andb].
  destruct (split_char_cut ch_slash rest) as [seg [more [Hseg [Hfree Hrest]]]].
  destruct (split_char_cut 58 seg) as [host [more' [Hhost [Hhfree Hsegc]]]].
  rewrite Hseg. cbn [List.hd List.tl]. rewrite Hhost. cbn [List.hd].
  assert (Hhs : ~ List.In ch_slash host).
  { intros Hin. apply Hfree.
    destruct Hsegc as [[_ [-> _]] | [_ [-> _]]]; [exact Hin|].
    apply in_or_app. now left. }
  set (ignored := match more' with [] => [] | _ => 58 :: join [58] more' end).
  assert (Hsegd : seg = host ++ ignored).
  { subst ignored. destruct Hsegc as [[-> [-> _]] | [Hm [-> _]]].
    - now rewrite app_nil_r.
    - destruct more'; [congruence | reflexivity]. }
  assert (Hig : ignored = [] \/ exists i, ignored = 58 :: i).
  { subst ignored. destruct more'; [now left | right; eauto]. }
  assert (Higs : ~ List.In ch_slash ignored).
  { intros Hin. apply Hfree. rewrite Hsegd. apply in_or_app. now right. }
  destruct Hrest as [[-> [Hr Hnin]] | [Hm [Hr Hin]]].
  - (* no path *)
    exists scheme, host, ignored, [].
    assert (Hc : contains (py "/") rest = false).
    { apply not_true_is_false. intros Hc. apply (contains_single ch_slash) in Hc. auto. }
    rewrite Hc. repeat split; auto.
    rewrite app_nil_r, <- Hsegd, <- Hr. exact Hurl.
  - exists scheme, host, ignored, (ch_slash :: join [ch_slash] more).
    assert (Hc : contains (py "/") rest = true) by (apply (contains_single ch_slash); exact Hin).
    rewrite Hc. repeat split; eauto.
    rewrite app_assoc with (l := host), <- Hsegd, <- Hr. exact Hurl.
Qed.

Lemma pure_ret {A} (a : A) : pure_m (ret a).
Proof. exists (Ok a). reflexivity. Qed.

Lemma pure_raise {A} (e : exn) : pure_m (@raise A e).
Proof. exists (Raise e). reflexivity. Qed.

Lemma pure_bind {A B} (m : M A) (k : A -> M B) :
  pure_m m -> (forall a, pure_m (k a)) -> pure_m (bind m k).
Proof.
  intros [r Hr] Hk. destruct r as [a|e].
  - destruct (Hk a) as [r' Hr']. exists r'. intros w. unfold bind. now rewrite Hr, Hr'.
  - exists (Raise e). intros w. unfold bind. now rewrite Hr.
Qed.

Lemma pure_config_get config k d : pure_m (config_get config k d).
Proof. destruct config; simpl; auto using pure_ret, pure_raise. Qed.

Lemma pure_truthy v : pure_m (truthy v).
Proof. destruct v; simpl; auto using pure_ret, pure_raise. Qed.

Lemma pure_str_of v : pure_m (str_of v).
Proof. destruct v as [| [|] | | | |]; simpl; auto using pure_ret, pure_raise. Qed.

Lemma pure_value_rstrip v chars : pure_m (value_rstrip v chars).
Proof. destruct v; simpl; auto using pure_ret, pure_raise. Qed.

Lemma pure_get_api_url config : pure_m (get_api_url config).
Proof.
  unfold get_api_url.
  apply pure_bind; [apply pure_config_get | intros u].
  apply pure_bind; [apply pure_value_rstrip | intros url].
  apply pure_bind; [apply pure_config_get | intros port].
  destruct (str_empty url); [apply pure_ret|].
  apply pure_bind; [apply pure_truthy | intros given].
  destruct given; [|apply pure_ret].
  apply pure_bind; [apply pure_str_of | intros p].
  destruct (negb _); [|apply pure_ret].
  destruct (contains _ url); [|apply pure_ret].
  destruct (split1 _ url) as [|? [|? [|? ?]]]; auto using pure_ret, pure_raise.
Qed.

(** *** What the console accepts *)

Lemma str_eqb_eq a b : str_eqb a b = true <-> a = b.
Proof.
  revert b. induction a as [|x a IH]; intros [|y b]; simpl; split; try congruence; auto.
  - intros H. apply andb_true_iff in H as [H1 H2]. apply N.eqb_eq in H1. apply IH in H2.
    congruence.
  - intros H. injection H as -> ->. rewrite N.eqb_refl. simpl. now apply IH.
Qed.

(** An opening tag and the tag that closes it by name are accepted, whatever
    the normal form of the name. *)
Lemma render_pair normalize evaluate p q t :
  tag_parts t = (t, None) ->
  tag_parts (47 :: t) = (47 :: t, None) ->
  startswith [47] t = false ->
  strip t = t ->
  str_empty t = false ->
  render_tags normalize evaluate [] [(p, t); (q, 47 :: t)] = None.
Proof.
  intros Ht Hc Hs Hst He. unfold render_tags. rewrite Ht, Hs, Hc.
  cbn [startswith List.tl]. rewrite N.eqb_refl. cbn [andb]. rewrite Hst, He.
  cbn [pop_style fst snd].
  replace (str_eqb (normalize t) (normalize t)) with true
    by (symmetry; now apply str_eqb_eq).
  cbn [fst snd]. now destruct (normalize t) as [|y ?]; [|destruct (64 =? y)].
Qed.

(** Settles that the console accepts a line the program prints as it is. *)
Ltac accepted :=
  unfold console_rejects;
  match goal with
  | |- render_tags _ _ _ ?tags = None =>
      let t := eval vm_compute in tags in
      change tags with t; first [reflexivity | apply render_pair; reflexivity]
  end.

Lemma console_print_ok line w :
  console_rejects w line = None -> console_print line w = (Ok tt, set_console (fun c => c ++ [line]) w).
Proof. intros H. unfold console_print. now rewrite H. Qed.

Lemma console_print_raises line msg w :
  console_rejects w line = Some msg -> console_print line w = (Raise (MarkupError msg), w).
Proof. intros H. unfold console_print. now rewrite H. Qed.

Lemma accepts_file_is_empty w : console_rejects w (py "[red]Error: File is empty[/red]") = None.
Proof. accepted. Qed.

Lemma accepts_no_url w :
  console_rejects w (py "[red]Error: No API URL configured. Run with --setup[/red]") = None.
Proof. accepted. Qed.

Lemma accepts_index_error w :
  console_rejects w (error_line (py "list index out of range")) = None.
Proof. accepted. Qed.

Lemma accepts_no_strip w :
  console_rejects w (error_line (py "'NoneType' object has no attribute 'strip'")) = None.
Proof. accepted. Qed.

Lemma accepts_banner w :
  console_rejects w ([ch_newline] ++ py "[bold green]Generated Changelog:[/bold green]") = None.
Proof. accepted. Qed.

Lemma accepts_rule w : console_rejects w rule = None.
Proof. accepted. Qed.

(** *** The client *)

(** A client that could be built in one world can be built in any other
    with the same client library. *)
Lemma get_client_any_world config c w w' :
  client_refused w' = client_refused w ->
  get_client config w = (Ok (Some c), w) ->
  get_client config w' = (Ok (Some c), w').
Proof.
  intros Hlib.
  unfold get_client, bind. destruct (pure_get_api_url config) as [r Hr].
  rewrite !Hr. destruct r as [api_url|e]; [|discriminate].
  destruct (pure_config_get config (py "key") (VStr [])) as [rk Hk].
  rewrite !Hk. destruct rk as [key|e]; [|discriminate].
  destruct api_url as [[|x url]|].
  - unfold console_print, ret. destruct (console_rejects w _); discriminate.
  - destruct (pure_truthy key) as [rt Ht]. rewrite !Ht.
    destruct rt as [given|e]; [|discriminate]. unfold OpenAI, ret. rewrite Hlib.
    destruct (client_refused w _ _); [discriminate|]. congruence.
  - unfold console_print, ret. destruct (console_rejects w _); discriminate.
Qed.

(** A client exists only for a configuration that is a dictionary. *)
Lemma get_client_dict config c w :
  get_client config w = (Ok (Some c), w) -> exists items, config = VDict items.
Proof.
  destruct config; try (unfold get_client, get_api_url, bind; simpl; discriminate).
  eauto.
Qed.

Lemma printed_console lines w : console (printed lines w) = console w ++ lines.
Proof.
  revert w. induction lines as [|l lines IH]; intros w; simpl.
  - now rewrite app_nil_r.
  - rewrite IH. simpl. now rewrite <- app_assoc.
Qed.

Lemma printed_frame lines w :
  files (printed lines w) = files w /\ requests (printed lines w) = requests w /\
  unwritable (printed lines w) = unwritable w /\ unreadable (printed lines w) = unreadable w /\
  api (printed lines w) = api w /\ stdin (printed lines w) = stdin w /\
  modes (printed lines w) = modes w /\ unchmodable (printed lines w) = unchmodable w.
Proof.
  revert w. induction lines as [|l lines IH]; intros w; simpl; [tauto|].
  destruct (IH (set_console (fun c => c ++ [l]) w)) as (?&?&?&?&?&?&?&?). tauto.
Qed.

(** Printing changes nothing of the libraries and the locale. *)
Lemma printed_libraries lines w :
  style_normalize (printed lines w) = style_normalize w /\
  literal_error (printed lines w) = literal_error w /\
  client_refused (printed lines w) = client_refused w /\
  locale_extra (printed lines w) = locale_extra w /\
  codec_error (printed lines w) = codec_error w.
Proof.
  revert w. induction lines as [|l lines IH]; intros w; simpl; [tauto|].
  destruct (IH (set_console (fun c => c ++ [l]) w)) as (?&?&?&?&?). tauto.
Qed.

Lemma console_rejects_printed lines w line :
  console_rejects (printed lines w) line = console_rejects w line.
Proof.
  unfold console_rejects. destruct (printed_libraries lines w) as (-> & -> & _). reflexivity.
Qed.

Lemma generate_changelog_run items c diff_content w :
  get_client (VDict items) w = (Ok (Some c), w) ->
  generate_changelog (VDict items) diff_content w =
  let w1 := set_requests (fun rs => rs ++ [changelog_request c items diff_content]) w in
  match api w (changelog_request c items diff_content) with
  | ApiRaise msg =>
      match console_rejects w (error_line msg) with
      | Some refusal => (Raise (MarkupError refusal), w1)
      | None => (Ok None, printed [error_line msg] w1)
      end
  | ApiResponse [] => (Ok None, printed [error_line (py "list index out of range")] w1)
  | ApiResponse (None :: _) =>
      (Ok None, printed [error_line (py "'NoneType' object has no attribute 'strip'")] w1)
  | ApiResponse (Some content :: _) => (Ok (Some (strip content)), w1)
  end.
Proof.
  intros Hc. unfold generate_changelog, bind at 1. rewrite Hc.
  unfold try_except, bind at 1, bind at 1, config_get, ret at 1, chat_create.
  fold (changelog_request c items diff_content). cbv zeta.
  set (w1 := set_requests _ w).
  destruct (api w _) as [msg | [| [content|] rest]].
  - cbv beta iota. unfold bind at 1, exn_message. fold (error_line msg).
    change (console_rejects w (error_line msg)) with (console_rejects w1 (error_line msg)).
    destruct (console_rejects w1 (error_line msg)) as [refusal|] eqn:E.
    + now rewrite (console_print_raises _ _ _ E).
    + now rewrite (console_print_ok _ _ E).
  - unfold raise. cbv beta iota. unfold bind at 1, exn_message.
    fold (error_line (py "list index out of range")).
    now rewrite (console_print_ok _ w1 (accepts_index_error w1)).
  - reflexivity.
  - unfold raise. cbv beta iota. unfold bind at 1.
    change (exn_message _) with (py "'NoneType' object has no attribute 'strip'").
    fold (error_line (py "'NoneType' object has no attribute 'strip'")).
    now rewrite (console_print_ok _ w1 (accepts_no_strip w1)).
Qed.

(** *** Writing a file *)

Lemma set_files_compose f g w : set_files g (set_files f w) = set_files (fun fs => g (f fs)) w.
Proof. destruct w; reflexivity. Qed.

Lemma set_files_ext f g w : f (files w) = g (files w) -> set_files f w = set_files g w.
Proof. destruct w; unfold set_files; simpl; intros ->; reflexivity. Qed.

(** [open(p, 'w')] followed by one [write] of a text the locale can encode,
    then the rest of the block. *)
Lemma write_file_run {A} p text (k : M A) w :
  unwritable w !! p = None ->
  List.forallb (encodable w) text = true ->
  (open_write p;;; file_write p text;;; k) w = k (set_files (fun fs => <[p := text]> fs) w).
Proof.
  intros Hw He. unfold bind, open_write, file_write. rewrite Hw.
  change (List.forallb (encodable (set_files _ w)) text) with (List.forallb (encodable w) text).
  rewrite He. f_equal.
  rewrite set_files_compose. apply set_files_ext.
  now rewrite lookup_insert_eq, insert_insert_eq.
Qed.

(** The same with a text the locale cannot encode: the file was opened, so
    it is there and empty, and nothing is written. *)
Lemma write_file_unencodable {A} p text (k : M A) w :
  unwritable w !! p = None ->
  List.forallb (encodable w) text = false ->
  (open_write p;;; file_write p text;;; k) w =
    (Raise (OtherError (codec_error w text)), set_files (fun fs => <[p := []]> fs) w).
Proof.
  intros Hw He. unfold bind, open_write, file_write. rewrite Hw.
  change (List.forallb (encodable (set_files _ w)) text) with (List.forallb (encodable w) text).
  now rewrite He.
Qed.

Lemma write_file_refused {A} p text (k : M A) msg w :
  unwritable w !! p = Some msg ->
  (open_write p;;; file_write p text;;; k) w = (Raise (OtherError msg), w).
Proof. intros Hw. unfold bind, open_write. now rewrite Hw. Qed.

(** *** Reading the diff *)

Lemma printed_app l1 l2 w : printed (l1 ++ l2) w = printed l2 (printed l1 w).
Proof. unfold printed. apply List.fold_left_app. Qed.

Lemma printed_files lines w : files (printed lines w) = files w.
Proof. apply printed_frame. Qed.

Lemma printed_requests lines w : requests (printed lines w) = requests w.
Proof. apply printed_frame. Qed.

Lemma printed_modes lines w : modes (printed lines w) = modes w.
Proof. apply printed_frame. Qed.

(** A file that is there and can be read, and is blank. *)
Lemma process_file_blank config filepath text w :
  files w !! filepath = Some text ->
  unreadable w !! filepath = None ->
  strip text = [] ->
  process_file config filepath w = (Ok tt, printed [py "[red]Error: File is empty[/red]"] w).
Proof.
  intros Hf Hr Hs. unfold process_file, bind at 1, try_except at 1, bind at 1, read_text.
  rewrite Hf, Hr. unfold ret at 1. rewrite Hs.
  now rewrite (console_print_ok _ w (accepts_file_is_empty w)).
Qed.

(** What [process_file] does once the file has been read and the line
    announcing it printed. *)
Lemma process_file_read config filepath text w :
  files w !! filepath = Some text ->
  unreadable w !! filepath = None ->
  strip text <> [] ->
  console_rejects w (processing_line filepath) = None ->
  process_file config filepath w =
  match generate_changelog config (strip text) (printed [processing_line filepath] w) with
  | (Raise e, w2) => (Raise e, w2)
  | (Ok None, w2) | (Ok (Some []), w2) => (Ok tt, w2)
  | (Ok (Some changelog), w2) =>
      match console_rejects w2 changelog with
      | Some refusal =>
          (Raise (MarkupError refusal),
           printed [[ch_newline] ++ py "[bold green]Generated Changelog:[/bold green]"; rule] w2)
      | None =>
          let w3 := printed (changelog_banner changelog) w2 in
          match unwritable w3 !! output_file filepath with
          | Some msg => console_print (save_error_line msg) w3
          | None =>
              if List.forallb (encodable w3) (changelog_text changelog) then
                let w4 := set_files
                            (fun fs => <[output_file filepath := changelog_text changelog]> fs)
                            w3 in
                match console_rejects w4 (saved_line filepath) with
                | None => (Ok tt, printed [saved_line filepath] w4)
                | Some refusal => console_print (save_error_line refusal) w4
                end
              else
                console_print (save_error_line (codec_error w3 (changelog_text changelog)))
                  (set_files (fun fs => <[output_file filepath := []]> fs) w3)
          end
      end
  end.
Proof.
  intros Hf Hr Hs Hp. unfold process_file, bind at 1, try_except at 1, bind at 1, read_text.
  rewrite Hf, Hr. unfold ret at 1.
  destruct (strip text) as [|x content]; [congruence|].
  cbv zeta. unfold bind at 1. fold (processing_line filepath).
  rewrite (console_print_ok _ w Hp).
  change (set_console _ w) with (printed [processing_line filepath] w).
  unfold bind at 1.
  destruct (generate_changelog config (x :: content) _) as [[[[|y changelog]|]|e] w2].
  1, 3, 4: reflexivity.
  unfold bind at 1. rewrite (console_print_ok _ w2 (accepts_banner w2)).
  set (wa := set_console _ w2).
  unfold bind at 1. rewrite (console_print_ok _ wa (accepts_rule wa)).
  set (wb := set_console _ wa).
  change (console_rejects w2 (y :: changelog)) with (console_rejects wb (y :: changelog)).
  unfold bind at 1.
  destruct (console_rejects wb (y :: changelog)) as [refusal|] eqn:Hc.
  { rewrite (console_print_raises _ _ _ Hc). reflexivity. }
  rewrite (console_print_ok _ wb Hc).
  set (wc := set_console _ wb).
  unfold bind at 1. rewrite (console_print_ok _ wc (accepts_rule wc)).
  set (w3 := set_console _ wc).
  change (printed (changelog_banner (y :: changelog)) w2) with w3. cbv zeta.
  fold (changelog_text (y :: changelog)). fold (saved_line filepath).
  clearbody w3. clear wa wb wc Hc. unfold try_except.
  destruct (unwritable w3 !! output_file filepath) as [msg|] eqn:Hw.
  - rewrite (write_file_refused _ _ _ msg w3 Hw). reflexivity.
  - destruct (List.forallb (encodable w3) (changelog_text (y :: changelog))) eqn:He.
    + rewrite (write_file_run _ _ _ w3 Hw He).
      set (w4 := set_files _ w3).
      destruct (console_rejects w4 (saved_line filepath)) as [refusal|] eqn:Hs'.
      * rewrite (console_print_raises _ _ _ Hs'). reflexivity.
      * rewrite (console_print_ok _ _ Hs'). reflexivity.
    + rewrite (write_file_unencodable _ _ _ w3 Hw He). reflexivity.
Qed.

(** *** The name of the output file *)

Lemma split_char_no_sep c s : ~ List.In c s -> split_char c s = [s].
Proof.
  intros Hn. destruct (split_char_cut c s) as [h [t [E [_ [[-> [-> _]] | [_ [_ Hin]]]]]]].
  - exact E.
  - contradiction.
Qed.

Lemma split_char_pieces_free c s : List.Forall (fun p => ~ List.In c p) (split_char c s).
Proof.
  induction s as [|x s IH]; simpl.
  - constructor; [intros [] | constructor].
  - destruct (N.eqb_spec x c) as [->|Hne].
    + constructor; [intros [] | exact IH].
    + destruct (split_char c s) as [|p ps]; [repeat constructor; intros [H|[]]; congruence|].
      inversion IH as [|? ? Hp Hps]; subst. constructor; [|exact Hps].
      intros [H|H]; [congruence | auto].
Qed.

Lemma path_name_no_slash s : ~ List.In ch_slash (path_name (Path s)).
Proof.
  unfold path_name, Path; cbn [path_parts].
  assert (H : List.Forall (fun p => ~ List.In ch_slash p)
                (List.filter (fun x => negb (str_empty x) && negb (str_eqb x [ch_dot]))
                             (split_char ch_slash s))).
  { apply List.Forall_forall. intros p Hp. apply List.filter_In in Hp as [Hp _].
    pose proof (split_char_pieces_free ch_slash s) as HF.
    rewrite List.Forall_forall in HF. auto. }
  induction H as [|p ps Hp Hps IH]; simpl; [intros []|].
  destruct ps; [exact Hp | exact IH].
Qed.

Lemma path_stem_no_slash s : ~ List.In ch_slash (path_stem (Path s)).
Proof.
  unfold path_stem. pose proof (path_name_no_slash s) as Hn.
  destruct (rfind_char _ _) as [i|]; [|exact Hn].
  destruct (_ && _); [|exact Hn].
  intros Hin. apply Hn. rewrite <- (List.firstn_skipn i (path_name (Path s))).
  apply in_or_app. now left.
Qed.

(** The output file is the input file's path with its last component
    replaced by [changelog-<stem>.md]: same root, same directories. *)
Lemma output_file_beside filepath :
  output_file filepath =
  path_str {| path_root := path_root (Path filepath);
              path_parts := List.removelast (path_parts (Path filepath))
                            ++ [py "changelog-" ++ path_stem (Path filepath) ++ py ".md"] |}.
Proof.
  unfold output_file, path_join. set (stem := path_stem (Path filepath)).
  assert (Hc : Path (py "changelog-" ++ stem ++ py ".md") =
               {| path_root := []; path_parts := [py "changelog-" ++ stem ++ py ".md"] |}).
  { unfold Path. f_equal. rewrite split_char_no_sep; [reflexivity|].
    intros Hin. apply in_app_or in Hin as [Hin|Hin].
    - vm_compute in Hin. intuition discriminate.
    - apply in_app_or in Hin as [Hin|Hin].
      + exact (path_stem_no_slash filepath Hin).
      + vm_compute in Hin. intuition discriminate. }
  rewrite Hc. reflexivity.
Qed.

(** *** After the request *)

Lemma console_rejects_requests f w line :
  console_rejects (set_requests f w) line = console_rejects w line.
Proof. reflexivity. Qed.

Lemma console_rejects_files f w line :
  console_rejects (set_files f w) line = console_rejects w line.
Proof. reflexivity. Qed.

Lemma encodable_printed lines w text :
  List.forallb (encodable (printed lines w)) text = List.forallb (encodable w) text.
Proof.
  unfold encodable. destruct (printed_libraries lines w) as (_ & _ & _ & -> & _). reflexivity.
Qed.

(** [process_file] when the completion call raises. *)
Lemma process_file_error items c filepath text msg w :
  files w !! filepath = Some text ->
  unreadable w !! filepath = None ->
  strip text <> [] ->
  console_rejects w (processing_line filepath) = None ->
  get_client (VDict items) w = (Ok (Some c), w) ->
  api w (changelog_request c items (strip text)) = ApiRaise msg ->
  let w1 := set_requests (fun rs => rs ++ [changelog_request c items (strip text)])
              (printed [processing_line filepath] w) in
  generate_changelog (VDict items) (strip text) (printed [processing_line filepath] w) =
    match console_rejects w (error_line msg) with
    | Some refusal => (Raise (MarkupError refusal), w1)
    | None => (Ok None, printed [error_line msg] w1)
    end /\
  process_file (VDict items) filepath w =
    match console_rejects w (error_line msg) with
    | Some refusal => (Raise (MarkupError refusal), w1)
    | None => (Ok tt, printed [error_line msg] w1)
    end.
Proof.
  intros Hf Hr Hs Hp Hc Hapi w1.
  rewrite (process_file_read (VDict items) filepath text w Hf Hr Hs Hp).
  assert (Hc' : get_client (VDict items) (printed [processing_line filepath] w)
                = (Ok (Some c), printed [processing_line filepath] w)).
  { apply (get_client_any_world _ _ w); [reflexivity | exact Hc]. }
  rewrite (generate_changelog_run items c (strip text) _ Hc'). cbv zeta.
  change (api (printed [processing_line filepath] w)) with (api w). rewrite Hapi.
  rewrite console_rejects_printed. fold w1.
  destruct (console_rejects w (error_line msg)); split; reflexivity.
Qed.

(** [process_file] when the completion call returns a changelog. *)
Lemma process_file_generated items c filepath text answer others w :
  files w !! filepath = Some text ->
  unreadable w !! filepath = None ->
  strip text <> [] ->
  console_rejects w (processing_line filepath) = None ->
  get_client (VDict items) w = (Ok (Some c), w) ->
  api w (changelog_request c items (strip text)) = ApiResponse (Some answer :: others) ->
  strip answer <> [] ->
  process_file (VDict items) filepath w =
    let w2 := set_requests (fun rs => rs ++ [changelog_request c items (strip text)])
                (printed [processing_line filepath] w) in
    match console_rejects w (strip answer) with
    | Some refusal =>
        (Raise (MarkupError refusal),
         printed [[ch_newline] ++ py "[bold green]Generated Changelog:[/bold green]"; rule] w2)
    | None =>
        let w3 := printed (changelog_banner (strip answer)) w2 in
        match unwritable w !! output_file filepath with
        | Some msg => console_print (save_error_line msg) w3
        | None =>
            if List.forallb (encodable w) (changelog_text (strip answer)) then
              let w4 := set_files
                          (fun fs => <[output_file filepath := changelog_text (strip answer)]> fs)
                          w3 in
              match console_rejects w (saved_line filepath) with
              | None => (Ok tt, printed [saved_line filepath] w4)
              | Some refusal => console_print (save_error_line refusal) w4
              end
            else
              console_print (save_error_line (codec_error w (changelog_text (strip answer))))
                (set_files (fun fs => <[output_file filepath := []]> fs) w3)
        end
    end.
Proof.
  intros Hf Hr Hs Hp Hc Hapi Ha.
  rewrite (process_file_read (VDict items) filepath text w Hf Hr Hs Hp).
  assert (Hc' : get_client (VDict items) (printed [processing_line filepath] w)
                = (Ok (Some c), printed [processing_line filepath] w)).
  { apply (get_client_any_world _ _ w); [reflexivity | exact Hc]. }
  rewrite (generate_changelog_run items c (strip text) _ Hc'). cbv zeta.
  change (api (printed [processing_line filepath] w)) with (api w). rewrite Hapi.
  destruct (strip answer) as [|y changelog] eqn:E'; [congruence|].
  set (w2 := set_requests _ (printed [processing_line filepath] w)).
  assert (Hrej : forall line, console_rejects w2 line = console_rejects w line).
  { intros line. subst w2. rewrite console_rejects_requests. apply console_rejects_printed. }
  rewrite Hrej. destruct (console_rejects w (y :: changelog)); [reflexivity|].
  set (w3 := printed (changelog_banner (y :: changelog)) w2).
  assert (Hw3 : unwritable w3 = unwritable w).
  { subst w3 w2. now rewrite (proj1 (proj2 (proj2 (printed_frame _ _)))). }
  assert (He3 : forall t, List.forallb (encodable w3) t = List.forallb (encodable w) t).
  { intros t. subst w3 w2. rewrite encodable_printed.
    change (List.forallb (encodable (set_requests ?f ?x)) t) with (List.forallb (encodable x) t).
    apply encodable_printed. }
  assert (Hr3 : forall line, console_rejects w3 line = console_rejects w line).
  { intros line. subst w3. rewrite console_rejects_printed. apply Hrej. }
  assert (Hx3 : codec_error w3 = codec_error w).
  { subst w3 w2. now destruct (printed_libraries (changelog_banner (y :: changelog))
        (set_requests (fun rs => rs ++ [changelog_request c items (strip text)])
           (printed [processing_line filepath] w))) as (_ & _ & _ & _ & ->). }
  rewrite Hw3, He3, console_rejects_files, Hr3, Hx3. reflexivity.
Qed.

Lemma files_set_files f w : files (set_files f w) = f (files w).
Proof. reflexivity. Qed.

Lemma files_set_requests f w : files (set_requests f w) = files w.
Proof. reflexivity. Qed.

Lemma console_print_accepted line w r w' :
  console_print line w = (r, w') -> console_rejects w line = None ->
  r = Ok tt /\ w' = printed [line] w.
Proof.
  intros E Hok. rewrite (console_print_ok _ _ Hok) in E.
  change (set_console (fun c => c ++ [line]) w) with (printed [line] w) in E.
  split; congruence.
Qed.

Lemma console_set_console f w : console (set_console f w) = f (console w).
Proof. reflexivity. Qed.

Lemma console_set_requests f w : console (set_requests f w) = console w.
Proof. reflexivity. Qed.

Lemma console_set_files f w : console (set_files f w) = console w.
Proof. reflexivity. Qed.

Lemma console_print_frame line w r w' :
  console_print line w = (r, w') ->
  files w' = files w /\ requests w' = requests w /\ modes w' = modes w /\
  (r = Ok tt /\ console w' = console w ++ [line] \/
   exists refusal, console_rejects w line = Some refusal /\
                   r = Raise (MarkupError refusal) /\ w' = w).
Proof.
  unfold console_print. destruct (console_rejects w line) as [refusal|].
  - intros [= <- <-]. repeat split. right. eauto.
  - intros [= <- <-]. repeat split. now left.
Qed.

(** C2: a diff that is empty once its surrounding white space is stripped
    (the empty file, a file of blanks) is refused: [process_file] prints the
    error [File is empty] and returns, no request is sent to the completion
    service and no file is touched. *)
Theorem process_file_blank_input (config : value) (filepath text : pystr) (w : world) :
  files w !! filepath = Some text ->
  unreadable w !! filepath = None ->
  strip text = [] ->
  exists w',
    process_file config filepath w = (Ok tt, w') /\
    console w' = console w ++ [py "[red]Error: File is empty[/red]"] /\
    requests w' = requests w /\
    files w' = files w.
Proof.
  intros Hf Hr Hs. rewrite (process_file_blank config filepath text w Hf Hr Hs).
  eexists. split; [reflexivity|]. repeat split.
Qed.

Lemma process_file_blank_input_witness :
  exists w',
    process_file (VDict local_config) (py "blank.diff")
      (diff_world (py "blank.diff") (py "   ") (ApiRaise [])) = (Ok tt, w') /\
    console w' = [] ++ [py "[red]Error: File is empty[/red]"] /\
    requests w' = [] /\
    files w' = {[ py "blank.diff" := py "   " ]}.
Proof.
  apply (process_file_blank_input (VDict local_config) (py "blank.diff") (py "   ")
           (diff_world (py "blank.diff") (py "   ") (ApiRaise []))).
  - apply lookup_singleton_eq.
  - apply lookup_empty.
  - reflexivity.
Defined.

(** X17: when the file holds a diff, the line announcing it is printed and
    the completion call raises an error with text [msg] that the console
    prints, [generate_changelog] returns [None] after printing [Error: msg],
    and [process_file] ends there: one request was sent, and the files, the
    output path among them, are as they were. *)
Theorem process_file_completion_error
    (items : dict) (c : client) (filepath text msg : pystr) (w : world) :
  files w !! filepath = Some text ->
  unreadable w !! filepath = None ->
  strip text <> [] ->
  console_rejects w (processing_line filepath) = None ->
  get_client (VDict items) w = (Ok (Some c), w) ->
  api w (changelog_request c items (strip text)) = ApiRaise msg ->
  console_rejects w (error_line msg) = None ->
  exists w',
    generate_changelog (VDict items) (strip text) (printed [processing_line filepath] w)
      = (Ok None, w') /\
    process_file (VDict items) filepath w = (Ok tt, w') /\
    console w' = console w ++ [processing_line filepath; error_line msg] /\
    requests w' = requests w ++ [changelog_request c items (strip text)] /\
    files w' = files w.
Proof.
  intros Hf Hr Hs Hp Hc Hapi He.
  destruct (process_file_error items c filepath text msg w Hf Hr Hs Hp Hc Hapi) as [Hg Hpf].
  rewrite He in Hg, Hpf. rewrite Hg, Hpf.
  eexists. split; [reflexivity|]. split; [reflexivity|].
  cbn [console requests files printed List.fold_left set_console set_requests].
  rewrite <- app_assoc. repeat split.
Qed.

Lemma process_file_completion_error_witness :
  exists w',
    generate_changelog (VDict local_config) (strip (py "- bug" ++ [ch_newline] ++ py "+ fix"))
      (printed [processing_line (py "fix.diff")]
         (diff_world (py "fix.diff") (py "- bug" ++ [ch_newline] ++ py "+ fix")
                     (ApiRaise (py "Connection error."))))
      = (Ok None, w') /\
    process_file (VDict local_config) (py "fix.diff")
      (diff_world (py "fix.diff") (py "- bug" ++ [ch_newline] ++ py "+ fix")
                  (ApiRaise (py "Connection error."))) = (Ok tt, w') /\
    console w' = [] ++ [processing_line (py "fix.diff"); error_line (py "Connection error.")] /\
    requests w' = [] ++ [changelog_request local_client local_config
                           (strip (py "- bug" ++ [ch_newline] ++ py "+ fix"))] /\
    files w' = {[ py "fix.diff" := py "- bug" ++ [ch_newline] ++ py "+ fix" ]}.
Proof.
  apply (process_file_completion_error local_config local_client (py "fix.diff")
           (py "- bug" ++ [ch_newline] ++ py "+ fix") (py "Connection error.")
           (diff_world (py "fix.diff") (py "- bug" ++ [ch_newline] ++ py "+ fix")
                       (ApiRaise (py "Connection error.")))).
  - apply lookup_singleton_eq.
  - apply lookup_empty.
  - vm_compute. discriminate.
  - vm_compute. reflexivity.
  - reflexivity.
  - reflexivity.
  - vm_compute. reflexivity.
Defined.

(** X18: when the file holds a diff, the first choice of the completion
    strips to a text that is not empty, the console prints the line
    announcing the file and the changelog, the output file can be opened
    and the locale can encode the text, [process_file] writes [# Changelog],
    an empty line and that text to [output_file filepath], and nothing else;
    [output_file filepath] is the path of the input with its last component
    replaced by [changelog-<stem>.md]. It returns normally when the console
    also prints the line that names the file. *)
Theorem process_file_writes_changelog
    (items : dict) (c : client) (filepath text answer : pystr)
    (others : list (option pystr)) (w : world) :
  files w !! filepath = Some text ->
  unreadable w !! filepath = None ->
  strip text <> [] ->
  console_rejects w (processing_line filepath) = None ->
  get_client (VDict items) w = (Ok (Some c), w) ->
  api w (changelog_request c items (strip text)) = ApiResponse (Some answer :: others) ->
  strip answer <> [] ->
  console_rejects w (strip answer) = None ->
  unwritable w !! output_file filepath = None ->
  List.forallb (encodable w) (changelog_text (strip answer)) = true ->
  exists r w',
    process_file (VDict items) filepath w = (r, w') /\
    files w' = <[output_file filepath :=
                   py "# Changelog" ++ [ch_newline; ch_newline] ++ strip answer]> (files w) /\
    output_file filepath =
      path_str {| path_root := path_root (Path filepath);
                  path_parts := List.removelast (path_parts (Path filepath))
                                ++ [py "changelog-" ++ path_stem (Path filepath) ++ py ".md"] |} /\
    (console_rejects w (saved_line filepath) = None -> r = Ok tt).
Proof.
  intros Hf Hr Hs Hp Hc Hapi Ha Hch Hw He.
  rewrite (process_file_generated items c filepath text answer others w Hf Hr Hs Hp Hc Hapi Ha).
  cbv zeta. rewrite Hch. unfold pystr in *. rewrite Hw, He.
  destruct (console_rejects w (saved_line filepath)) as [refusal|].
  - destruct (console_print (save_error_line refusal) _) as [r w'] eqn:E.
    apply console_print_frame in E as (Hfw & _).
    exists r, w'. split; [reflexivity|]. split; [|split; [apply output_file_beside | discriminate]].
    rewrite Hfw, files_set_files, printed_files, files_set_requests, printed_files. reflexivity.
  - eexists _, _. split; [reflexivity|]. split; [|split; [apply output_file_beside | reflexivity]].
    rewrite printed_files, files_set_files, printed_files, files_set_requests, printed_files.
    reflexivity.
Qed.

Lemma process_file_writes_changelog_witness :
  exists r w',
    process_file (VDict local_config) (py "fix.diff")
      (diff_world (py "fix.diff") (py "- bug" ++ [ch_newline] ++ py "+ fix")
                  (ApiResponse [Some (py "### Fixed" ++ [ch_newline] ++ py "- bug")]))
      = (r, w') /\
    files w' = <[py "changelog-fix.md" :=
                   py "# Changelog" ++ [ch_newline; ch_newline]
                   ++ py "### Fixed" ++ [ch_newline] ++ py "- bug"]>
                 {[ py "fix.diff" := py "- bug" ++ [ch_newline] ++ py "+ fix" ]} /\
    py "changelog-fix.md" =
      path_str {| path_root := []; path_parts := [] ++ [py "changelog-" ++ py "fix" ++ py ".md"] |} /\
    (console_rejects
       (diff_world (py "fix.diff") (py "- bug" ++ [ch_newline] ++ py "+ fix")
                   (ApiResponse [Some (py "### Fixed" ++ [ch_newline] ++ py "- bug")]))
       (saved_line (py "fix.diff")) = None -> r = Ok tt).
Proof.
  apply (process_file_writes_changelog local_config local_client (py "fix.diff")
           (py "- bug" ++ [ch_newline] ++ py "+ fix")
           (py "### Fixed" ++ [ch_newline] ++ py "- bug") []
           (diff_world (py "fix.diff") (py "- bug" ++ [ch_newline] ++ py "+ fix")
                       (ApiResponse [Some (py "### Fixed" ++ [ch_newline] ++ py "- bug")]))).
  - apply lookup_singleton_eq.
  - apply lookup_empty.
  - vm_compute. discriminate.
  - vm_compute. reflexivity.
  - reflexivity.
  - reflexivity.
  - vm_compute. discriminate.
  - vm_compute. reflexivity.
  - apply lookup_empty.
  - vm_compute. reflexivity.
Defined.

(** C10: when the line announcing the file is printed and the completion
    call is made and succeeds, but its first choice is white space only,
    [process_file] returns without an error message and without writing a
    file: besides the line announcing the processing nothing is printed,
    and the one request was sent. *)
Theorem process_file_blank_completion
    (items : dict) (c : client) (filepath text answer : pystr)
    (others : list (option pystr)) (w : world) :
  files w !! filepath = Some text ->
  unreadable w !! filepath = None ->
  strip text <> [] ->
  console_rejects w (processing_line filepath) = None ->
  get_client (VDict items) w = (Ok (Some c), w) ->
  api w (changelog_request c items (strip text)) = ApiResponse (Some answer :: others) ->
  strip answer = [] ->
  exists w',
    process_file (VDict items) filepath w = (Ok tt, w') /\
    files w' = files w /\
    console w' = console w ++ [processing_line filepath] /\
    requests w' = requests w ++ [changelog_request c items (strip text)].
Proof.
  intros Hf Hr Hs Hp Hc Hapi Ha.
  rewrite (process_file_read (VDict items) filepath text w Hf Hr Hs Hp).
  assert (Hc' : get_client (VDict items) (printed [processing_line filepath] w)
                = (Ok (Some c), printed [processing_line filepath] w)).
  { apply (get_client_any_world _ _ w); [reflexivity | exact Hc]. }
  rewrite (generate_changelog_run items c (strip text) _ Hc'). cbv zeta.
  change (api (printed [processing_line filepath] w)) with (api w). rewrite Hapi, Ha.
  eexists. split; [reflexivity|]. repeat split.
Qed.

Lemma process_file_blank_completion_witness :
  exists w',
    process_file (VDict local_config) (py "fix.diff")
      (diff_world (py "fix.diff") (py "- bug" ++ [ch_newline] ++ py "+ fix")
                  (ApiResponse [Some (py "  " ++ [ch_newline])])) = (Ok tt, w') /\
    files w' = {[ py "fix.diff" := py "- bug" ++ [ch_newline] ++ py "+ fix" ]} /\
    console w' = [] ++ [processing_line (py "fix.diff")] /\
    requests w' = [] ++ [changelog_request local_client local_config
                           (strip (py "- bug" ++ [ch_newline] ++ py "+ fix"))].
Proof.
  apply (process_file_blank_completion local_config local_client (py "fix.diff")
           (py "- bug" ++ [ch_newline] ++ py "+ fix") (py "  " ++ [ch_newline]) []
           (diff_world (py "fix.diff") (py "- bug" ++ [ch_newline] ++ py "+ fix")
                       (ApiResponse [Some (py "  " ++ [ch_newline])]))).
  - apply lookup_singleton_eq.
  - apply lookup_empty.
  - vm_compute. discriminate.
  - vm_compute. reflexivity.
  - reflexivity.
  - reflexivity.
  - reflexivity.
Defined.

(** *** The client's key *)

Lemma get_api_url_some_nonempty items raw port url w :
  dict_get items (py "url") (VStr []) = VStr raw ->
  dict_get items (py "port") (VStr []) = VStr port ->
  get_api_url (VDict items) w = (Ok (Some url), w) ->
  url <> [].
Proof.
  intros Hu Hp. rewrite (get_api_url_string_fields items raw port w Hu Hp). cbv zeta.
  destruct (str_empty (rstrip_with _ raw)) eqn:He; [discriminate|].
  destruct (_ && _).
  - destruct (split1 _ _) as [|? [|? [|? ?]]]; try discriminate.
    intros H. injection H as <-. intros E. apply app_eq_nil in E as [_ E]. discriminate.
  - intros H. injection H as <-. intros E. rewrite E in He. discriminate.
Qed.

(** C9: [get_client] calls the constructor of the client with the resolved
    url and with the key [dummy] when the configured key is the empty
    string, with the configured key otherwise; the client it returns, when
    the constructor accepts the two, holds that key. *)
Theorem get_client_key (items : dict) (raw port key url : pystr) (w : world) :
  dict_get items (py "url") (VStr []) = VStr raw ->
  dict_get items (py "port") (VStr []) = VStr port ->
  dict_get items (py "key") (VStr []) = VStr key ->
  get_api_url (VDict items) w = (Ok (Some url), w) ->
  get_client (VDict items) w =
    (c <- OpenAI url (VStr (if str_empty key then py "dummy" else key));; ret (Some c)) w /\
  (client_refused w url (VStr (if str_empty key then py "dummy" else key)) = None ->
   get_client (VDict items) w =
     (Ok (Some {| base_url := url;
                  api_key := VStr (if str_empty key then py "dummy" else key) |}), w)).
Proof.
  intros Hu Hp Hk Hurl. pose proof (get_api_url_some_nonempty _ _ _ _ _ Hu Hp Hurl) as Hne.
  assert (E : get_client (VDict items) w =
              (c <- OpenAI url (VStr (if str_empty key then py "dummy" else key));;
               ret (Some c)) w).
  { unfold get_client, bind at 1. rewrite Hurl. unfold bind at 1, config_get, ret at 1.
    rewrite Hk. destruct url as [|x url]; [congruence|].
    unfold bind at 1, truthy, ret at 1. now destruct (str_empty key). }
  split; [exact E|]. intros Hok. rewrite E. unfold bind, OpenAI. now rewrite Hok.
Qed.

Lemma get_client_key_witness :
  get_client (VDict local_config) world0 =
    (c <- OpenAI (py "http://localhost:11434/v1")
            (VStr (if str_empty [] then py "dummy" else []));; ret (Some c)) world0 /\
  (client_refused world0 (py "http://localhost:11434/v1")
     (VStr (if str_empty [] then py "dummy" else [])) = None ->
   get_client (VDict local_config) world0 =
     (Ok (Some {| base_url := py "http://localhost:11434/v1";
                  api_key := VStr (if str_empty [] then py "dummy" else []) |}), world0)).
Proof.
  apply (get_client_key local_config (py "http://localhost:11434/v1") [] []
           (py "http://localhost:11434/v1") world0); reflexivity.
Defined.

(** C5, amended: with [url] the stored url without its trailing slashes,
    nothing is resolved exactly when [url] is empty; and a [url] that is not
    empty is returned as it is when the port is empty, when [:port] occurs
    in [url], or when [url] has no [://]. *)
Theorem get_api_url_unchanged (items : dict) (raw url port : pystr) (w : world) :
  dict_get items (py "url") (VStr []) = VStr raw ->
  dict_get items (py "port") (VStr []) = VStr port ->
  url = rstrip_with (in_chars (py "/")) raw ->
  (get_api_url (VDict items) w = (Ok None, w) <-> url = []) /\
  (url <> [] ->
   port = [] \/ contains (py ":" ++ port) url = true \/ contains (py "://") url = false ->
   get_api_url (VDict items) w = (Ok (Some url), w)).
Proof.
  intros Hu Hp ->. rewrite (get_api_url_string_fields items raw port w Hu Hp). cbv zeta.
  generalize (rstrip_with (in_chars (py "/")) raw). intros url. split.
  - destruct url as [|x url']; cbn [str_empty]; [tauto|].
    split; [|discriminate].
    destruct (_ && _); [|discriminate].
    destruct (split1 _ _) as [|? [|? [|? ?]]]; discriminate.
  - intros Hne Hcase. destruct url as [|x url'] eqn:E; [congruence|]. cbn [str_empty].
    rewrite <- E in *.
    replace (negb (str_empty port) && negb (contains (py ":" ++ port) url)
             && contains (py "://") url) with false; [reflexivity|].
    destruct Hcase as [-> | [-> | ->]].
    + reflexivity.
    + now rewrite andb_false_r.
    + now rewrite andb_false_r.
Qed.

Lemma get_api_url_unchanged_witness :
  (get_api_url (VDict [(py "url", VStr (py "http://host:9000/v1/")); (py "port", VStr (py "9000"))])
     world0 = (Ok None, world0) <-> py "http://host:9000/v1" = []) /\
  (py "http://host:9000/v1" <> [] ->
   py "9000" = [] \/ contains (py ":" ++ py "9000") (py "http://host:9000/v1") = true
   \/ contains (py "://") (py "http://host:9000/v1") = false ->
   get_api_url (VDict [(py "url", VStr (py "http://host:9000/v1/")); (py "port", VStr (py "9000"))])
     world0 = (Ok (Some (py "http://host:9000/v1")), world0)).
Proof.
  apply (get_api_url_unchanged
           [(py "url", VStr (py "http://host:9000/v1/")); (py "port", VStr (py "9000"))]
           (py "http://host:9000/v1/") (py "http://host:9000/v1") (py "9000") world0);
    reflexivity.
Defined.

(** *** Loading the configuration *)

Lemma load_config_run w :
  load_config w =
  match unreadable w !! config_file with
  | Some (Unsearchable msg) => (Raise (OtherError msg), w)
  | Some (Unopenable _) => (Ok (VDict []), w)
  | None =>
      (Ok match files w !! config_file with
          | None => VDict []
          | Some text => default (VDict []) (json_loads text)
          end, w)
  end.
Proof.
  unfold load_config, bind, path_exists, try_except_all, bind, read_text.
  destruct (unreadable w !! config_file) as [[msg|msg]|] eqn:Hr; [reflexivity| |].
  - destruct (files w !! config_file) eqn:Hf; cbv beta iota; rewrite ?Hr; reflexivity.
  - destruct (files w !! config_file) as [text|] eqn:Hf; cbv beta iota; rewrite ?Hr, ?Hf;
      [|reflexivity].
    destruct (json_loads text); reflexivity.
Qed.

(** X19: where the directory of the configuration file can be searched,
    [load_config] does not raise and leaves the world as it is. It returns
    the empty dictionary when the file is missing, cannot be opened or is
    no JSON document, and the value the file spells otherwise. Where the
    directory cannot be searched, the error of [exists] reaches the
    caller. *)
Theorem load_config_result (w : world) :
  (forall msg, unreadable w !! config_file = Some (Unsearchable msg) ->
     load_config w = (Raise (OtherError msg), w)) /\
  ((forall msg, unreadable w !! config_file <> Some (Unsearchable msg)) ->
   exists v,
     load_config w = (Ok v, w) /\
     (files w !! config_file = None \/
      is_Some (unreadable w !! config_file) \/
      (exists text, files w !! config_file = Some text /\ json_loads text = None) ->
      v = VDict []) /\
     (forall text v',
        files w !! config_file = Some text -> unreadable w !! config_file = None ->
        json_loads text = Some v' -> v = v')).
Proof.
  rewrite load_config_run. split.
  - intros msg ->. reflexivity.
  - intros Hs. destruct (unreadable w !! config_file) as [[msg|msg]|] eqn:Hr.
    + now destruct (Hs msg).
    + eexists. split; [reflexivity|]. split; [reflexivity|]. intros; discriminate.
    + eexists. split; [reflexivity|]. split.
      * intros [H | [[r H] | [text [H1 H2]]]].
        -- now rewrite H.
        -- discriminate.
        -- now rewrite H1, H2.
      * intros text v' H1 _ H3. now rewrite H1, H3.
Qed.

Lemma load_config_result_witness :
  exists v,
    load_config (world_with_config (py "{}")) = (Ok v, world_with_config (py "{}")) /\
    (files (world_with_config (py "{}")) !! config_file = None \/
     is_Some (unreadable (world_with_config (py "{}")) !! config_file) \/
     (exists text, files (world_with_config (py "{}")) !! config_file = Some text /\
                   json_loads text = None) ->
     v = VDict []) /\
    (forall text v',
       files (world_with_config (py "{}")) !! config_file = Some text ->
       unreadable (world_with_config (py "{}")) !! config_file = None ->
       json_loads text = Some v' -> v = v').
Proof.
  apply (proj2 (load_config_result (world_with_config (py "{}")))).
  intros msg H. change (unreadable (world_with_config (py "{}")) !! config_file)
    with ((∅ : gmap pystr refusal) !! config_file) in H.
  rewrite lookup_empty in H. discriminate.
Defined.

(** *** The exit status *)

(** With string fields the resolution of the endpoint raises nothing. *)
Lemma get_api_url_ok items raw port :
  dict_get items (py "url") (VStr []) = VStr raw ->
  dict_get items (py "port") (VStr []) = VStr port ->
  exists r, forall w, get_api_url (VDict items) w = (Ok r, w).
Proof.
  intros Hu Hp.
  destruct (str_empty (rstrip_with (in_chars (py "/")) raw)) eqn:He.
  { exists None. intros w. rewrite (get_api_url_string_fields items raw port w Hu Hp).
    cbv zeta. now rewrite He. }
  destruct (negb (str_empty port) && negb (contains (py ":" ++ port) (rstrip_with (in_chars (py "/")) raw))
            && contains (py "://") (rstrip_with (in_chars (py "/")) raw)) eqn:Hb.
  - apply andb_true_iff in Hb as Hb'. destruct Hb' as [_ Hsep].
    destruct (split1_cut (py "://") _ ltac:(discriminate) Hsep) as [a [b [Hs _]]].
    eexists. intros w. rewrite (get_api_url_string_fields items raw port w Hu Hp).
    cbv zeta. rewrite He, Hb, Hs. reflexivity.
  - eexists. intros w. rewrite (get_api_url_string_fields items raw port w Hu Hp).
    cbv zeta. rewrite He, Hb. reflexivity.
Qed.

(** The three ends of [get_client] on a configuration of strings: a client,
    the refusal of the constructor, or no endpoint. *)
Lemma get_client_ok items raw port key w :
  dict_get items (py "url") (VStr []) = VStr raw ->
  dict_get items (py "port") (VStr []) = VStr port ->
  dict_get items (py "key") (VStr []) = VStr key ->
  (exists c, get_client (VDict items) w = (Ok (Some c), w)) \/
  (exists msg, get_client (VDict items) w = (Raise (OtherError msg), w)) \/
  get_client (VDict items) w =
    (Ok None, printed [py "[red]Error: No API URL configured. Run with --setup[/red]"] w).
Proof.
  intros Hu Hp Hk. destruct (get_api_url_ok items raw port Hu Hp) as [r Hr].
  assert (E : get_client (VDict items) w =
              match r with
              | None | Some [] =>
                  (Ok None,
                   printed [py "[red]Error: No API URL configured. Run with --setup[/red]"] w)
              | Some url =>
                  (c <- OpenAI url (VStr (if str_empty key then py "dummy" else key));;
                   ret (Some c)) w
              end).
  { unfold get_client. unfold bind at 1. rewrite (Hr w). cbv beta iota.
    unfold bind at 1, config_get, ret at 1. rewrite Hk. cbv beta iota.
    destruct r as [[|x url]|].
    - unfold bind. now rewrite (console_print_ok _ w (accepts_no_url w)).
    - unfold bind at 1, truthy, ret at 1. now destruct (str_empty key).
    - unfold bind. now rewrite (console_print_ok _ w (accepts_no_url w)). }
  rewrite E. destruct r as [[|x url]|]; [now right; right | | now right; right].
  unfold bind, OpenAI. destruct (client_refused w _ _) as [msg|]; [right; left | left]; eauto.
Qed.

Lemma process_file_missing config filepath w :
  files w !! filepath = None ->
  unreadable w !! filepath = None ->
  process_file config filepath w =
    match console_rejects w (not_found_line filepath) with
    | None => (Ok tt, printed [not_found_line filepath] w)
    | Some refusal => (Raise (MarkupError refusal), w)
    end.
Proof.
  intros Hf Hr. unfold process_file, bind at 1, try_except, bind at 1, read_text.
  rewrite Hf, Hr. cbv beta iota. fold (not_found_line filepath).
  unfold bind at 1, console_print.
  destruct (console_rejects w (not_found_line filepath)); reflexivity.
Qed.

Lemma process_file_unreadable config filepath r w :
  unreadable w !! filepath = Some r ->
  process_file config filepath w =
    match console_rejects w (read_error_line (refusal_text r)) with
    | None => (Ok tt, printed [read_error_line (refusal_text r)] w)
    | Some refusal => (Raise (MarkupError refusal), w)
    end.
Proof.
  intros Hr. unfold process_file, bind at 1, try_except, bind at 1, read_text.
  rewrite Hr. cbv beta iota. unfold exn_message. fold (read_error_line (refusal_text r)).
  unfold bind at 1, console_print.
  destruct (console_rejects w (read_error_line (refusal_text r))); reflexivity.
Qed.

(** [main] with a file argument and a configured endpoint is [process_file]. *)
Lemma main_process_file items url prog filepath rest w :
  load_config w = (Ok (VDict items), w) ->
  dict_get items (py "url") VNone = VStr url -> url <> [] ->
  filepath <> py "--setup" ->
  main (prog :: filepath :: rest) w = process_file (VDict items) filepath w.
Proof.
  intros Hl Hu Hne Hs. unfold main, bind at 1. rewrite Hl.
  destruct (str_eqb filepath (py "--setup")) eqn:E.
  { apply str_eqb_eq in E. contradiction. }
  unfold bind, config_get, ret. rewrite Hu. unfold truthy, ret.
  destruct url; [congruence|]. cbn [str_empty negb].
  destruct (process_file (VDict items) filepath w) as [[[]|e] w']; reflexivity.
Qed.

Lemma hexval_hexdigit d : d < 16 -> hexval (hexdigit d) = Some d.
Proof.
  intros Hd. unfold hexdigit, hexval, is_digit.
  destruct (N.ltb_spec d 10).
  - replace ((48 <=? 48 + d) && (48 + d <=? 57)) with true.
    + f_equal. lia.
    + symmetry. apply andb_true_iff. split; apply N.leb_le; lia.
  - replace ((48 <=? 87 + d) && (87 + d <=? 57)) with false.
    + replace ((97 <=? 87 + d) && (87 + d <=? 102)) with true.
      * f_equal. lia.
      * symmetry. apply andb_true_iff. split; apply N.leb_le; lia.
    + symmetry. apply andb_false_iff. right. apply N.leb_gt. lia.
Qed.

Lemma unhex4_digits n :
  n < 65536 ->
  unhex4 (hexdigit ((n / 4096) mod 16)) (hexdigit ((n / 256) mod 16))
         (hexdigit ((n / 16) mod 16)) (hexdigit (n mod 16)) = Some n.
Proof.
  intros Hn. unfold unhex4.
  rewrite !hexval_hexdigit by (apply N.mod_lt; discriminate).
  f_equal. zify. Z.to_euclidean_division_equations. lia.
Qed.

Lemma lor_disjoint_check :
  List.forallb (fun x => (N.lor 55296 x =? 55296 + x) && (N.lor 56320 x =? 56320 + x)
                         && (N.land (55296 + x) 1023 =? x) && (N.land (56320 + x) 1023 =? x))
               (List.map N.of_nat (List.seq 0 1024)) = true.
Proof. vm_compute. reflexivity. Qed.

Lemma surrogate_bits x :
  x < 1024 ->
  N.lor 55296 x = 55296 + x /\ N.lor 56320 x = 56320 + x /\
  N.land (55296 + x) 1023 = x /\ N.land (56320 + x) 1023 = x.
Proof.
  intros Hx. pose proof lor_disjoint_check as H.
  rewrite List.forallb_forall in H. specialize (H x).
  rewrite !andb_true_iff, !N.eqb_eq in H.
  assert (Hin : List.In x (List.map N.of_nat (List.seq 0 1024))).
  { apply List.in_map_iff. exists (N.to_nat x). split; [lia|]. apply List.in_seq. lia. }
  specialize (H Hin). tauto.
Qed.

Lemma shiftl_lor_low x y : y < 1024 -> N.lor (N.shiftl x 10) y = 1024 * x + y.
Proof.
  intros Hy.
  assert (H : N.land (N.shiftl x 10) y = 0).
  { apply N.bits_inj_0. intros i. rewrite N.land_spec.
    destruct (N.lt_ge_cases i 10) as [Hi|Hi].
    - now rewrite N.shiftl_spec_low.
    - rewrite andb_false_iff. right. apply N.testbit_false.
      rewrite N.div_small; [reflexivity|].
      apply N.lt_le_trans with (2 ^ 10); [exact Hy|].
      apply N.pow_le_mono_r; [discriminate | exact Hi]. }
  rewrite <- N.lxor_lor, <- N.add_nocarry_lxor by exact H.
  rewrite N.shiftl_mul_pow2. change (2 ^ 10) with 1024. lia.
Qed.

(** The two [\u] escapes of a character beyond the basic plane decode to it. *)
Lemma surrogates_join c :
  65536 <= c < 1114112 ->
  let n := c - 65536 in
  let hi := N.lor 55296 (N.land (N.shiftr n 10) 1023) in
  let lo := N.lor 56320 (N.land n 1023) in
  hi < 65536 /\ lo < 65536 /\
  is_high_surrogate hi = true /\ is_low_surrogate lo = true /\
  join_surrogates hi lo = c.
Proof.
  intros Hc n hi lo.
  assert (Hx : N.land (N.shiftr n 10) 1023 = n / 1024).
  { change 1023 with (N.ones 10). rewrite N.land_ones, N.shiftr_div_pow2.
    change (2 ^ 10) with 1024. apply N.mod_small.
    apply N.Div0.div_lt_upper_bound. subst n. lia. }
  assert (Hy : N.land n 1023 = n mod 1024).
  { change 1023 with (N.ones 10). now rewrite N.land_ones. }
  assert (Hxb : n / 1024 < 1024).
  { apply N.Div0.div_lt_upper_bound. subst n. lia. }
  assert (Hyb : n mod 1024 < 1024) by (apply N.mod_lt; discriminate).
  destruct (surrogate_bits _ Hxb) as (Hhi & _ & Hhi' & _).
  destruct (surrogate_bits _ Hyb) as (_ & Hlo & _ & Hlo').
  subst hi lo. rewrite Hx, Hy, Hhi, Hlo.
  unfold is_high_surrogate, is_low_surrogate, join_surrogates.
  rewrite Hhi', Hlo', shiftl_lor_low by exact Hyb.
  repeat split.
  - lia.
  - lia.
  - apply andb_true_iff. split; apply N.leb_le; lia.
  - apply andb_true_iff. split; apply N.leb_le; lia.
  - pose proof (N.div_mod' n 1024). subst n. lia.
Qed.

(** One [\uXXXX] escape that is no high surrogate. *)
Lemma scanstring_u n rest :
  n < 65536 -> is_high_surrogate n = false ->
  scanstring (escape_u n ++ rest) = push n (scanstring rest).
Proof.
  intros Hn Hs. unfold escape_u.
  change (scanstring (_ ++ rest)) with
    (match unhex4 (hexdigit ((n / 4096) mod 16)) (hexdigit ((n / 256) mod 16))
                  (hexdigit ((n / 16) mod 16)) (hexdigit (n mod 16)) with
     | None => None
     | Some u =>
         match rest with
         | b :: u' :: l1 :: l2 :: l3 :: l4 :: ((_ :: _) as s4) =>
             if is_high_surrogate u && (b =? ch_backslash) && (u' =? 117) then
               match unhex4 l1 l2 l3 l4 with
               | None => None
               | Some u2 =>
                   if is_low_surrogate u2
                   then push (join_surrogates u u2) (scanstring s4)
                   else push u (scanstring rest)
               end
             else push u (scanstring rest)
         | _ => push u (scanstring rest)
         end
     end).
  rewrite (unhex4_digits n Hn), Hs.
  destruct rest as [|? [|? [|? [|? [|? [|? [|? ?]]]]]]]; reflexivity.
Qed.

(** The pair of escapes of a character beyond the basic plane. *)
Lemma scanstring_pair hi lo x rest :
  hi < 65536 -> lo < 65536 ->
  is_high_surrogate hi = true -> is_low_surrogate lo = true ->
  scanstring (escape_u hi ++ escape_u lo ++ x :: rest) =
  push (join_surrogates hi lo) (scanstring (x :: rest)).
Proof.
  intros Hhi Hlo Hh Hl. unfold escape_u.
  change (scanstring (_ ++ _ ++ x :: rest)) with
    (match unhex4 (hexdigit ((hi / 4096) mod 16)) (hexdigit ((hi / 256) mod 16))
                  (hexdigit ((hi / 16) mod 16)) (hexdigit (hi mod 16)) with
     | None => None
     | Some u =>
         if is_high_surrogate u && true && true then
           match unhex4 (hexdigit ((lo / 4096) mod 16)) (hexdigit ((lo / 256) mod 16))
                        (hexdigit ((lo / 16) mod 16)) (hexdigit (lo mod 16)) with
           | None => None
           | Some u2 =>
               if is_low_surrogate u2
               then push (join_surrogates u u2) (scanstring (x :: rest))
               else push u (scanstring (escape_u lo ++ x :: rest))
           end
         else push u (scanstring (escape_u lo ++ x :: rest))
     end).
  now rewrite (unhex4_digits hi Hhi), (unhex4_digits lo Hlo), Hh, Hl.
Qed.

Lemma scanstring_plain c rest :
  (c =? ch_quote) = false -> (c =? ch_backslash) = false -> (c <=? 31) = false ->
  scanstring (c :: rest) = push c (scanstring rest).
Proof.
  intros H1 H2 H3.
  change (scanstring (c :: rest)) with
    (if c =? ch_quote then Some ([], rest)
     else if c =? ch_backslash then
       match rest with
       | [] => None
       | e :: s2 =>
           if e =? 117 then
             match s2 with
             | h1 :: h2 :: h3 :: h4 :: s3 =>
                 match unhex4 h1 h2 h3 h4 with
                 | None => None
                 | Some u =>
                     match s3 with
                     | b :: u' :: l1 :: l2 :: l3 :: l4 :: ((_ :: _) as s4) =>
                         if is_high_surrogate u && (b =? ch_backslash) && (u' =? 117) then
                           match unhex4 l1 l2 l3 l4 with
                           | None => None
                           | Some u2 =>
                               if is_low_surrogate u2
                               then push (join_surrogates u u2) (scanstring s4)
                               else push u (scanstring s3)
                           end
                         else push u (scanstring s3)
                     | _ => push u (scanstring s3)
                     end
                 end
             | _ => None
             end
           else
             match unescape e with
             | Some c' => push c' (scanstring s2)
             | None => None
             end
       end
     else if c <=? 31 then None
     else push c (scanstring rest)).
  now rewrite H1, H2, H3.
Qed.

(** What the encoder writes for one character, the scanner reads back as
    that character. *)
Lemma scanstring_escape_char c x rest :
  is_scalar c = true ->
  scanstring (escape_char c ++ x :: rest) = push c (scanstring (x :: rest)).
Proof.
  unfold is_scalar. rewrite andb_true_iff, negb_true_iff, N.ltb_lt. intros [Hc Hs].
  unfold escape_char.
  destruct (N.eqb_spec c ch_quote) as [->|H1]; [reflexivity|].
  destruct (N.eqb_spec c ch_backslash) as [->|H2]; [reflexivity|].
  destruct (N.eqb_spec c 10) as [->|H3]; [reflexivity|].
  destruct (N.eqb_spec c 13) as [->|H4]; [reflexivity|].
  destruct (N.eqb_spec c 9) as [->|H5]; [reflexivity|].
  destruct (N.eqb_spec c 8) as [->|H6]; [reflexivity|].
  destruct (N.eqb_spec c 12) as [->|H7]; [reflexivity|].
  destruct ((32 <=? c) && (c <=? 126)) eqn:Hp.
  - apply andb_true_iff in Hp as [Hlo _]. apply N.leb_le in Hlo.
    apply scanstring_plain.
    + now apply N.eqb_neq.
    + now apply N.eqb_neq.
    + apply N.leb_gt. lia.
  - destruct (N.ltb_spec c 65536) as [Hb|Hb].
    + apply scanstring_u; [exact Hb|].
      unfold is_high_surrogate. apply andb_false_iff.
      apply andb_false_iff in Hs as [Hs|Hs]; [now left|].
      right. apply N.leb_gt. apply N.leb_gt in Hs. lia.
    + destruct (surrogates_join c (conj Hb Hc)) as (Hhi & Hlo & Hh & Hl & Hj).
      rewrite <- app_assoc, scanstring_pair by assumption. now rewrite Hj.
Qed.

Lemma scanstring_encoded s rest :
  List.forallb is_scalar s = true ->
  scanstring (List.flat_map escape_char s ++ ch_quote :: rest) = Some (s, rest).
Proof.
  induction s as [|c s IH]; intros Hs; [reflexivity|].
  cbn [List.forallb] in Hs. apply andb_true_iff in Hs as [Hc Hs].
  cbn [List.flat_map]. rewrite <- app_assoc.
  destruct (List.flat_map escape_char s ++ ch_quote :: rest) as [|x X] eqn:E.
  { destruct (List.flat_map escape_char s); discriminate. }
  rewrite scanstring_escape_char by exact Hc. rewrite (IH Hs). reflexivity.
Qed.

(** [json.loads] of an encoded string, with more text after it. *)
Lemma parse_value_encoded fuel s rest :
  List.forallb is_scalar s = true ->
  parse_value (S fuel) (encode_string s ++ rest) = Some (VStr s, rest).
Proof.
  intros Hs. unfold encode_string. cbn [app]. rewrite <- app_assoc. cbn [app].
  cbn [parse_value]. change (ch_quote =? ch_quote) with true. cbv iota.
  now rewrite scanstring_encoded.
Qed.

Lemma parse_members_unfold fuel acc q s1 :
  parse_members (S fuel) acc (q :: s1) =
  if q =? ch_quote then
    match scanstring s1 with
    | None => None
    | Some (key, s2) =>
        match skip_ws s2 with
        | [] => None
        | colon :: s3 =>
            if colon =? 58 then
              match parse_value fuel (skip_ws s3) with
              | None => None
              | Some (v, s4) =>
                  match skip_ws s4 with
                  | [] => None
                  | d :: s5 =>
                      if d =? 125 then Some (VDict (dict_set acc key v), s5)
                      else if d =? 44 then parse_members fuel (dict_set acc key v) (skip_ws s5)
                      else None
                  end
              end
            else None
        end
    end
  else None.
Proof. reflexivity. Qed.

Lemma skip_ws_encoded s rest : skip_ws (encode_string s ++ rest) = encode_string s ++ rest.
Proof. reflexivity. Qed.

(** One member of an object, [key: value], both strings. *)
Lemma parse_members_member fuel acc k v rest :
  List.forallb is_scalar k = true -> List.forallb is_scalar v = true ->
  parse_members (S (S fuel)) acc (encode_string k ++ py ": " ++ encode_string v ++ rest) =
  match skip_ws rest with
  | [] => None
  | d :: s5 =>
      if d =? 125 then Some (VDict (dict_set acc k (VStr v)), s5)
      else if d =? 44 then parse_members (S fuel) (dict_set acc k (VStr v)) (skip_ws s5)
      else None
  end.
Proof.
  intros Hk Hv. unfold encode_string at 1. cbn [app]. rewrite <- app_assoc. cbn [app].
  rewrite parse_members_unfold. change (ch_quote =? ch_quote) with true. cbv iota.
  rewrite (scanstring_encoded k _ Hk).
  change (skip_ws (py ": " ++ encode_string v ++ rest))
    with (58 :: 32 :: encode_string v ++ rest).
  change (58 =? 58) with true. cbv iota.
  change (skip_ws (32 :: encode_string v ++ rest)) with (encode_string v ++ rest).
  now rewrite (parse_value_encoded fuel v rest Hv).
Qed.

Lemma json_dumps_config url port key model :
  json_dumps (config_record url port key model) = Some (config_text url port key model).
Proof.
  unfold json_dumps, config_record, config_text. cbn [dumps_at fst snd].
  rewrite <- !app_assoc. reflexivity.
Qed.

Lemma parse_value_config fuel url port key model :
  List.forallb is_scalar url = true -> List.forallb is_scalar port = true ->
  List.forallb is_scalar key = true -> List.forallb is_scalar model = true ->
  parse_value (6 + fuel) (config_text url port key model) =
    Some (config_record url port key model, []).
Proof.
  intros Hu Hp Hk Hm. unfold config_text.
  change (parse_value (6 + fuel) (py "{" ++ newline_indent 1 ++ ?t))
    with (parse_members (5 + fuel) [] t).
  change (5 + fuel)%nat with (S (S (3 + fuel))).
  rewrite parse_members_member by (reflexivity || assumption).
  change (skip_ws (py "," ++ newline_indent 1 ++ ?t)) with (44 :: newline_indent 1 ++ t).
  change (44 =? 125) with false. change (44 =? 44) with true. cbv iota.
  change (skip_ws (newline_indent 1 ++ ?t)) with t.
  change (S (3 + fuel)) with (S (S (2 + fuel))).
  rewrite parse_members_member by (reflexivity || assumption).
  change (skip_ws (py "," ++ newline_indent 1 ++ ?t)) with (44 :: newline_indent 1 ++ t).
  change (44 =? 125) with false. change (44 =? 44) with true. cbv iota.
  change (skip_ws (newline_indent 1 ++ ?t)) with t.
  change (S (2 + fuel)) with (S (S (1 + fuel))).
  rewrite parse_members_member by (reflexivity || assumption).
  change (skip_ws (py "," ++ newline_indent 1 ++ ?t)) with (44 :: newline_indent 1 ++ t).
  change (44 =? 125) with false. change (44 =? 44) with true. cbv iota.
  change (skip_ws (newline_indent 1 ++ ?t)) with t.
  change (S (1 + fuel)) with (S (S fuel)).
  rewrite parse_members_member by (reflexivity || assumption).
  reflexivity.
Qed.

Lemma json_loads_config url port key model :
  List.forallb is_scalar url = true -> List.forallb is_scalar port = true ->
  List.forallb is_scalar key = true -> List.forallb is_scalar model = true ->
  json_loads (config_text url port key model) = Some (config_record url port key model).
Proof.
  intros Hu Hp Hk Hm. unfold json_loads.
  change (startswith [65279] (config_text url port key model)) with false. cbv iota.
  change (skip_ws (config_text url port key model)) with (config_text url port key model).
  assert (Hf : exists fuel, (2 * List.length (config_text url port key model) + 2 = 6 + fuel)%nat).
  { exists (2 * List.length (config_text url port key model) + 2 - 6)%nat.
    unfold config_text. rewrite !List.length_app.
    change (List.length (py "{")) with 1%nat.
    change (List.length (newline_indent 1)) with 3%nat. lia. }
  destruct Hf as [fuel ->].
  now rewrite parse_value_config.
Qed.

(** *** What the encoder writes is ASCII *)

Lemma forallb_ascii_app (a b : pystr) :
  List.forallb (fun c => c <? 128) a = true -> List.forallb (fun c => c <? 128) b = true ->
  List.forallb (fun c => c <? 128) (a ++ b) = true.
Proof. intros Ha Hb. rewrite List.forallb_app. now rewrite Ha, Hb. Qed.

Lemma hexdigit_ascii d : d < 16 -> (hexdigit d <? 128) = true.
Proof.
  intros Hd. unfold hexdigit. apply N.ltb_lt. destruct (d <? 10); lia.
Qed.

Lemma escape_u_ascii n : List.forallb (fun c => c <? 128) (escape_u n) = true.
Proof.
  unfold escape_u. cbn [List.forallb].
  rewrite !hexdigit_ascii by (apply N.mod_lt; discriminate). reflexivity.
Qed.

Lemma escape_char_ascii c : List.forallb (fun c => c <? 128) (escape_char c) = true.
Proof.
  unfold escape_char.
  repeat match goal with
         | |- context [if ?b then _ else _] => destruct b eqn:?; [try reflexivity|]
         end.
  - cbn [List.forallb]. apply andb_true_iff in Heqb6 as [_ H]. apply N.leb_le in H.
    rewrite andb_true_r. apply N.ltb_lt. lia.
  - apply escape_u_ascii.
  - apply forallb_ascii_app; apply escape_u_ascii.
Qed.

Lemma encode_string_ascii s : List.forallb (fun c => c <? 128) (encode_string s) = true.
Proof.
  unfold encode_string. cbn [List.forallb]. apply forallb_ascii_app; [|reflexivity].
  induction s as [|c s IH]; [reflexivity|]. cbn [List.flat_map].
  apply forallb_ascii_app; [apply escape_char_ascii | exact IH].
Qed.

Lemma newline_indent_ascii level :
  List.forallb (fun c => c <? 128) (newline_indent level) = true.
Proof.
  unfold newline_indent. cbn [List.forallb].
  induction (2 * level)%nat as [|n IH]; [reflexivity | exact IH].
Qed.

(** [json.dump] with its default [ensure_ascii] writes ASCII only. *)
Lemma dumps_at_ascii : forall v level text,
  dumps_at level v = Some text -> List.forallb (fun c => c <? 128) text = true.
Proof.
  fix IH 1. intros [| [|] | lexeme | s | items | items] level text; cbn [dumps_at].
  - intros [= <-]. reflexivity.
  - intros [= <-]. reflexivity.
  - intros [= <-]. reflexivity.
  - discriminate.
  - intros [= <-]. apply encode_string_ascii.
  - destruct items as [|x l]; [intros [= <-]; reflexivity|].
    match goal with |- context [?g l] => is_fix g; set (go := g) end.
    assert (Hgo : forall l' body, go l' = Some body ->
                  List.Forall (fun y => forall lv t, dumps_at lv y = Some t ->
                                 List.forallb (fun c => c <? 128) t = true) l' ->
                  List.forallb (fun c => c <? 128) body = true).
    { induction l' as [|y l' IHl]; intros body Hb HF.
      - injection Hb as <-. reflexivity.
      - apply List.Forall_cons_iff in HF as [Hy HF']. destruct l' as [|z l'].
        + exact (Hy _ _ Hb).
        + change (go (y :: z :: l'))
            with (match dumps_at (S level) y with
                  | Some a =>
                      match go (z :: l') with
                      | Some b => Some (a ++ py "," ++ newline_indent (S level) ++ b)
                      | None => None
                      end
                  | None => None
                  end) in Hb.
          destruct (dumps_at (S level) y) as [a|] eqn:Ea; [|discriminate].
          destruct (go (z :: l')) as [b|] eqn:Eb; [|discriminate].
          assert (E : body = a ++ py "," ++ newline_indent (S level) ++ b) by congruence.
          rewrite E.
          rewrite !List.forallb_app, newline_indent_ascii, (Hy _ _ Ea), (IHl _ eq_refl HF').
          reflexivity. }
    match goal with
    | |- match ?t with _ => _ end = _ -> _ => destruct t as [body|] eqn:Eb; [|discriminate]
    end.
    intros E.
    assert (E' : text = py "[" ++ newline_indent (S level) ++ body ++ newline_indent level
                        ++ py "]") by congruence.
    rewrite E'.
    rewrite !List.forallb_app, !newline_indent_ascii.
    rewrite (Hgo (x :: l) body Eb); [reflexivity|].
    clear - IH. generalize (x :: l). intros l0. induction l0 as [|y l0 IHl]; constructor.
    + intros lv t. apply IH.
    + exact IHl.
  - destruct items as [|x l]; [intros [= <-]; reflexivity|].
    match goal with |- context [?g l] => is_fix g; set (go := g) end.
    assert (Hm : forall (y : pystr * value) m,
              (forall lv t, dumps_at lv (snd y) = Some t ->
                            List.forallb (fun c => c <? 128) t = true) ->
              match dumps_at (S level) (snd y) with
              | Some b => Some (encode_string (fst y) ++ py ": " ++ b)
              | None => None
              end = Some m ->
              List.forallb (fun c => c <? 128) m = true).
    { intros y m Hy Hm. destruct (dumps_at (S level) (snd y)) as [b|] eqn:Eb; [|discriminate].
      assert (E : m = encode_string (fst y) ++ py ": " ++ b) by congruence. rewrite E.
      rewrite !List.forallb_app, encode_string_ascii, (Hy _ _ Eb). reflexivity. }
    assert (Hgo : forall l' body, go l' = Some body ->
                  List.Forall (fun y => forall lv t, dumps_at lv (snd y) = Some t ->
                                 List.forallb (fun c => c <? 128) t = true) l' ->
                  List.forallb (fun c => c <? 128) body = true).
    { induction l' as [|y l' IHl]; intros body Hb HF.
      - injection Hb as <-. reflexivity.
      - apply List.Forall_cons_iff in HF as [Hy HF']. destruct l' as [|z l'].
        + exact (Hm _ _ Hy Hb).
        + change (go (y :: z :: l'))
            with (match match dumps_at (S level) (snd y) with
                        | Some b => Some (encode_string (fst y) ++ py ": " ++ b)
                        | None => None
                        end with
                  | Some a =>
                      match go (z :: l') with
                      | Some b => Some (a ++ py "," ++ newline_indent (S level) ++ b)
                      | None => None
                      end
                  | None => None
                  end) in Hb.
          destruct (match dumps_at (S level) (snd y) with
                    | Some b => Some (encode_string (fst y) ++ py ": " ++ b)
                    | None => None
                    end) as [a|] eqn:Ea; [|discriminate].
          destruct (go (z :: l')) as [b|] eqn:Eb; [|discriminate].
          assert (E : body = a ++ py "," ++ newline_indent (S level) ++ b) by congruence.
          rewrite E.
          rewrite !List.forallb_app, newline_indent_ascii, (Hm _ _ Hy Ea), (IHl _ eq_refl HF').
          reflexivity. }
    match goal with
    | |- match ?t with _ => _ end = _ -> _ => destruct t as [body|] eqn:Eb; [|discriminate]
    end.
    intros E.
    assert (E' : text = py "{" ++ newline_indent (S level) ++ body ++ newline_indent level
                        ++ py "}") by congruence.
    rewrite E'.
    rewrite !List.forallb_app, !newline_indent_ascii.
    rewrite (Hgo (x :: l) body Eb); [reflexivity|].
    clear - IH. generalize (x :: l). intros l0. induction l0 as [|[k y] l0 IHl]; constructor.
    + intros lv t. apply IH.
    + exact IHl.
Qed.

Lemma json_dumps_encodable config text w :
  json_dumps config = Some text -> List.forallb (encodable w) text = true.
Proof.
  intros Hd. apply dumps_at_ascii in Hd. unfold encodable.
  rewrite List.forallb_forall in *. intros c Hc. now rewrite (Hd c Hc).
Qed.

(** The world once [open], [json.dump] and the end of the [with] block are
    through. *)
Lemma save_config_written config text w :
  unwritable w !! config_file = None ->
  json_dumps config = Some text ->
  save_config config w =
    match unchmodable w !! config_file with
    | Some msg =>
        console_print (config_error_line msg)
          (set_files (fun fs => <[config_file := text]> fs) w)
    | None =>
        (Ok tt, set_modes (fun ms => <[config_file := 384]> ms)
                  (set_files (fun fs => <[config_file := text]> fs) w))
    end.
Proof.
  intros Hw Hd. unfold save_config, try_except.
  unfold bind at 1. unfold open_write at 1. unfold pystr in *. rewrite Hw.
  unfold bind at 1. rewrite Hd. unfold ret at 1.
  unfold bind at 1, file_write at 1.
  change (List.forallb (encodable (set_files _ w)) text) with (List.forallb (encodable w) text).
  rewrite (json_dumps_encodable config text w Hd).
  rewrite set_files_compose.
  replace (set_files _ w) with (set_files (fun fs => <[config_file := text]> fs) w).
  2:{ apply set_files_ext. now rewrite lookup_insert_eq, insert_insert_eq. }
  unfold chmod.
  change (unchmodable (set_files (fun fs => <[config_file := text]> fs) w))
    with (unchmodable w).
  unfold pystr.
  match goal with |- context [match ?t with Some _ => _ | None => _ end] => destruct t end;
    reflexivity.
Qed.

Lemma console_print_world line w r w' :
  console_print line w = (r, w') ->
  files w' = files w /\ unreadable w' = unreadable w /\ modes w' = modes w /\
  requests w' = requests w /\ stdin w' = stdin w.
Proof.
  unfold console_print. destruct (console_rejects w line); intros [= <- <-]; repeat split.
Qed.

(** C8: a configuration of four strings of Unicode scalar values (every
    printable string is one) that [save_config] writes is what
    [load_config] reads back, when the configuration file can be written
    and read. [save_config] returns normally when the permissions could be
    set, and also when they could not and the console prints the error. *)
Theorem save_config_then_load_config (url port key model : pystr) (w : world) :
  List.forallb is_scalar url = true -> List.forallb is_scalar port = true ->
  List.forallb is_scalar key = true -> List.forallb is_scalar model = true ->
  unwritable w !! config_file = None ->
  unreadable w !! config_file = None ->
  exists r w1,
    save_config (config_record url port key model) w = (r, w1) /\
    load_config w1 = (Ok (config_record url port key model), w1) /\
    ((forall msg, unchmodable w !! config_file = Some msg ->
                  console_rejects w (config_error_line msg) = None) ->
     r = Ok tt).
Proof.
  intros Hu Hp Hk Hm Hw Hr.
  rewrite (save_config_written _ _ w Hw (json_dumps_config url port key model)).
  assert (Hload : forall w1,
            files w1 = <[config_file := config_text url port key model]> (files w) ->
            unreadable w1 = unreadable w ->
            load_config w1 = (Ok (config_record url port key model), w1)).
  { intros w1 Hf Hr1. rewrite load_config_run, Hf, Hr1. unfold pystr in *.
    rewrite lookup_insert_eq, Hr. now rewrite json_loads_config. }
  match goal with
  | |- context [match ?t with Some _ => _ | None => _ end] => destruct t as [msg|] eqn:Hc
  end.
  - match goal with
    | |- context [console_print ?l ?x] => destruct (console_print l x) as [r w1] eqn:E
    end.
    exists r, w1. split; [reflexivity|].
    pose proof (console_print_world _ _ _ _ E) as (Hf & Hr1 & _).
    split; [apply Hload; [rewrite Hf | rewrite Hr1]; reflexivity|].
    intros Hok. specialize (Hok msg eq_refl).
    unfold console_print in E.
    change (console_rejects (set_files ?f w) (config_error_line msg))
      with (console_rejects w (config_error_line msg)) in E.
    rewrite Hok in E. congruence.
  - eexists _, _. split; [reflexivity|]. split; [apply Hload; reflexivity | reflexivity].
Qed.

Lemma save_config_then_load_config_witness :
  exists r w1,
    save_config (config_record (py "https://api.openai.com/v1") (py "443")
                   (py "sk-" ++ [ch_quote; ch_backslash; 233; 128512]) (py "gpt-4")) world0
      = (r, w1) /\
    load_config w1 =
      (Ok (config_record (py "https://api.openai.com/v1") (py "443")
             (py "sk-" ++ [ch_quote; ch_backslash; 233; 128512]) (py "gpt-4")), w1) /\
    ((forall msg, unchmodable world0 !! config_file = Some msg ->
                  console_rejects world0 (config_error_line msg) = None) ->
     r = Ok tt).
Proof.
  apply (save_config_then_load_config (py "https://api.openai.com/v1") (py "443")
           (py "sk-" ++ [ch_quote; ch_backslash; 233; 128512]) (py "gpt-4") world0);
    try reflexivity; apply lookup_empty.
Defined.

(** A text cut where [c] first occurs is cut in one way only. *)
Lemma cut_unique (c : N) (a a' p p' : pystr) :
  ~ List.In c a -> ~ List.In c a' ->
  (p = [] \/ exists q, p = c :: q) -> (p' = [] \/ exists q, p' = c :: q) ->
  a ++ p = a' ++ p' -> a = a' /\ p = p'.
Proof.
  revert a'. induction a as [|x a IH]; intros [|y a'] Ha Ha' Hp Hp' E; simpl in E.
  - auto.
  - exfalso. destruct Hp as [-> | [q ->]]; [discriminate|].
    injection E as -> _. apply Ha'. now left.
  - exfalso. destruct Hp' as [-> | [q ->]]; [discriminate|].
    injection E as -> _. apply Ha. now left.
  - injection E as -> E.
    destruct (IH a') as [-> ->]; auto.
    + intros H. apply Ha. now right.
    + intros H. apply Ha'. now right.
Qed.

(** C4: when the url (trailing slashes stripped) reads
    [scheme://host[:ignored][/path]], cut at its first [://], with a port
    that is not empty and no [:port] in the url, [get_api_url] returns
    [scheme://host:port] followed by the path: the port the url had is
    dropped, scheme and path are kept. *)
Theorem get_api_url_injects_port
    (items : dict) (raw url port scheme host ignored path : pystr) (w : world) :
  dict_get items (py "url") (VStr []) = VStr raw ->
  dict_get items (py "port") (VStr []) = VStr port ->
  url = rstrip_with (in_chars (py "/")) raw ->
  port <> [] ->
  contains (py ":" ++ port) url = false ->
  url = scheme ++ py "://" ++ host ++ ignored ++ path ->
  (forall a b, url = a ++ py "://" ++ b -> (List.length scheme <= List.length a)%nat) ->
  ~ List.In 58 host -> ~ List.In ch_slash host ->
  (ignored = [] \/ exists i, ignored = 58 :: i) -> ~ List.In ch_slash ignored ->
  (path = [] \/ exists p, path = ch_slash :: p) ->
  get_api_url (VDict items) w =
    (Ok (Some (scheme ++ py "://" ++ host ++ py ":" ++ port ++ path)), w).
Proof.
  intros Hu Hp Hurl Hport Hnot Hd Hmin Hh1 Hh2 Hi1 Hi2 Hpath.
  assert (Hsep : contains (py "://") url = true).
  { apply contains_true. eauto. }
  destruct (get_api_url_rebuilds items raw url port w Hu Hp Hurl Hsep Hport Hnot)
    as (scheme0 & host0 & ignored0 & path0 & Hd0 & Hmin0 & Hh10 & Hh20 & Hi10 & Hi20 & Hpath0 & Hget).
  rewrite Hget. clear Hget.
  assert (Hlen : List.length scheme0 = List.length scheme).
  { apply Nat.le_antisymm; [apply (Hmin0 _ _ Hd) | apply (Hmin _ _ Hd0)]. }
  rewrite Hd in Hd0.
  apply app_inj_1 in Hd0 as [<- Hrest]; [|now symmetry].
  apply app_inv_head in Hrest.
  rewrite !app_assoc in Hrest.
  apply cut_unique with (c := ch_slash) in Hrest as [Hseg <-]; auto.
  - apply cut_unique with (c := 58) in Hseg as [<- _]; auto.
  - intros H. apply in_app_or in H as [H|H]; auto.
  - intros H. apply in_app_or in H as [H|H]; auto.
Qed.

Lemma get_api_url_injects_port_witness :
  get_api_url (VDict [(py "url", VStr (py "http://localhost:11434/v1"));
                      (py "port", VStr (py "8080"))]) world0 =
    (Ok (Some (py "http://localhost:8080/v1")), world0).
Proof.
  apply (get_api_url_injects_port
           [(py "url", VStr (py "http://localhost:11434/v1")); (py "port", VStr (py "8080"))]
           (py "http://localhost:11434/v1") (py "http://localhost:11434/v1") (py "8080")
           (py "http") (py "localhost") (py ":11434") (py "/v1") world0).
  - reflexivity.
  - reflexivity.
  - reflexivity.
  - discriminate.
  - reflexivity.
  - reflexivity.
  - intros a b H. destruct a as [|? [|? [|? [|? a]]]]; try discriminate H.
    change (List.length (py "http")) with 4%nat. cbn [List.length]. lia.
  - vm_compute. intuition discriminate.
  - vm_compute. intuition discriminate.
  - right. eexists. reflexivity.
  - vm_compute. intuition discriminate.
  - right. eexists. reflexivity.
Defined.

(** A stored url of slashes only is not empty, and yet nothing is resolved. *)
Lemma get_api_url_fails_on_slashes :
  py "/" <> [] /\
  get_api_url (VDict [(py "url", VStr (py "/")); (py "port", VStr (py "8080"))]) world0
    = (Ok None, world0).
Proof. split; [discriminate | reflexivity]. Qed.

(** C3: a configuration file that holds the JSON array [[]] is a case the
    handler of [load_config] does not cover: the list is returned as the
    configuration, the first [get] on it raises [AttributeError], and a run
    on any diff ends with status 1 before the diff is looked at. *)
Theorem load_config_returns_a_list :
  load_config (world_with_config (py "[]")) = (Ok (VList []), world_with_config (py "[]")) /\
  main [py "chng"; py "fix.diff"] (world_with_config (py "[]")) =
    (Raise (AttributeError (py "'list' object has no attribute 'get'")),
     world_with_config (py "[]")) /\
  exit_status [py "chng"; py "fix.diff"] (world_with_config (py "[]")) = Some 1%Z.
Proof.
  assert (Hl : load_config (world_with_config (py "[]"))
               = (Ok (VList []), world_with_config (py "[]"))).
  { rewrite load_config_run.
    change (unreadable (world_with_config (py "[]")) !! config_file)
      with ((∅ : gmap pystr refusal) !! config_file).
    rewrite lookup_empty.
    change (files (world_with_config (py "[]")) !! config_file)
      with (({[ config_file := py "[]" ]} : gmap pystr pystr) !! config_file).
    rewrite lookup_singleton_eq. reflexivity. }
  assert (Hm : main [py "chng"; py "fix.diff"] (world_with_config (py "[]")) =
               (Raise (AttributeError (py "'list' object has no attribute 'get'")),
                world_with_config (py "[]"))).
  { unfold main, bind at 1. rewrite Hl. reflexivity. }
  split; [exact Hl|]. split; [exact Hm|]. unfold exit_status. now rewrite Hm.
Qed.

Lemma load_config_configured fs answer :
  load_config (configured_world fs answer) = (Ok (VDict local_config), configured_world fs answer).
Proof.
  rewrite load_config_run.
  change (unreadable (configured_world fs answer)) with (∅ : gmap pystr refusal).
  rewrite lookup_empty.
  change (files (configured_world fs answer))
    with (<[config_file := config_text (py "http://localhost:11434/v1") [] [] (py "llama2")]> fs).
  unfold pystr in *. rewrite lookup_insert_eq.
  now rewrite json_loads_config.
Qed.

Lemma accepts_usage w : console_rejects w (py "Usage: chng <diff_file> or chng --setup") = None.
Proof. accepted. Qed.

(** Without an argument the process ends with status 1: by [sys.exit(1)]
    after the usage line, or by the error of [load_config] before it. *)
Lemma main_usage argv w :
  (List.length argv < 2)%nat ->
  exit_status argv w = Some 1%Z.
Proof.
  intros Hn. unfold exit_status, main, bind at 1. rewrite load_config_run.
  destruct (unreadable w !! config_file) as [[msg|msg]|]; [reflexivity| |].
  - destruct argv as [|a [|b argv]]; [| |simpl in Hn; lia];
      unfold bind; now rewrite (console_print_ok _ w (accepts_usage w)).
  - destruct argv as [|a [|b argv]]; [| |simpl in Hn; lia];
      unfold bind; now rewrite (console_print_ok _ w (accepts_usage w)).
Qed.

Lemma dict_get_found items k v d : dict_lookup items k = Some v -> dict_get items k d = v.
Proof. unfold dict_get. now intros ->. Qed.

(** The run that writes the changelog and names the file it wrote. *)
Lemma process_file_saved items c filepath text answer others w :
  files w !! filepath = Some text ->
  unreadable w !! filepath = None ->
  strip text <> [] ->
  console_rejects w (processing_line filepath) = None ->
  get_client (VDict items) w = (Ok (Some c), w) ->
  api w (changelog_request c items (strip text)) = ApiResponse (Some answer :: others) ->
  strip answer <> [] ->
  console_rejects w (strip answer) = None ->
  unwritable w !! output_file filepath = None ->
  List.forallb (encodable w) (changelog_text (strip answer)) = true ->
  console_rejects w (saved_line filepath) = None ->
  process_file (VDict items) filepath w =
    (Ok tt,
     printed [saved_line filepath]
       (set_files (fun fs => <[output_file filepath := changelog_text (strip answer)]> fs)
          (printed (changelog_banner (strip answer))
             (set_requests (fun rs => rs ++ [changelog_request c items (strip text)])
                (printed [processing_line filepath] w))))).
Proof.
  intros Hf Hr Hs Hp Hc Hapi Ha Hch Hw He Hsv.
  rewrite (process_file_generated items c filepath text answer others w Hf Hr Hs Hp Hc Hapi Ha).
  cbv zeta. rewrite Hch. unfold pystr in *. now rewrite Hw, He, Hsv.
Qed.

(** C1, amended: without an argument the process exits with status 1. With
    a file argument and a configured endpoint, a file that is missing,
    cannot be read or is empty is reported on the console, [main] returns
    normally and the exit status is 0, once the console has printed the
    report; it is 0 as well for the run that writes the changelog and names
    the file. *)
Theorem main_exit_status :
  (forall (argv : list pystr) (w : world),
     (List.length argv < 2)%nat -> exit_status argv w = Some 1%Z) /\
  (forall (items : dict) (url prog filepath : pystr) (rest : list pystr) (w : world),
     load_config w = (Ok (VDict items), w) ->
     dict_lookup items (py "url") = Some (VStr url) -> url <> [] ->
     filepath <> py "--setup" ->
     (files w !! filepath = None -> unreadable w !! filepath = None ->
      console_rejects w (not_found_line filepath) = None ->
      main (prog :: filepath :: rest) w = (Ok tt, printed [not_found_line filepath] w) /\
      exit_status (prog :: filepath :: rest) w = Some 0%Z) /\
     (forall r,
        unreadable w !! filepath = Some r ->
        console_rejects w (read_error_line (refusal_text r)) = None ->
        main (prog :: filepath :: rest) w =
          (Ok tt, printed [read_error_line (refusal_text r)] w) /\
        exit_status (prog :: filepath :: rest) w = Some 0%Z) /\
     (forall text,
        files w !! filepath = Some text -> unreadable w !! filepath = None ->
        strip text = [] ->
        main (prog :: filepath :: rest) w =
          (Ok tt, printed [py "[red]Error: File is empty[/red]"] w) /\
        exit_status (prog :: filepath :: rest) w = Some 0%Z) /\
     (forall c text answer others,
        files w !! filepath = Some text -> unreadable w !! filepath = None ->
        strip text <> [] ->
        console_rejects w (processing_line filepath) = None ->
        get_client (VDict items) w = (Ok (Some c), w) ->
        api w (changelog_request c items (strip text)) = ApiResponse (Some answer :: others) ->
        strip answer <> [] ->
        console_rejects w (strip answer) = None ->
        unwritable w !! output_file filepath = None ->
        List.forallb (encodable w) (changelog_text (strip answer)) = true ->
        console_rejects w (saved_line filepath) = None ->
        exit_status (prog :: filepath :: rest) w = Some 0%Z)).
Proof.
  split; [exact main_usage|].
  intros items url prog filepath rest w Hl Hu Hne Hs.
  pose proof (dict_get_found items _ _ VNone Hu) as Hu1.
  unfold exit_status.
  rewrite (main_process_file items url prog filepath rest w Hl Hu1 Hne Hs).
  split; [|split; [|split]].
  - intros Hf Hr Hok. rewrite (process_file_missing _ _ _ Hf Hr), Hok. now split.
  - intros r Hr Hok. rewrite (process_file_unreadable _ _ _ _ Hr), Hok. now split.
  - intros text Hf Hr Hb. rewrite (process_file_blank _ _ _ _ Hf Hr Hb). now split.
  - intros c text answer others Hf Hr Hb Hp Hc Hapi Ha Hch Hw He Hsv.
    now rewrite (process_file_saved items c filepath text answer others w
                   Hf Hr Hb Hp Hc Hapi Ha Hch Hw He Hsv).
Qed.

Lemma main_exit_status_witness :
  exit_status [py "chng"] world0 = Some 1%Z /\
  main [py "chng"; py "blank.diff"]
    (configured_world {[ py "blank.diff" := py "  " ++ [ch_newline] ]} (ApiRaise [])) =
    (Ok tt, printed [py "[red]Error: File is empty[/red]"]
              (configured_world {[ py "blank.diff" := py "  " ++ [ch_newline] ]} (ApiRaise []))) /\
  exit_status [py "chng"; py "blank.diff"]
    (configured_world {[ py "blank.diff" := py "  " ++ [ch_newline] ]} (ApiRaise [])) = Some 0%Z.
Proof.
  split.
  - apply (proj1 main_exit_status [py "chng"] world0). cbn [List.length]. lia.
  - destruct (proj2 main_exit_status local_config (py "http://localhost:11434/v1")
                (py "chng") (py "blank.diff") []
                (configured_world {[ py "blank.diff" := py "  " ++ [ch_newline] ]} (ApiRaise [])))
      as (_ & _ & Hblank & _).
    + apply load_config_configured.
    + reflexivity.
    + discriminate.
    + discriminate.
    + apply (Hblank (py "  " ++ [ch_newline])).
      * change (files (configured_world {[ py "blank.diff" := py "  " ++ [ch_newline] ]} (ApiRaise [])))
          with (<[config_file := config_text (py "http://localhost:11434/v1") [] [] (py "llama2")]>
                  ({[ py "blank.diff" := py "  " ++ [ch_newline] ]} : gmap pystr pystr)).
        rewrite lookup_insert_ne by discriminate. apply lookup_singleton_eq.
      * apply lookup_empty.
      * reflexivity.
Defined.

(** A configured run on a file that does not exist prints the error and
    ends with status 0. *)
Lemma main_missing_file_exits_zero :
  files (configured_world ∅ (ApiRaise [])) !! py "missing.diff" = None /\
  main [py "chng"; py "missing.diff"] (configured_world ∅ (ApiRaise [])) =
    (Ok tt, printed [not_found_line (py "missing.diff")] (configured_world ∅ (ApiRaise []))) /\
  exit_status [py "chng"; py "missing.diff"] (configured_world ∅ (ApiRaise [])) = Some 0%Z.
Proof.
  assert (Hf : files (configured_world ∅ (ApiRaise [])) !! py "missing.diff" = None).
  { change (files (configured_world ∅ (ApiRaise [])))
      with (<[config_file := config_text (py "http://localhost:11434/v1") [] [] (py "llama2")]>
              (∅ : gmap pystr pystr)).
    rewrite lookup_insert_ne by discriminate. apply lookup_empty. }
  assert (Hm : main [py "chng"; py "missing.diff"] (configured_world ∅ (ApiRaise [])) =
               (Ok tt, printed [not_found_line (py "missing.diff")]
                         (configured_world ∅ (ApiRaise [])))).
  { rewrite (main_process_file local_config (py "http://localhost:11434/v1") (py "chng")
               (py "missing.diff") [] _ (load_config_configured ∅ (ApiRaise [])));
      [|reflexivity|discriminate|discriminate].
    rewrite (process_file_missing _ _ _ Hf (lookup_empty _)). reflexivity. }
  split; [exact Hf|]. split; [exact Hm|]. unfold exit_status. now rewrite Hm.
Qed.

(** C6: the completion call raises an error whose text names a route in
    brackets. The handler of [generate_changelog] prints the text as
    console markup, the print raises [MarkupError], and neither
    [generate_changelog] nor [process_file] returns: the run ends with
    status 1. No file was written. *)
Theorem generate_changelog_error_not_printed :
  exists w',
    generate_changelog (VDict local_config) (strip (py "- bug" ++ [ch_newline] ++ py "+ fix"))
      (printed [processing_line (py "fix.diff")]
         (configured_world {[ py "fix.diff" := py "- bug" ++ [ch_newline] ++ py "+ fix" ]}
            (ApiRaise route_error))) =
      (Raise (MarkupError (py "closing tag '[/v1/chat/completions]' at position 55 doesn't match any open tag")),
       w') /\
    main [py "chng"; py "fix.diff"]
      (configured_world {[ py "fix.diff" := py "- bug" ++ [ch_newline] ++ py "+ fix" ]}
         (ApiRaise route_error)) =
      (Raise (MarkupError (py "closing tag '[/v1/chat/completions]' at position 55 doesn't match any open tag")),
       w') /\
    files w' =
      files (configured_world {[ py "fix.diff" := py "- bug" ++ [ch_newline] ++ py "+ fix" ]}
               (ApiRaise route_error)) /\
    exit_status [py "chng"; py "fix.diff"]
      (configured_world {[ py "fix.diff" := py "- bug" ++ [ch_newline] ++ py "+ fix" ]}
         (ApiRaise route_error)) = Some 1%Z.
Proof.
  set (w := configured_world {[ py "fix.diff" := py "- bug" ++ [ch_newline] ++ py "+ fix" ]}
              (ApiRaise route_error)).
  assert (Hf : files w !! py "fix.diff" = Some (py "- bug" ++ [ch_newline] ++ py "+ fix")).
  { change (files w)
      with (<[config_file := config_text (py "http://localhost:11434/v1") [] [] (py "llama2")]>
              ({[ py "fix.diff" := py "- bug" ++ [ch_newline] ++ py "+ fix" ]}
               : gmap pystr pystr)).
    rewrite lookup_insert_ne by discriminate. apply lookup_singleton_eq. }
  destruct (process_file_error local_config local_client (py "fix.diff")
              (py "- bug" ++ [ch_newline] ++ py "+ fix") route_error w Hf (lookup_empty _))
    as [Hg Hp]; [vm_compute; discriminate | vm_compute; reflexivity | reflexivity | reflexivity |].
  assert (Hrej : console_rejects w (error_line route_error) =
                 Some (py "closing tag '[/v1/chat/completions]' at position 55 doesn't match any open tag")).
  { vm_compute. reflexivity. }
  rewrite Hrej in Hg, Hp.
  assert (Hm : main [py "chng"; py "fix.diff"] w = process_file (VDict local_config) (py "fix.diff") w).
  { apply (main_process_file local_config (py "http://localhost:11434/v1"));
      [apply load_config_configured | reflexivity | discriminate | discriminate]. }
  eexists. split; [exact Hg|]. split; [rewrite Hm; exact Hp|]. split; [reflexivity|].
  unfold exit_status. now rewrite Hm, Hp.
Qed.

(** C7: the first choice of the completion is [- path [/usr/bin] handling].
    [process_file] prints the heading and the rule, the print of the
    changelog raises [MarkupError] because of the bracketed path, and the
    run ends with status 1 before the output file is opened: the directory
    holds no [changelog-fix.md]. *)
Theorem process_file_changelog_not_written :
  exists w',
    main [py "chng"; py "fix.diff"]
      (configured_world {[ py "fix.diff" := py "- bug" ++ [ch_newline] ++ py "+ fix" ]}
         (ApiResponse [Some (py "- path [/usr/bin] handling")])) =
      (Raise (MarkupError (py "closing tag '[/usr/bin]' at position 7 doesn't match any open tag")),
       w') /\
    files w' !! output_file (py "fix.diff") = None /\
    output_file (py "fix.diff") = py "changelog-fix.md" /\
    exit_status [py "chng"; py "fix.diff"]
      (configured_world {[ py "fix.diff" := py "- bug" ++ [ch_newline] ++ py "+ fix" ]}
         (ApiResponse [Some (py "- path [/usr/bin] handling")])) = Some 1%Z.
Proof.
  set (w := configured_world {[ py "fix.diff" := py "- bug" ++ [ch_newline] ++ py "+ fix" ]}
              (ApiResponse [Some (py "- path [/usr/bin] handling")])).
  assert (Hf : files w !! py "fix.diff" = Some (py "- bug" ++ [ch_newline] ++ py "+ fix")).
  { change (files w)
      with (<[config_file := config_text (py "http://localhost:11434/v1") [] [] (py "llama2")]>
              ({[ py "fix.diff" := py "- bug" ++ [ch_newline] ++ py "+ fix" ]}
               : gmap pystr pystr)).
    rewrite lookup_insert_ne by discriminate. apply lookup_singleton_eq. }
  pose proof (process_file_generated local_config local_client (py "fix.diff")
                (py "- bug" ++ [ch_newline] ++ py "+ fix") (py "- path [/usr/bin] handling") [] w
                Hf (lookup_empty _)) as Hp.
  cbv zeta in Hp.
  assert (Hrej : console_rejects w (strip (py "- path [/usr/bin] handling")) =
                 Some (py "closing tag '[/usr/bin]' at position 7 doesn't match any open tag")).
  { vm_compute. reflexivity. }
  rewrite Hrej in Hp.
  assert (Hm : main [py "chng"; py "fix.diff"] w = process_file (VDict local_config) (py "fix.diff") w).
  { apply (main_process_file local_config (py "http://localhost:11434/v1"));
      [apply load_config_configured | reflexivity | discriminate | discriminate]. }
  rewrite Hm, Hp;
    [|vm_compute; discriminate | vm_compute; reflexivity | reflexivity | reflexivity
     |vm_compute; discriminate].
  eexists. split; [reflexivity|]. split; [|split; [reflexivity|]].
  - rewrite printed_files, files_set_requests, printed_files.
    change (files w)
      with (<[config_file := config_text (py "http://localhost:11434/v1") [] [] (py "llama2")]>
              ({[ py "fix.diff" := py "- bug" ++ [ch_newline] ++ py "+ fix" ]}
               : gmap pystr pystr)).
    rewrite lookup_insert_ne by (vm_compute; discriminate).
    apply lookup_singleton_ne. vm_compute. discriminate.
  - unfold exit_status. rewrite Hm, Hp;
      [reflexivity | vm_compute; discriminate | vm_compute; reflexivity | reflexivity
      | reflexivity | vm_compute; discriminate].
Qed.

(** *** Saving the configuration *)

(** X1: when the configuration file cannot be opened for writing,
    [save_config] leaves the files and their permissions as they were and
    prints [Error saving config:] with the error's text; it returns
    normally once the console has printed that line. *)
Theorem save_config_refused (config : value) (msg : pystr) (w : world) :
  unwritable w !! config_file = Some msg ->
  exists r w',
    save_config config w = (r, w') /\
    files w' = files w /\
    modes w' = modes w /\
    (console_rejects w (config_error_line msg) = None ->
     r = Ok tt /\ w' = printed [config_error_line msg] w).
Proof.
  intros Hw.
  assert (E : save_config config w = console_print (config_error_line msg) w).
  { unfold save_config, try_except, bind, open_write. unfold pystr in *. now rewrite Hw. }
  rewrite E. destruct (console_print (config_error_line msg) w) as [r w'] eqn:Ep.
  exists r, w'. split; [reflexivity|].
  pose proof (console_print_world _ _ _ _ Ep) as (Hf & _ & Hm & _).
  split; [exact Hf|]. split; [exact Hm|].
  intros Hok. exact (console_print_accepted _ _ _ _ Ep Hok).
Qed.

Lemma save_config_refused_witness :
  exists r w',
    save_config (config_record (py "http://localhost:11434/v1") [] [] (py "llama2"))
      (readonly_home (py "[Errno 13] Permission denied: '~/.apikey'")) = (r, w') /\
    files w' = ∅ /\
    modes w' = ∅ /\
    (console_rejects (readonly_home (py "[Errno 13] Permission denied: '~/.apikey'"))
       (config_error_line (py "[Errno 13] Permission denied: '~/.apikey'")) = None ->
     r = Ok tt /\
     w' = printed [config_error_line (py "[Errno 13] Permission denied: '~/.apikey'")]
            (readonly_home (py "[Errno 13] Permission denied: '~/.apikey'"))).
Proof.
  apply (save_config_refused
           (config_record (py "http://localhost:11434/v1") [] [] (py "llama2"))
           (py "[Errno 13] Permission denied: '~/.apikey'")
           (readonly_home (py "[Errno 13] Permission denied: '~/.apikey'"))).
  apply lookup_singleton_eq.
Defined.

(** X2: when the configuration can be written and its permissions set,
    [save_config] leaves the JSON text of the configuration in [~/.apikey],
    sets the file's mode to [0o600] (384) and prints nothing. *)
Theorem save_config_owner_only (config : value) (text : pystr) (w : world) :
  json_dumps config = Some text ->
  unwritable w !! config_file = None ->
  unchmodable w !! config_file = None ->
  exists w',
    save_config config w = (Ok tt, w') /\
    files w' = <[config_file := text]> (files w) /\
    modes w' = <[config_file := 384]> (modes w) /\
    console w' = console w.
Proof.
  intros Hd Hw Hc. rewrite (save_config_written config text w Hw Hd).
  unfold pystr in *. rewrite Hc. eexists. split; [reflexivity|]. now destruct w.
Qed.

Lemma save_config_owner_only_witness :
  exists w',
    save_config (config_record (py "http://localhost:11434/v1") [] [] (py "llama2")) world0
      = (Ok tt, w') /\
    files w' = <[config_file := config_text (py "http://localhost:11434/v1") [] [] (py "llama2")]> ∅ /\
    modes w' = <[config_file := 384]> ∅ /\
    console w' = [].
Proof.
  apply (save_config_owner_only
           (config_record (py "http://localhost:11434/v1") [] [] (py "llama2"))
           (config_text (py "http://localhost:11434/v1") [] [] (py "llama2")) world0).
  - apply json_dumps_config.
  - apply lookup_empty.
  - apply lookup_empty.
Defined.

(** X3: when the file can be written and [os.chmod] fails, the
    configuration is on disk all the same and the permissions stay as they
    were; [save_config] prints [Error saving config:] with the error's text
    and returns normally once the console has printed that line. *)
Theorem save_config_chmod_refused (config : value) (text msg : pystr) (w : world) :
  json_dumps config = Some text ->
  unwritable w !! config_file = None ->
  unchmodable w !! config_file = Some msg ->
  exists r w',
    save_config config w = (r, w') /\
    files w' = <[config_file := text]> (files w) /\
    modes w' = modes w /\
    (console_rejects w (config_error_line msg) = None ->
     r = Ok tt /\ console w' = console w ++ [config_error_line msg]).
Proof.
  intros Hd Hw Hc. rewrite (save_config_written config text w Hw Hd).
  unfold pystr in *. rewrite Hc.
  match goal with
  | |- context [console_print ?l ?x] => destruct (console_print l x) as [r w'] eqn:Ep
  end.
  exists r, w'. split; [reflexivity|].
  pose proof (console_print_world _ _ _ _ Ep) as (Hf & _ & Hm & _).
  split; [rewrite Hf; reflexivity|]. split; [rewrite Hm; reflexivity|].
  intros Hok. rewrite <- (console_rejects_files (fun fs => <[config_file := text]> fs)) in Hok.
  destruct (console_print_accepted _ _ _ _ Ep Hok) as [-> ->]. split; reflexivity.
Qed.

Lemma save_config_chmod_refused_witness :
  exists r w',
    save_config (config_record (py "http://localhost:11434/v1") [] [] (py "llama2"))
      (fixed_modes_home (py "[Errno 1] Operation not permitted: '~/.apikey'")) = (r, w') /\
    files w' = <[config_file := config_text (py "http://localhost:11434/v1") [] [] (py "llama2")]> ∅ /\
    modes w' = ∅ /\
    (console_rejects (fixed_modes_home (py "[Errno 1] Operation not permitted: '~/.apikey'"))
       (config_error_line (py "[Errno 1] Operation not permitted: '~/.apikey'")) = None ->
     r = Ok tt /\
     console w' = [] ++ [config_error_line (py "[Errno 1] Operation not permitted: '~/.apikey'")]).
Proof.
  apply (save_config_chmod_refused
           (config_record (py "http://localhost:11434/v1") [] [] (py "llama2"))
           (config_text (py "http://localhost:11434/v1") [] [] (py "llama2"))
           (py "[Errno 1] Operation not permitted: '~/.apikey'")
           (fixed_modes_home (py "[Errno 1] Operation not permitted: '~/.apikey'"))).
  - apply json_dumps_config.
  - apply lookup_empty.
  - apply lookup_singleton_eq.
Defined.

(** *** Testing the connection *)

(** X4: with a client at hand, [test_connection] sends one request (the
    message [test] from the user, one token, the configured model) and
    answers [True] when the service replies and [False] when the call
    raises; it never raises itself. *)
Theorem test_connection_result (items : dict) (c : client) (w : world) :
  get_client (VDict items) w = (Ok (Some c), w) ->
  test_connection (VDict items) w =
    (Ok match api w (test_request c items) with
        | ApiRaise _ => false
        | ApiResponse _ => true
        end,
     set_requests (fun rs => rs ++ [test_request c items]) w).
Proof.
  intros Hc. unfold test_connection, try_except_all, bind at 1. rewrite Hc.
  unfold bind, config_get, ret, chat_create. fold (test_request c items).
  destruct (api w (test_request c items)); reflexivity.
Qed.

Lemma test_connection_result_witness :
  test_connection (VDict local_config) world0 =
    (Ok match api world0 (test_request local_client local_config) with
        | ApiRaise _ => false
        | ApiResponse _ => true
        end,
     set_requests (fun rs => rs ++ [test_request local_client local_config]) world0).
Proof.
  apply (test_connection_result local_config local_client world0). reflexivity.
Defined.

(** *** Runs of [process_file] that write no changelog *)

Lemma get_client_no_endpoint items raw port w :
  dict_get items (py "url") (VStr []) = VStr raw ->
  rstrip_with (in_chars (py "/")) raw = [] ->
  dict_get items (py "port") (VStr []) = VStr port ->
  get_client (VDict items) w =
    (Ok None, printed [py "[red]Error: No API URL configured. Run with --setup[/red]"] w).
Proof.
  intros Hu He Hp. unfold get_client, bind at 1.
  rewrite (get_api_url_string_fields items raw port w Hu Hp). cbv zeta. rewrite He.
  cbv beta iota. change (str_empty []) with true. cbv beta iota.
  unfold bind at 1, config_get.
  destruct (ret (dict_get items (py "key") (VStr [])) w) as [o w0] eqn:E.
  unfold ret in E. injection E as <- <-.
  unfold bind. now rewrite (console_print_ok _ w (accepts_no_url w)).
Qed.

(** X5: when the configured url is empty once its trailing slashes are
    stripped, [process_file] on a diff that is not empty prints the
    processing line, when the console takes it, and [No API URL
    configured], sends no request and writes no file. *)
Theorem process_file_no_endpoint
    (items : dict) (raw port filepath text : pystr) (w : world) :
  dict_get items (py "url") (VStr []) = VStr raw ->
  rstrip_with (in_chars (py "/")) raw = [] ->
  dict_get items (py "port") (VStr []) = VStr port ->
  files w !! filepath = Some text ->
  unreadable w !! filepath = None ->
  strip text <> [] ->
  console_rejects w (processing_line filepath) = None ->
  exists w',
    process_file (VDict items) filepath w = (Ok tt, w') /\
    console w' = console w ++
      [processing_line filepath;
       py "[red]Error: No API URL configured. Run with --setup[/red]"] /\
    requests w' = requests w /\
    files w' = files w.
Proof.
  intros Hu He Hp Hf Hr Hs Hok.
  rewrite (process_file_read (VDict items) filepath text w Hf Hr Hs Hok).
  unfold generate_changelog, bind.
  rewrite (get_client_no_endpoint items raw port _ Hu He Hp). unfold ret.
  eexists. split; [reflexivity|].
  cbn [printed List.fold_left]. destruct w; cbn. now rewrite <- app_assoc.
Qed.

Lemma process_file_no_endpoint_witness :
  exists w',
    process_file (VDict [(py "url", VStr (py "//"))]) (py "fix.diff")
      (diff_world (py "fix.diff") (py "- bug" ++ [ch_newline] ++ py "+ fix") (ApiResponse []))
      = (Ok tt, w') /\
    console w' = [] ++
      [processing_line (py "fix.diff");
       py "[red]Error: No API URL configured. Run with --setup[/red]"] /\
    requests w' = [] /\
    files w' = {[ py "fix.diff" := py "- bug" ++ [ch_newline] ++ py "+ fix" ]}.
Proof.
  apply (process_file_no_endpoint [(py "url", VStr (py "//"))] (py "//") [] (py "fix.diff")
           (py "- bug" ++ [ch_newline] ++ py "+ fix")
           (diff_world (py "fix.diff") (py "- bug" ++ [ch_newline] ++ py "+ fix") (ApiResponse []))).
  - reflexivity.
  - reflexivity.
  - reflexivity.
  - apply lookup_singleton_eq.
  - apply lookup_empty.
  - vm_compute. discriminate.
  - vm_compute. reflexivity.
Defined.

(** X6: when the changelog was generated and printed and the output file
    cannot be opened for writing, [process_file] leaves the files as they
    were and prints [Error saving changelog:] with the error's text after
    the changelog between its two rules; it returns normally once the
    console has printed that line. *)
Theorem process_file_write_refused
    (items : dict) (c : client) (filepath text answer msg : pystr)
    (others : list (option pystr)) (w : world) :
  files w !! filepath = Some text ->
  unreadable w !! filepath = None ->
  strip text <> [] ->
  console_rejects w (processing_line filepath) = None ->
  get_client (VDict items) w = (Ok (Some c), w) ->
  api w (changelog_request c items (strip text)) = ApiResponse (Some answer :: others) ->
  strip answer <> [] ->
  console_rejects w (strip answer) = None ->
  unwritable w !! output_file filepath = Some msg ->
  exists r w',
    process_file (VDict items) filepath w = (r, w') /\
    files w' = files w /\
    (console_rejects w (save_error_line msg) = None ->
     r = Ok tt /\
     console w' = console w ++ processing_line filepath :: changelog_banner (strip answer)
                  ++ [save_error_line msg]).
Proof.
  intros Hf Hr Hs Hp Hc Hapi Ha Hch Hw.
  rewrite (process_file_generated items c filepath text answer others w Hf Hr Hs Hp Hc Hapi Ha).
  cbv zeta. rewrite Hch. unfold pystr in *. rewrite Hw.
  match goal with
  | |- context [console_print ?l ?x] => destruct (console_print l x) as [r w'] eqn:Ep
  end.
  exists r, w'. split; [reflexivity|].
  pose proof (console_print_world _ _ _ _ Ep) as (Hfw & _).
  split; [now rewrite Hfw, printed_files, files_set_requests, printed_files|].
  intros Hok.
  match type of Ep with
  | console_print ?l ?x = _ => assert (Hok' : console_rejects x l = None)
  end.
  { now rewrite console_rejects_printed, console_rejects_requests, console_rejects_printed. }
  destruct (console_print_accepted _ _ _ _ Ep Hok') as [-> ->]. split; [reflexivity|].
  rewrite printed_console, printed_console, console_set_requests, printed_console,
    <- !app_assoc.
  reflexivity.
Qed.

Lemma process_file_write_refused_witness :
  exists r w',
    process_file (VDict local_config) (py "fix.diff")
      (locked_world (py "fix.diff") (py "- bug" ++ [ch_newline] ++ py "+ fix")
         (py "changelog-fix.md") (py "[Errno 13] Permission denied: 'changelog-fix.md'")
         (ApiResponse [Some (py "### Fixed" ++ [ch_newline] ++ py "- bug")])) = (r, w') /\
    files w' = {[ py "fix.diff" := py "- bug" ++ [ch_newline] ++ py "+ fix" ]} /\
    (console_rejects
       (locked_world (py "fix.diff") (py "- bug" ++ [ch_newline] ++ py "+ fix")
          (py "changelog-fix.md") (py "[Errno 13] Permission denied: 'changelog-fix.md'")
          (ApiResponse [Some (py "### Fixed" ++ [ch_newline] ++ py "- bug")]))
       (save_error_line (py "[Errno 13] Permission denied: 'changelog-fix.md'")) = None ->
     r = Ok tt /\
     console w' = [] ++ processing_line (py "fix.diff")
                  :: changelog_banner (strip (py "### Fixed" ++ [ch_newline] ++ py "- bug"))
                  ++ [save_error_line (py "[Errno 13] Permission denied: 'changelog-fix.md'")]).
Proof.
  apply (process_file_write_refused local_config local_client (py "fix.diff")
           (py "- bug" ++ [ch_newline] ++ py "+ fix")
           (py "### Fixed" ++ [ch_newline] ++ py "- bug")
           (py "[Errno 13] Permission denied: 'changelog-fix.md'") []
           (locked_world (py "fix.diff") (py "- bug" ++ [ch_newline] ++ py "+ fix")
              (py "changelog-fix.md") (py "[Errno 13] Permission denied: 'changelog-fix.md'")
              (ApiResponse [Some (py "### Fixed" ++ [ch_newline] ++ py "- bug")]))).
  - apply lookup_singleton_eq.
  - apply lookup_empty.
  - vm_compute. discriminate.
  - vm_compute. reflexivity.
  - reflexivity.
  - reflexivity.
  - vm_compute. discriminate.
  - vm_compute. reflexivity.
  - apply lookup_singleton_eq.
Defined.

(** X7: what a successful [process_file] prints, in order: the processing
    line, the heading, a rule of sixty [=], the changelog, the rule again,
    and the line naming the file it saved to, where the console prints the
    three lines that depend on the input and the locale can encode the
    changelog. One request was sent and no permission was changed. *)
Theorem process_file_transcript
    (items : dict) (c : client) (filepath text answer : pystr)
    (others : list (option pystr)) (w : world) :
  files w !! filepath = Some text ->
  unreadable w !! filepath = None ->
  strip text <> [] ->
  console_rejects w (processing_line filepath) = None ->
  get_client (VDict items) w = (Ok (Some c), w) ->
  api w (changelog_request c items (strip text)) = ApiResponse (Some answer :: others) ->
  strip answer <> [] ->
  console_rejects w (strip answer) = None ->
  unwritable w !! output_file filepath = None ->
  List.forallb (encodable w) (changelog_text (strip answer)) = true ->
  console_rejects w (saved_line filepath) = None ->
  exists w',
    process_file (VDict items) filepath w = (Ok tt, w') /\
    console w' = console w ++ processing_line filepath :: changelog_banner (strip answer)
                 ++ [saved_line filepath] /\
    requests w' = requests w ++ [changelog_request c items (strip text)] /\
    modes w' = modes w.
Proof.
  intros Hf Hr Hs Hp Hc Hapi Ha Hch Hw He Hsv.
  rewrite (process_file_saved items c filepath text answer others w
             Hf Hr Hs Hp Hc Hapi Ha Hch Hw He Hsv).
  eexists. split; [reflexivity|].
  rewrite printed_console, printed_requests, printed_modes.
  change (console (set_files ?f ?x)) with (console x).
  change (requests (set_files ?f ?x)) with (requests x).
  change (modes (set_files ?f ?x)) with (modes x).
  rewrite printed_console, printed_requests, printed_modes.
  change (console (set_requests ?f ?x)) with (console x).
  change (requests (set_requests ?f ?x)) with (f (requests x)).
  change (modes (set_requests ?f ?x)) with (modes x).
  rewrite printed_console, printed_requests, printed_modes.
  split; [|split; reflexivity].
  now rewrite <- !app_assoc.
Qed.

Lemma process_file_transcript_witness :
  exists w',
    process_file (VDict local_config) (py "fix.diff")
      (diff_world (py "fix.diff") (py "- bug" ++ [ch_newline] ++ py "+ fix")
                  (ApiResponse [Some (py "### Fixed" ++ [ch_newline] ++ py "- bug")]))
      = (Ok tt, w') /\
    console w' = [] ++ processing_line (py "fix.diff")
                 :: changelog_banner (strip (py "### Fixed" ++ [ch_newline] ++ py "- bug"))
                 ++ [saved_line (py "fix.diff")] /\
    requests w' = [] ++ [changelog_request local_client local_config
                           (strip (py "- bug" ++ [ch_newline] ++ py "+ fix"))] /\
    modes w' = ∅.
Proof.
  apply (process_file_transcript local_config local_client (py "fix.diff")
           (py "- bug" ++ [ch_newline] ++ py "+ fix")
           (py "### Fixed" ++ [ch_newline] ++ py "- bug") []
           (diff_world (py "fix.diff") (py "- bug" ++ [ch_newline] ++ py "+ fix")
                       (ApiResponse [Some (py "### Fixed" ++ [ch_newline] ++ py "- bug")]))).
  - apply lookup_singleton_eq.
  - apply lookup_empty.
  - vm_compute. discriminate.
  - vm_compute. reflexivity.
  - reflexivity.
  - reflexivity.
  - vm_compute. discriminate.
  - vm_compute. reflexivity.
  - apply lookup_empty.
  - vm_compute. reflexivity.
  - vm_compute. reflexivity.
Defined.

(** X20: when the changelog was generated and printed and the output file
    was opened, but the locale cannot encode the changelog, nothing of it is
    written: the output file is left empty, and [process_file] prints
    [Error saving changelog:] with the text of the encoding error; it
    returns normally once the console has printed that line. *)
Theorem process_file_write_unencodable
    (items : dict) (c : client) (filepath text answer : pystr)
    (others : list (option pystr)) (w : world) :
  files w !! filepath = Some text ->
  unreadable w !! filepath = None ->
  strip text <> [] ->
  console_rejects w (processing_line filepath) = None ->
  get_client (VDict items) w = (Ok (Some c), w) ->
  api w (changelog_request c items (strip text)) = ApiResponse (Some answer :: others) ->
  strip answer <> [] ->
  console_rejects w (strip answer) = None ->
  unwritable w !! output_file filepath = None ->
  List.forallb (encodable w) (changelog_text (strip answer)) = false ->
  exists r w',
    process_file (VDict items) filepath w = (r, w') /\
    files w' = <[output_file filepath := []]> (files w) /\
    (console_rejects w (save_error_line (codec_error w (changelog_text (strip answer)))) = None ->
     r = Ok tt /\
     console w' = console w ++ processing_line filepath :: changelog_banner (strip answer)
                  ++ [save_error_line (codec_error w (changelog_text (strip answer)))]).
Proof.
  intros Hf Hr Hs Hp Hc Hapi Ha Hch Hw He.
  rewrite (process_file_generated items c filepath text answer others w Hf Hr Hs Hp Hc Hapi Ha).
  cbv zeta. rewrite Hch. unfold pystr in *. rewrite Hw, He.
  match goal with
  | |- context [console_print ?l ?x] => destruct (console_print l x) as [r w'] eqn:Ep
  end.
  exists r, w'. split; [reflexivity|].
  pose proof (console_print_world _ _ _ _ Ep) as (Hfw & _).
  split; [now rewrite Hfw, files_set_files, printed_files, files_set_requests, printed_files|].
  intros Hok.
  match type of Ep with
  | console_print ?l ?x = _ => assert (Hok' : console_rejects x l = None)
  end.
  { now rewrite console_rejects_files, console_rejects_printed, console_rejects_requests,
      console_rejects_printed. }
  destruct (console_print_accepted _ _ _ _ Ep Hok') as [-> ->]. split; [reflexivity|].
  rewrite printed_console, console_set_files, printed_console, console_set_requests,
    printed_console, <- !app_assoc.
  reflexivity.
Qed.

Lemma process_file_write_unencodable_witness :
  exists r w',
    process_file (VDict local_config) (py "fix.diff")
      (charmap_world (py "fix.diff") (py "- bug" ++ [ch_newline] ++ py "+ fix")
         (ApiResponse [Some (py "- a " ++ [8594] ++ py " b")])) = (r, w') /\
    files w' = <[py "changelog-fix.md" := []]>
                 {[ py "fix.diff" := py "- bug" ++ [ch_newline] ++ py "+ fix" ]} /\
    (console_rejects
       (charmap_world (py "fix.diff") (py "- bug" ++ [ch_newline] ++ py "+ fix")
          (ApiResponse [Some (py "- a " ++ [8594] ++ py " b")]))
       (save_error_line (py "'charmap' codec can't encode character")) = None ->
     r = Ok tt /\
     console w' = [] ++ processing_line (py "fix.diff")
                  :: changelog_banner (strip (py "- a " ++ [8594] ++ py " b"))
                  ++ [save_error_line (py "'charmap' codec can't encode character")]).
Proof.
  apply (process_file_write_unencodable local_config local_client (py "fix.diff")
           (py "- bug" ++ [ch_newline] ++ py "+ fix") (py "- a " ++ [8594] ++ py " b") []
           (charmap_world (py "fix.diff") (py "- bug" ++ [ch_newline] ++ py "+ fix")
              (ApiResponse [Some (py "- a " ++ [8594] ++ py " b")]))).
  - apply lookup_singleton_eq.
  - apply lookup_empty.
  - vm_compute. discriminate.
  - vm_compute. reflexivity.
  - reflexivity.
  - reflexivity.
  - vm_compute. discriminate.
  - vm_compute. reflexivity.
  - apply lookup_empty.
  - vm_compute. reflexivity.
Defined.

(** X8: a reply without choices, or whose first choice has no content, is
    handled like an error of the service: once the processing line is
    printed, [process_file] prints the text of the Python exception ([list
    index out of range], or the missing attribute [strip] of [None]) and
    writes no file. *)
Theorem process_file_malformed_response
    (items : dict) (c : client) (filepath text : pystr)
    (choices : list (option pystr)) (w : world) :
  files w !! filepath = Some text ->
  unreadable w !! filepath = None ->
  strip text <> [] ->
  console_rejects w (processing_line filepath) = None ->
  get_client (VDict items) w = (Ok (Some c), w) ->
  api w (changelog_request c items (strip text)) = ApiResponse choices ->
  List.hd (Some []) choices = None \/ choices = [] ->
  exists w',
    process_file (VDict items) filepath w = (Ok tt, w') /\
    files w' = files w /\
    console w' = console w ++
      [processing_line filepath;
       py "[red]Error: " ++
       match choices with
       | [] => py "list index out of range"
       | _ => py "'NoneType' object has no attribute 'strip'"
       end ++ py "[/red]"].
Proof.
  intros Hf Hr Hs Hp Hc Hapi Hch.
  rewrite (process_file_read (VDict items) filepath text w Hf Hr Hs Hp).
  assert (Hc' : get_client (VDict items) (printed [processing_line filepath] w)
                = (Ok (Some c), printed [processing_line filepath] w)).
  { apply (get_client_any_world _ _ w); [reflexivity | exact Hc]. }
  rewrite (generate_changelog_run items c (strip text) _ Hc'). cbv zeta.
  change (api (printed [processing_line filepath] w)) with (api w). rewrite Hapi.
  destruct choices as [|[answer|] others].
  - eexists. split; [reflexivity|]. destruct w; cbn. now rewrite <- app_assoc.
  - destruct Hch as [Hch|Hch]; discriminate Hch.
  - eexists. split; [reflexivity|]. destruct w; cbn. now rewrite <- app_assoc.
Qed.

Lemma process_file_malformed_response_witness :
  exists w',
    process_file (VDict local_config) (py "fix.diff")
      (diff_world (py "fix.diff") (py "- bug" ++ [ch_newline] ++ py "+ fix") (ApiResponse []))
      = (Ok tt, w') /\
    files w' = {[ py "fix.diff" := py "- bug" ++ [ch_newline] ++ py "+ fix" ]} /\
    console w' = [] ++
      [processing_line (py "fix.diff");
       py "[red]Error: " ++ py "list index out of range" ++ py "[/red]"].
Proof.
  apply (process_file_malformed_response local_config local_client (py "fix.diff")
           (py "- bug" ++ [ch_newline] ++ py "+ fix") []
           (diff_world (py "fix.diff") (py "- bug" ++ [ch_newline] ++ py "+ fix") (ApiResponse []))).
  - apply lookup_singleton_eq.
  - apply lookup_empty.
  - vm_compute. discriminate.
  - vm_compute. reflexivity.
  - reflexivity.
  - reflexivity.
  - now right.
Defined.

Lemma prompt_ask_answered current line rest w :
  stdin w = line :: rest ->
  prompt_ask (VStr current) w = (Ok (VStr (answered current line)), set_stdin (fun _ => rest) w).
Proof.
  intros Hin. unfold prompt_ask, answered. rewrite Hin. now destruct (str_empty line).
Qed.

(** One [console.print] of a line the program spells out. *)
Ltac print_step :=
  unfold bind at 1; rewrite console_print_ok by accepted; cbv beta iota.

Lemma accepts_setup_verdict ok w : console_rejects w (setup_verdict ok) = None.
Proof. destruct ok; accepted. Qed.

Lemma setup_tail url port key model w :
  (save_config (config_record url port key model);;;
   console_print ([ch_newline] ++ py "[green]" ++ [10003]
                  ++ py " Configuration saved to ~/.apikey[/green]");;;
   shown <- str_of (VStr model);;
   console_print (py "[blue]Using model: " ++ shown ++ py "[/blue]");;;
   console_print ([ch_newline] ++ py "[blue]Testing API connection...[/blue]");;;
   ok <- test_connection (config_record url port key model);;
   (if ok
    then console_print (py "[green]" ++ [10003] ++ py " Connection successful![/green]")
    else console_print (py "[red]" ++ [10007]
                        ++ py " Connection failed. Please check your settings.[/red]"));;;
   ret (config_record url port key model)) w =
  match save_config (config_record url port key model) w with
  | (Ok _, w2) =>
      match console_rejects w2 (model_line model) with
      | Some refusal =>
          (Raise (MarkupError refusal),
           printed [[ch_newline] ++ py "[green]" ++ [10003]
                    ++ py " Configuration saved to ~/.apikey[/green]"] w2)
      | None =>
          match test_connection (config_record url port key model)
                  (printed (setup_saved_lines model) w2) with
          | (Ok ok, w3) => (Ok (config_record url port key model), printed [setup_verdict ok] w3)
          | (Raise e, w3) => (Raise e, w3)
          end
      end
  | (Raise e, w2) => (Raise e, w2)
  end.
Proof.
  unfold bind at 1.
  destruct (save_config (config_record url port key model) w) as [[[]|e] w2]; [|reflexivity].
  print_step. set (wa := set_console _ w2).
  unfold bind at 1, str_of at 1, ret at 1. fold (model_line model).
  change (console_rejects w2 (model_line model)) with (console_rejects wa (model_line model)).
  unfold bind at 1.
  destruct (console_rejects wa (model_line model)) as [refusal|] eqn:Hm.
  { rewrite (console_print_raises _ _ _ Hm). reflexivity. }
  rewrite (console_print_ok _ _ Hm). set (wb := set_console _ wa).
  print_step. set (wc := set_console _ wb).
  change (printed (setup_saved_lines model) w2) with wc.
  unfold bind at 1.
  destruct (test_connection (config_record url port key model) wc) as [[ok|e] w3];
    [|reflexivity].
  unfold bind.
  assert (Hv : console_print (setup_verdict ok) w3 = (Ok tt, printed [setup_verdict ok] w3)).
  { now rewrite (console_print_ok _ _ (accepts_setup_verdict ok w3)). }
  destruct ok; unfold setup_verdict in Hv; rewrite Hv; reflexivity.
Qed.

Lemma setup_run items cu cp ck cm l1 l2 l3 l4 rest w :
  dict_get items (py "url") (VStr []) = VStr cu ->
  dict_get items (py "port") (VStr []) = VStr cp ->
  dict_get items (py "key") (VStr []) = VStr ck ->
  dict_get items (py "model") (VStr default_model) = VStr cm ->
  stdin w = l1 :: l2 :: l3 :: l4 :: rest ->
  setup (VDict items) w =
  let url := answered cu l1 in
  let port := answered cp l2 in
  let key := answered ck l3 in
  let model := answered cm l4 in
  let w1 := printed (setup_warnings url key model)
              (set_stdin (fun _ => rest)
                 (printed [py "[bold blue]API Configuration Setup[/bold blue]" ++ [ch_newline]] w)) in
  match save_config (config_record url port key model) w1 with
  | (Ok _, w2) =>
      match console_rejects w2 (model_line model) with
      | Some refusal =>
          (Raise (MarkupError refusal),
           printed [[ch_newline] ++ py "[green]" ++ [10003]
                    ++ py " Configuration saved to ~/.apikey[/green]"] w2)
      | None =>
          match test_connection (config_record url port key model)
                  (printed (setup_saved_lines model) w2) with
          | (Ok ok, w3) => (Ok (config_record url port key model), printed [setup_verdict ok] w3)
          | (Raise e, w3) => (Raise e, w3)
          end
      end
  | (Raise e, w2) => (Raise e, w2)
  end.
Proof.
  intros Hu Hp Hk Hm Hin. cbv zeta.
  unfold setup, console_clear.
  unfold bind at 1, ret at 1. print_step.
  set (w0 := set_console _ w).
  unfold bind at 1, config_get at 1, ret at 1. rewrite Hu.
  unfold bind at 1. rewrite (prompt_ask_answered cu l1 _ w0 Hin). cbv beta iota.
  unfold bind at 1, config_get at 1, ret at 1. rewrite Hp.
  assert (Hd : forall (k : pystr -> M value) w',
             (has_port <- truthy (VStr cp);;
              port_default <- (if has_port then str_of (VStr cp) else ret []);;
              k port_default) w' = k cp w').
  { intros k w'. destruct cp; reflexivity. }
  rewrite Hd. clear Hd.
  unfold bind at 1. rewrite (prompt_ask_answered cp l2 (l3 :: l4 :: rest) (set_stdin (fun _ => l2 :: l3 :: l4 :: rest) w0) eq_refl). cbv beta iota.
  unfold bind at 1, config_get at 1, ret at 1. rewrite Hk.
  unfold bind at 1. rewrite (prompt_ask_answered ck l3 (l4 :: rest) (set_stdin (fun _ => l3 :: l4 :: rest) (set_stdin (fun _ => l2 :: l3 :: l4 :: rest) w0)) eq_refl). cbv beta iota.
  unfold bind at 1, config_get at 1, ret at 1. rewrite Hm.
  unfold bind at 1. rewrite (prompt_ask_answered cm l4 rest (set_stdin (fun _ => l4 :: rest) (set_stdin (fun _ => l3 :: l4 :: rest) (set_stdin (fun _ => l2 :: l3 :: l4 :: rest) w0))) eq_refl). cbv beta iota.
  change (set_stdin (fun _ => rest) (set_stdin _ (set_stdin _ (set_stdin _ w0))))
    with (set_stdin (fun _ => rest) w0).
  set (wq := set_stdin _ w0).
  unfold bind at 1, truthy at 1, ret at 1.
  unfold bind at 1, truthy at 1, ret at 1.
  unfold bind at 1, truthy at 1, ret at 1.
  fold (config_record (answered cu l1) (answered cp l2) (answered ck l3) (answered cm l4)).
  generalize (answered cu l1) (answered cp l2) (answered ck l3) (answered cm l4).
  intros url port key model.
  rewrite <- setup_tail. unfold setup_warnings.
  destruct (str_empty url), (str_empty key), (str_empty model);
    cbn [negb app]; cbv beta iota;
    try (unfold bind at 1; unfold bind at 1; rewrite console_print_ok by accepted;
         rewrite console_print_ok by accepted);
    reflexivity.
Qed.

(** [test_connection] with a configuration of strings: an answer, and a
    world that differs in the console and the requests only. *)
Lemma test_connection_frame url port key model w :
  exists ok w' extra,
    test_connection (config_record url port key model) w = (Ok ok, w') /\
    files w' = files w /\ stdin w' = stdin w /\ unreadable w' = unreadable w /\
    console w' = console w ++ extra.
Proof.
  destruct (get_client_ok [(py "url", VStr url); (py "port", VStr port);
                           (py "key", VStr key); (py "model", VStr model)]
              url port key w eq_refl eq_refl eq_refl) as [[c Hc] | [[msg Hc] | Hn]].
  - unfold config_record, test_connection, try_except_all, bind at 1. rewrite Hc.
    unfold bind, config_get, ret, chat_create.
    match goal with |- context [api w ?r] => destruct (api w r) end;
      eexists _, _, []; (split; [reflexivity|]); rewrite app_nil_r; now destruct w.
  - unfold config_record, test_connection, try_except_all, bind at 1. rewrite Hc.
    eexists _, _, []. split; [reflexivity|]. rewrite app_nil_r. repeat split.
  - unfold config_record, test_connection, try_except_all, bind. rewrite Hn.
    eexists _, _, _. split; [reflexivity|].
    rewrite printed_console. repeat split; apply printed_frame.
Qed.

Lemma printed_stdin lines w : stdin (printed lines w) = stdin w.
Proof. apply printed_frame. Qed.

Lemma printed_unreadable lines w : unreadable (printed lines w) = unreadable w.
Proof. apply printed_frame. Qed.

Lemma printed_unwritable lines w : unwritable (printed lines w) = unwritable w.
Proof. apply printed_frame. Qed.

Lemma printed_unchmodable lines w : unchmodable (printed lines w) = unchmodable w.
Proof. apply printed_frame. Qed.

(** [save_config] where the console prints the error, if there is one. *)
Lemma save_config_frame url port key model w :
  (forall msg, unwritable w !! config_file = Some msg ->
               console_rejects w (config_error_line msg) = None) ->
  (forall msg, unwritable w !! config_file = None ->
               unchmodable w !! config_file = Some msg ->
               console_rejects w (config_error_line msg) = None) ->
  exists w' saving,
    save_config (config_record url port key model) w = (Ok tt, w') /\
    stdin w' = stdin w /\ unreadable w' = unreadable w /\
    console w' = console w ++ saving /\
    (forall line, console_rejects w' line = console_rejects w line) /\
    match unwritable w !! config_file with
    | Some msg => files w' = files w /\ saving = [config_error_line msg]
    | None =>
        files w' = <[config_file := config_text url port key model]> (files w) /\
        match unchmodable w !! config_file with
        | Some msg => saving = [config_error_line msg]
        | None => saving = []
        end
    end.
Proof.
  intros Hopen Hmode.
  destruct (unwritable w !! config_file) as [msg|] eqn:Hw.
  - exists (printed [config_error_line msg] w), [config_error_line msg].
    split.
    { unfold save_config, try_except, bind, open_write. unfold pystr in *. rewrite Hw.
      cbv beta iota. unfold exn_message. fold (config_error_line msg).
      now rewrite (console_print_ok _ _ (Hopen msg eq_refl)). }
    rewrite printed_stdin, printed_unreadable, printed_console, printed_files.
    repeat split; try (intros line; apply console_rejects_printed).
  - rewrite (save_config_written _ _ w Hw (json_dumps_config url port key model)).
    destruct (unchmodable w !! config_file) as [msg|] eqn:Hc.
    + exists (printed [config_error_line msg]
                (set_files (fun fs => <[config_file := config_text url port key model]> fs) w)),
        [config_error_line msg].
      split.
      { unfold pystr in *. rewrite ?Hc. apply console_print_ok.
        rewrite console_rejects_files. exact (Hmode msg eq_refl eq_refl). }
      rewrite printed_stdin, printed_unreadable, printed_console, printed_files.
      repeat split; try (intros line; now rewrite console_rejects_printed).
    + unfold pystr in *. rewrite ?Hc.
      eexists _, []. split; [reflexivity|]. rewrite app_nil_r. repeat split.
Qed.

Lemma setup_outcome items cu cp ck cm l1 l2 l3 l4 rest w :
  dict_get items (py "url") (VStr []) = VStr cu ->
  dict_get items (py "port") (VStr []) = VStr cp ->
  dict_get items (py "key") (VStr []) = VStr ck ->
  dict_get items (py "model") (VStr default_model) = VStr cm ->
  stdin w = l1 :: l2 :: l3 :: l4 :: rest ->
  console_rejects w (model_line (answered cm l4)) = None ->
  (forall msg, unwritable w !! config_file = Some msg ->
               console_rejects w (config_error_line msg) = None) ->
  (forall msg, unwritable w !! config_file = None ->
               unchmodable w !! config_file = Some msg ->
               console_rejects w (config_error_line msg) = None) ->
  exists w' saving tail,
    setup (VDict items) w =
      (Ok (config_record (answered cu l1) (answered cp l2) (answered ck l3) (answered cm l4)), w') /\
    stdin w' = rest /\ unreadable w' = unreadable w /\
    console w' = console w
      ++ [py "[bold blue]API Configuration Setup[/bold blue]" ++ [ch_newline]]
      ++ setup_warnings (answered cu l1) (answered ck l3) (answered cm l4)
      ++ saving ++ setup_saved_lines (answered cm l4) ++ tail /\
    match unwritable w !! config_file with
    | Some msg => files w' = files w /\ saving = [config_error_line msg]
    | None =>
        files w' = <[config_file := config_text (answered cu l1) (answered cp l2)
                                      (answered ck l3) (answered cm l4)]> (files w) /\
        match unchmodable w !! config_file with
        | Some msg => saving = [config_error_line msg]
        | None => saving = []
        end
    end.
Proof.
  intros Hu Hp Hk Hm Hin Hmodel Hopen Hmode.
  rewrite (setup_run items cu cp ck cm l1 l2 l3 l4 rest w Hu Hp Hk Hm Hin). cbv zeta.
  revert Hmodel.
  generalize (answered cu l1) (answered cp l2) (answered ck l3) (answered cm l4).
  intros url port key model Hmodel.
  set (w1 := printed (setup_warnings url key model) _).
  assert (Hw1 : unwritable w1 = unwritable w).
  { subst w1. rewrite printed_unwritable.
    change (unwritable (set_stdin ?f ?x)) with (unwritable x). now rewrite printed_unwritable. }
  assert (Hc1 : unchmodable w1 = unchmodable w).
  { subst w1. rewrite printed_unchmodable.
    change (unchmodable (set_stdin ?f ?x)) with (unchmodable x).
    now rewrite printed_unchmodable. }
  assert (Hf1 : files w1 = files w).
  { subst w1. rewrite printed_files.
    change (files (set_stdin ?f ?x)) with (files x). now rewrite printed_files. }
  assert (Hr1 : unreadable w1 = unreadable w).
  { subst w1. rewrite printed_unreadable.
    change (unreadable (set_stdin ?f ?x)) with (unreadable x). now rewrite printed_unreadable. }
  assert (Hs1 : stdin w1 = rest) by (subst w1; now rewrite printed_stdin).
  assert (Ho1 : console w1 = console w
                ++ [py "[bold blue]API Configuration Setup[/bold blue]" ++ [ch_newline]]
                ++ setup_warnings url key model).
  { subst w1. rewrite printed_console.
    change (console (set_stdin _ ?x)) with (console x).
    rewrite printed_console. now rewrite <- app_assoc. }
  assert (Hj1 : forall line, console_rejects w1 line = console_rejects w line).
  { intros line. subst w1. rewrite console_rejects_printed.
    change (console_rejects (set_stdin ?f ?x) line) with (console_rejects x line).
    apply console_rejects_printed. }
  clearbody w1.
  destruct (save_config_frame url port key model w1)
    as (w2 & saving & -> & Hs2 & Hr2 & Ho2 & Hj2 & Hcase).
  { intros msg H. rewrite Hj1. apply Hopen. now rewrite <- Hw1. }
  { intros msg H H'. rewrite Hj1. apply Hmode; [now rewrite <- Hw1 | now rewrite <- Hc1]. }
  rewrite Hj2, Hj1, Hmodel.
  destruct (test_connection_frame url port key model (printed (setup_saved_lines model) w2))
    as (ok & w3 & extra & -> & Hf3 & Hs3 & Hr3 & Ho3).
  exists (printed [setup_verdict ok] w3), saving, (extra ++ [setup_verdict ok]).
  split; [reflexivity|].
  rewrite printed_stdin, printed_unreadable, printed_console, printed_files.
  rewrite Hs3, Hr3, Ho3, Hf3.
  rewrite printed_stdin, printed_unreadable, printed_console, printed_files.
  rewrite Hs2, Hr2, Ho2, Hs1, Hr1, Ho1.
  split; [reflexivity|]. split; [reflexivity|]. split.
  { now rewrite <- !app_assoc. }
  rewrite Hw1, Hc1, Hf1 in Hcase. exact Hcase.
Qed.

(** X9: [setup] asks four times and stores the four answers under [url],
    [port], [key] and [model]: an empty line keeps the current value, any
    other line is stripped. When the configuration file can be written and
    the console prints the line that names the model (and the error of
    [chmod], should it fail), the new configuration is returned and
    written, the four lines are consumed, and (the file being readable, the
    answers strings of scalar values) [load_config] afterwards returns
    it. *)
Theorem setup_saves_answers
    (items : dict) (cu cp ck cm l1 l2 l3 l4 : pystr) (rest : list pystr) (w : world) :
  dict_get items (py "url") (VStr []) = VStr cu ->
  dict_get items (py "port") (VStr []) = VStr cp ->
  dict_get items (py "key") (VStr []) = VStr ck ->
  dict_get items (py "model") (VStr default_model) = VStr cm ->
  stdin w = l1 :: l2 :: l3 :: l4 :: rest ->
  unwritable w !! config_file = None ->
  console_rejects w (model_line (answered cm l4)) = None ->
  (forall msg, unchmodable w !! config_file = Some msg ->
               console_rejects w (config_error_line msg) = None) ->
  exists w',
    setup (VDict items) w =
      (Ok (config_record (answered cu l1) (answered cp l2) (answered ck l3) (answered cm l4)), w') /\
    files w' =
      <[config_file := config_text (answered cu l1) (answered cp l2)
                         (answered ck l3) (answered cm l4)]> (files w) /\
    stdin w' = rest /\
    (unreadable w !! config_file = None ->
     List.forallb is_scalar (answered cu l1) = true ->
     List.forallb is_scalar (answered cp l2) = true ->
     List.forallb is_scalar (answered ck l3) = true ->
     List.forallb is_scalar (answered cm l4) = true ->
     load_config w' =
       (Ok (config_record (answered cu l1) (answered cp l2) (answered ck l3) (answered cm l4)), w')).
Proof.
  intros Hu Hp Hk Hm Hin Hw Hmodel Hmode.
  destruct (setup_outcome items cu cp ck cm l1 l2 l3 l4 rest w Hu Hp Hk Hm Hin Hmodel)
    as (w' & saving & tail & Hs & Hi & Hr' & _ & Hcase).
  { intros msg H. unfold pystr in *. congruence. }
  { intros msg _. apply Hmode. }
  unfold pystr in *. rewrite Hw in Hcase. destruct Hcase as [F _].
  exists w'. split; [exact Hs|]. split; [exact F|]. split; [exact Hi|].
  intros Hr S1 S2 S3 S4.
  rewrite load_config_run, F, Hr'. unfold pystr in *. rewrite lookup_insert_eq, Hr.
  now rewrite json_loads_config.
Qed.

Lemma setup_saves_answers_witness :
  exists w',
    setup (VDict [])
      (typing_world [py " http://localhost:11434/v1 "; []; []; py "llama2"; py "extra"]) =
      (Ok (config_record (py "http://localhost:11434/v1") [] [] (py "llama2")), w') /\
    files w' =
      <[config_file := config_text (py "http://localhost:11434/v1") [] [] (py "llama2")]> ∅ /\
    stdin w' = [py "extra"] /\
    load_config w' = (Ok (config_record (py "http://localhost:11434/v1") [] [] (py "llama2")), w').
Proof.
  destruct (setup_saves_answers [] [] [] [] default_model
              (py " http://localhost:11434/v1 ") [] [] (py "llama2") [py "extra"]
              (typing_world [py " http://localhost:11434/v1 "; []; []; py "llama2"; py "extra"])
              eq_refl eq_refl eq_refl eq_refl eq_refl (lookup_empty _))
    as (w' & Hs & Hf & Hi & Hl).
  - vm_compute. reflexivity.
  - intros msg H.
    change (unchmodable (typing_world
              [py " http://localhost:11434/v1 "; []; []; py "llama2"; py "extra"]))
      with (∅ : gmap pystr pystr) in H.
    rewrite lookup_empty in H. discriminate.
  - exists w'. split; [exact Hs|]. split; [exact Hf|]. split; [exact Hi|].
    apply Hl; [apply lookup_empty | reflexivity..].
Defined.

(** X10: when the configuration file cannot be opened for writing, [setup]
    prints the error of [save_config] and, right after it, still announces
    [Configuration saved to ~/.apikey]; no file is written, and the new
    configuration is returned, where the console prints the error and the
    line that names the model. *)
Theorem setup_announces_saved_after_refusal
    (items : dict) (cu cp ck cm l1 l2 l3 l4 msg : pystr) (rest : list pystr) (w : world) :
  dict_get items (py "url") (VStr []) = VStr cu ->
  dict_get items (py "port") (VStr []) = VStr cp ->
  dict_get items (py "key") (VStr []) = VStr ck ->
  dict_get items (py "model") (VStr default_model) = VStr cm ->
  stdin w = l1 :: l2 :: l3 :: l4 :: rest ->
  unwritable w !! config_file = Some msg ->
  console_rejects w (config_error_line msg) = None ->
  console_rejects w (model_line (answered cm l4)) = None ->
  exists w' tail,
    setup (VDict items) w =
      (Ok (config_record (answered cu l1) (answered cp l2) (answered ck l3) (answered cm l4)), w') /\
    files w' = files w /\
    console w' = console w
      ++ [py "[bold blue]API Configuration Setup[/bold blue]" ++ [ch_newline]]
      ++ setup_warnings (answered cu l1) (answered ck l3) (answered cm l4)
      ++ [config_error_line msg;
          [ch_newline] ++ py "[green]" ++ [10003] ++ py " Configuration saved to ~/.apikey[/green]"]
      ++ tail.
Proof.
  intros Hu Hp Hk Hm Hin Hw Herr Hmodel.
  destruct (setup_outcome items cu cp ck cm l1 l2 l3 l4 rest w Hu Hp Hk Hm Hin Hmodel)
    as (w' & saving & tail & Hs & _ & _ & Ho & Hcase).
  { intros msg' H. unfold pystr in *. rewrite Hw in H. injection H as <-. exact Herr. }
  { intros msg' H. unfold pystr in *. congruence. }
  unfold pystr in *. rewrite Hw in Hcase. destruct Hcase as [F ->].
  exists w'. eexists. split; [exact Hs|]. split; [exact F|].
  rewrite Ho. unfold setup_saved_lines. cbn [app]. reflexivity.
Qed.

Lemma setup_announces_saved_after_refusal_witness :
  exists w' tail,
    setup (VDict [])
      (readonly_typing_world (py "[Errno 13] Permission denied: '~/.apikey'")
         [py "http://localhost:11434/v1"; []; py "none"; []]) =
      (Ok (config_record (answered [] (py "http://localhost:11434/v1")) (answered [] [])
             (answered [] (py "none")) (answered default_model [])), w') /\
    files w' = ∅ /\
    console w' = []
      ++ [py "[bold blue]API Configuration Setup[/bold blue]" ++ [ch_newline]]
      ++ setup_warnings (answered [] (py "http://localhost:11434/v1")) (answered [] (py "none"))
           (answered default_model [])
      ++ [config_error_line (py "[Errno 13] Permission denied: '~/.apikey'");
          [ch_newline] ++ py "[green]" ++ [10003] ++ py " Configuration saved to ~/.apikey[/green]"]
      ++ tail.
Proof.
  apply (setup_announces_saved_after_refusal [] [] [] [] default_model
           (py "http://localhost:11434/v1") [] (py "none") []
           (py "[Errno 13] Permission denied: '~/.apikey'") []
           (readonly_typing_world (py "[Errno 13] Permission denied: '~/.apikey'")
              [py "http://localhost:11434/v1"; []; py "none"; []]));
    reflexivity.
Defined.

(** *** The first run *)

Lemma accepts_no_configuration w :
  console_rejects w
    (py "[yellow]No API configuration found. Running setup...[/yellow]" ++ [ch_newline]) = None.
Proof. accepted. Qed.

Lemma accepts_now_you_can_run w :
  console_rejects w ([ch_newline] ++ py "[blue]Now you can run: chng <diff_file>[/blue]") = None.
Proof. accepted. Qed.

Lemma main_unconfigured items prog filepath args w :
  load_config w = (Ok (VDict items), w) ->
  filepath <> py "--setup" ->
  dict_get items (py "url") VNone = VNone \/ dict_get items (py "url") VNone = VStr [] ->
  main (prog :: filepath :: args) w =
    match setup (VDict items)
            (printed [py "[yellow]No API configuration found. Running setup...[/yellow]"
                      ++ [ch_newline]] w) with
    | (Ok _, w') =>
        (Ok tt, printed [[ch_newline] ++ py "[blue]Now you can run: chng <diff_file>[/blue]"] w')
    | (Raise e, w') => (Raise e, w')
    end.
Proof.
  intros Hl Hs Hu. unfold main, bind at 1. rewrite Hl.
  destruct (str_eqb filepath (py "--setup")) eqn:E.
  { apply str_eqb_eq in E. contradiction. }
  unfold bind at 1, config_get at 1, ret at 1.
  assert (Ht : truthy (dict_get items (py "url") VNone) = ret false).
  { destruct Hu as [-> | ->]; reflexivity. }
  unfold bind at 1. rewrite Ht. unfold ret at 1. cbn [negb].
  unfold bind at 1. rewrite (console_print_ok _ w (accepts_no_configuration w)).
  unfold bind at 1.
  change (set_console _ w)
    with (printed [py "[yellow]No API configuration found. Running setup...[/yellow]"
                   ++ [ch_newline]] w).
  destruct (setup (VDict items) _) as [[v|e] w']; [|reflexivity].
  now rewrite (console_print_ok _ w' (accepts_now_you_can_run w')).
Qed.

(** X11: the first run. Without a configuration file, [main] with a file
    argument announces the setup, runs it on the four answers, saves the
    configuration and ends with [Now you can run: chng <diff_file>] and
    status 0, where the console prints the line that names the model (and
    the error of [chmod], should it fail): the diff is not processed, the
    only file written is the configuration. *)
Theorem main_first_run
    (prog filepath l1 l2 l3 l4 : pystr) (args rest : list pystr) (w : world) :
  files w !! config_file = None ->
  unreadable w !! config_file = None ->
  filepath <> py "--setup" ->
  stdin w = l1 :: l2 :: l3 :: l4 :: rest ->
  unwritable w !! config_file = None ->
  console_rejects w (model_line (answered default_model l4)) = None ->
  (forall msg, unchmodable w !! config_file = Some msg ->
               console_rejects w (config_error_line msg) = None) ->
  exists w' middle,
    main (prog :: filepath :: args) w = (Ok tt, w') /\
    exit_status (prog :: filepath :: args) w = Some 0%Z /\
    files w' =
      <[config_file := config_text (answered [] l1) (answered [] l2)
                         (answered [] l3) (answered default_model l4)]> (files w) /\
    console w' = console w
      ++ [py "[yellow]No API configuration found. Running setup...[/yellow]" ++ [ch_newline]]
      ++ middle
      ++ [[ch_newline] ++ py "[blue]Now you can run: chng <diff_file>[/blue]"].
Proof.
  intros Hf Hr Hs Hin Hw Hmodel Hmode.
  assert (Hl : load_config w = (Ok (VDict []), w)).
  { rewrite load_config_run. unfold pystr in *. now rewrite Hr, Hf. }
  assert (Hmain := main_unconfigured [] prog filepath args w Hl Hs (or_introl eq_refl)).
  set (w1 := printed _ w) in Hmain.
  assert (Hin1 : stdin w1 = l1 :: l2 :: l3 :: l4 :: rest).
  { subst w1. now rewrite printed_stdin. }
  assert (Hw1 : unwritable w1 !! config_file = None).
  { subst w1. rewrite printed_unwritable. exact Hw. }
  assert (Hj1 : forall line, console_rejects w1 line = console_rejects w line).
  { intros line. subst w1. apply console_rejects_printed. }
  destruct (setup_outcome [] [] [] [] default_model l1 l2 l3 l4 rest w1
              eq_refl eq_refl eq_refl eq_refl Hin1)
    as (w' & saving & tail & Hsetup & _ & _ & Ho & Hcase).
  { rewrite Hj1. exact Hmodel. }
  { intros msg H. unfold pystr in *. congruence. }
  { intros msg _ H. rewrite Hj1. apply Hmode. subst w1.
    now rewrite printed_unchmodable in H. }
  rewrite Hsetup in Hmain.
  unfold pystr in *. rewrite Hw1 in Hcase. destruct Hcase as [F _].
  exists (printed [[ch_newline] ++ py "[blue]Now you can run: chng <diff_file>[/blue]"] w'),
    ([py "[bold blue]API Configuration Setup[/bold blue]" ++ [ch_newline]]
     ++ setup_warnings (answered [] l1) (answered [] l3) (answered default_model l4)
     ++ saving ++ setup_saved_lines (answered default_model l4) ++ tail).
  split; [exact Hmain|]. split; [|split].
  - unfold exit_status. now rewrite Hmain.
  - rewrite printed_files, F. subst w1. now rewrite printed_files.
  - rewrite printed_console, Ho. subst w1. rewrite printed_console.
    now rewrite <- !app_assoc.
Qed.

Lemma main_first_run_witness :
  exists w' middle,
    main [py "chng"; py "fix.diff"]
      (typing_world [py "http://localhost:11434/v1"; []; []; py "llama2"]) = (Ok tt, w') /\
    exit_status [py "chng"; py "fix.diff"]
      (typing_world [py "http://localhost:11434/v1"; []; []; py "llama2"]) = Some 0%Z /\
    files w' =
      <[config_file := config_text (answered [] (py "http://localhost:11434/v1")) (answered [] [])
                         (answered [] []) (answered default_model (py "llama2"))]> ∅ /\
    console w' = []
      ++ [py "[yellow]No API configuration found. Running setup...[/yellow]" ++ [ch_newline]]
      ++ middle
      ++ [[ch_newline] ++ py "[blue]Now you can run: chng <diff_file>[/blue]"].
Proof.
  apply (main_first_run (py "chng") (py "fix.diff") (py "http://localhost:11434/v1") [] []
           (py "llama2") [] []
           (typing_world [py "http://localhost:11434/v1"; []; []; py "llama2"])).
  - apply lookup_empty.
  - apply lookup_empty.
  - discriminate.
  - reflexivity.
  - apply lookup_empty.
  - vm_compute. reflexivity.
  - intros msg H.
    change (unchmodable (typing_world [py "http://localhost:11434/v1"; []; []; py "llama2"]))
      with (∅ : gmap pystr pystr) in H.
    rewrite lookup_empty in H. discriminate.
Defined.

(** X12: [chng --setup] with no input to read: the first prompt raises
    [EOFError] after the title was printed, nothing catches it, and the
    process ends with status 1. *)
Theorem main_setup_without_input (items : dict) (prog : pystr) (args : list pystr) (w : world) :
  load_config w = (Ok (VDict items), w) ->
  stdin w = [] ->
  main (prog :: py "--setup" :: args) w =
    (Raise EOFError,
     printed [py "[bold blue]API Configuration Setup[/bold blue]" ++ [ch_newline]] w) /\
  exit_status (prog :: py "--setup" :: args) w = Some 1%Z.
Proof.
  intros Hl Hin.
  assert (Hm : main (prog :: py "--setup" :: args) w =
               (Raise EOFError,
                printed [py "[bold blue]API Configuration Setup[/bold blue]" ++ [ch_newline]] w)).
  { unfold main, bind at 1. rewrite Hl.
    change (str_eqb (py "--setup") (py "--setup")) with true. cbv iota.
    unfold bind at 1, setup, console_clear.
    unfold bind at 1, ret at 1. unfold bind at 1.
    rewrite console_print_ok by accepted.
    unfold bind at 1, config_get at 1, ret at 1.
    unfold bind at 1, prompt_ask at 1.
    change (stdin (set_console _ w)) with (stdin w). rewrite Hin. reflexivity. }
  split; [exact Hm|]. unfold exit_status. now rewrite Hm.
Qed.

Lemma main_setup_without_input_witness :
  main [py "chng"; py "--setup"] world0 =
    (Raise EOFError,
     printed [py "[bold blue]API Configuration Setup[/bold blue]" ++ [ch_newline]] world0) /\
  exit_status [py "chng"; py "--setup"] world0 = Some 1%Z.
Proof.
  apply (main_setup_without_input [] (py "chng") [] world0); reflexivity.
Defined.

(** *** The resolved endpoint *)

Lemma lstrip_with_head drop s c t : lstrip_with drop s = c :: t -> drop c = false.
Proof.
  induction s as [|x s IH]; simpl; [discriminate|].
  destruct (drop x) eqn:E; [exact IH|]. now intros [= <- _].
Qed.

Lemma rstrip_with_last drop s v c : rstrip_with drop s = v ++ [c] -> drop c = false.
Proof.
  unfold rstrip_with. intros H.
  apply (f_equal (@List.rev N)) in H. rewrite List.rev_involutive, List.rev_app_distr in H.
  simpl in H. exact (lstrip_with_head _ _ _ _ H).
Qed.

(** X13: the url [get_api_url] resolves is never empty and, as long as the
    port does not end in a slash, never ends in a slash, whether the port
    was injected or not. *)
Theorem get_api_url_no_trailing_slash (items : dict) (raw port u : pystr) (w w' : world) :
  dict_get items (py "url") (VStr []) = VStr raw ->
  dict_get items (py "port") (VStr []) = VStr port ->
  (forall v, port <> v ++ [ch_slash]) ->
  get_api_url (VDict items) w = (Ok (Some u), w') ->
  u <> [] /\ forall v, u <> v ++ [ch_slash].
Proof.
  intros Hu Hp Hport.
  assert (Hurl : forall v, rstrip_with (in_chars (py "/")) raw <> v ++ [ch_slash]).
  { intros v H. apply rstrip_with_last in H. discriminate H. }
  destruct (negb (str_empty port)
            && negb (contains (py ":" ++ port) (rstrip_with (in_chars (py "/")) raw))
            && contains (py "://") (rstrip_with (in_chars (py "/")) raw)) eqn:Hb.
  - apply andb_true_iff in Hb as [Hb Hsep]. apply andb_true_iff in Hb as [Hne Hnot].
    apply negb_true_iff in Hnot.
    assert (Hport' : port <> []) by (destruct port; [discriminate | congruence]).
    destruct (get_api_url_rebuilds items raw _ port w Hu Hp eq_refl Hsep Hport' Hnot)
      as (scheme & host & ignored & path & Hd & _ & _ & _ & _ & _ & _ & ->).
    intros H.
    assert (Hres : u = scheme ++ py "://" ++ host ++ py ":" ++ port ++ path) by congruence.
    clear H. subst u. split.
    + intros E. apply app_eq_nil in E as [_ E]. discriminate E.
    + intros v E. destruct (exists_last Hport') as (p' & c & Hp').
      destruct path as [|x path].
      * rewrite app_nil_r, Hp', !app_assoc in E. apply app_inj_tail in E as [_ ->].
        exact (Hport _ Hp').
      * destruct (@exists_last _ (x :: path) ltac:(discriminate)) as (q & d & Hq).
        rewrite Hq, !app_assoc in E. apply app_inj_tail in E as [_ ->].
        apply (Hurl ((((scheme ++ py "://") ++ host) ++ ignored) ++ q)).
        rewrite Hd, Hq, <- !app_assoc. reflexivity.
  - rewrite (get_api_url_string_fields items raw port w Hu Hp). cbv zeta. rewrite Hb.
    destruct (rstrip_with (in_chars (py "/")) raw) as [|x url] eqn:E; [discriminate|].
    cbn [str_empty]. intros H. assert (Hres : u = x :: url) by congruence.
    subst u. split; [discriminate | exact Hurl].
Qed.

Lemma get_api_url_no_trailing_slash_witness :
  get_api_url (VDict [(py "url", VStr (py "https://api.openai.com/v1///"))]) world0
    = (Ok (Some (py "https://api.openai.com/v1")), world0) /\
  py "https://api.openai.com/v1" <> [] /\
  forall v, py "https://api.openai.com/v1" <> v ++ [ch_slash].
Proof.
  split; [reflexivity|].
  apply (get_api_url_no_trailing_slash
           [(py "url", VStr (py "https://api.openai.com/v1///"))]
           (py "https://api.openai.com/v1///") [] (py "https://api.openai.com/v1")
           world0 world0).
  - reflexivity.
  - reflexivity.
  - intros v H. destruct v; discriminate H.
  - reflexivity.
Defined.

(** *** The name of the changelog *)

Lemma rfind_char_none c s : ~ List.In c s -> rfind_char c s = None.
Proof.
  induction s as [|x s IH]; intros Hn; [reflexivity|]. simpl.
  rewrite IH by (intros H; apply Hn; now right).
  destruct (N.eqb_spec x c) as [->|_]; [|reflexivity]. exfalso. apply Hn. now left.
Qed.

Lemma rfind_char_last c a b :
  ~ List.In c b -> rfind_char c (a ++ c :: b) = Some (List.length a).
Proof.
  intros Hb. induction a as [|x a IH]; simpl.
  - rewrite (rfind_char_none c b Hb). now rewrite N.eqb_refl.
  - now rewrite IH.
Qed.

Lemma Path_of_name name :
  name <> [] -> name <> [ch_dot] -> ~ List.In ch_slash name ->
  Path name = {| path_root := []; path_parts := [name] |}.
Proof.
  intros Hne Hdot Hs. unfold Path. rewrite (split_char_no_sep ch_slash name Hs).
  cbn [List.filter].
  replace (str_empty name) with false by (destruct name; [congruence | reflexivity]).
  replace (str_eqb name [ch_dot]) with false.
  2:{ symmetry. apply not_true_is_false. intros H. apply str_eqb_eq in H. contradiction. }
  cbn [negb andb]. f_equal.
  destruct name as [|x name]; [congruence|].
  destruct (N.eqb_spec x 47) as [->|Hx]; [exfalso; apply Hs; now left|].
  destruct x as [|p]; [reflexivity|].
  repeat (destruct p as [p|p|]; try reflexivity); congruence.
Qed.

(** X14: for an input file [stem.ext] in the current directory (no slash;
    [ext] without a dot, neither part empty) the changelog goes to
    [changelog-stem.md]: only the last suffix is dropped. *)
Theorem output_file_of_name (stem ext : pystr) :
  stem <> [] -> ext <> [] ->
  ~ List.In ch_slash stem -> ~ List.In ch_slash ext -> ~ List.In ch_dot ext ->
  output_file (stem ++ [ch_dot] ++ ext) = py "changelog-" ++ stem ++ py ".md".
Proof.
  intros Hs He Hss Hes Hed.
  assert (Hn : ~ List.In ch_slash (stem ++ [ch_dot] ++ ext)).
  { intros H. apply in_app_or in H as [H|H]; [auto|].
    apply in_app_or in H as [[H|[]]|H]; [discriminate H | auto]. }
  assert (HP : Path (stem ++ [ch_dot] ++ ext) =
               {| path_root := []; path_parts := [stem ++ [ch_dot] ++ ext] |}).
  { apply Path_of_name; [| |exact Hn].
    - destruct stem; [congruence | discriminate].
    - destruct stem as [|x [|y stem]]; [congruence| |discriminate].
      destruct ext; [congruence | discriminate]. }
  assert (Hst : path_stem (Path (stem ++ [ch_dot] ++ ext)) = stem).
  { rewrite HP. unfold path_stem, path_name. cbn [path_parts List.last].
    change (stem ++ [ch_dot] ++ ext) with (stem ++ ch_dot :: ext).
    rewrite (rfind_char_last ch_dot stem ext Hed).
    replace (Nat.ltb 0 (List.length stem)) with true.
    2:{ symmetry. apply Nat.ltb_lt. destruct stem; [congruence | simpl; lia]. }
    replace (Nat.ltb (List.length stem) (List.length (stem ++ ch_dot :: ext) - 1)) with true.
    2:{ symmetry. apply Nat.ltb_lt. rewrite List.length_app. simpl.
        destruct ext; [congruence | simpl; lia]. }
    cbn [andb]. rewrite List.firstn_app, Nat.sub_diag, List.firstn_all. simpl.
    apply app_nil_r. }
  rewrite output_file_beside, Hst, HP. reflexivity.
Qed.

Lemma output_file_of_name_witness :
  output_file (py "release-1.2" ++ [ch_dot] ++ py "diff") =
    py "changelog-" ++ py "release-1.2" ++ py ".md".
Proof.
  apply (output_file_of_name (py "release-1.2") (py "diff"));
    try discriminate; vm_compute; intuition discriminate.
Defined.

(** *** Requests *)

(** X15: without a url to resolve, [test_connection] answers [False]
    after [get_client] printed [No API URL configured]; no request is
    sent. *)
Theorem test_connection_no_endpoint (items : dict) (raw port : pystr) (w : world) :
  dict_get items (py "url") (VStr []) = VStr raw ->
  rstrip_with (in_chars (py "/")) raw = [] ->
  dict_get items (py "port") (VStr []) = VStr port ->
  exists w',
    test_connection (VDict items) w = (Ok false, w') /\
    requests w' = requests w /\
    console w' = console w ++ [py "[red]Error: No API URL configured. Run with --setup[/red]"].
Proof.
  intros Hu He Hp. unfold test_connection, try_except_all, bind.
  rewrite (get_client_no_endpoint items raw port w Hu He Hp). unfold ret.
  eexists. split; [reflexivity|]. now rewrite printed_requests, printed_console.
Qed.

Lemma test_connection_no_endpoint_witness :
  exists w',
    test_connection (VDict []) world0 = (Ok false, w') /\
    requests w' = [] /\
    console w' = [] ++ [py "[red]Error: No API URL configured. Run with --setup[/red]"].
Proof.
  apply (test_connection_no_endpoint [] [] [] world0); reflexivity.
Defined.

(** X16: with a client at hand, [generate_changelog] sends exactly one
    request: the configured model ([gpt-3.5-turbo] when none is), at most
    1000 tokens, temperature 0.3, and one user message, the prompt, which
    holds the diff verbatim between two code fences. No file is touched.
    It returns, and does not raise, unless the call fails with a text the
    console does not print. *)
Theorem generate_changelog_request
    (items : dict) (c : client) (diff_content : pystr) (w : world) :
  get_client (VDict items) w = (Ok (Some c), w) ->
  exists r w',
    generate_changelog (VDict items) diff_content w = (r, w') /\
    files w' = files w /\
    requests w' = requests w ++
      [{| req_base_url := base_url c; req_api_key := api_key c;
          req_model := dict_get items (py "model") (VStr (py "gpt-3.5-turbo"));
          req_messages := [(py "user", prompt_for diff_content)];
          req_max_tokens := 1000; req_temperature := Some (3 # 10)%Q |}] /\
    ((forall msg, api w (changelog_request c items diff_content) = ApiRaise msg ->
                  console_rejects w (error_line msg) = None) ->
     exists v, r = Ok v) /\
    exists before after,
      prompt_for diff_content =
        before ++ py "```" ++ [ch_newline] ++ diff_content ++ [ch_newline] ++ py "```" ++ after.
Proof.
  intros Hc. rewrite (generate_changelog_run items c diff_content w Hc). cbv zeta.
  assert (Hp : exists before after,
             prompt_for diff_content =
               before ++ py "```" ++ [ch_newline] ++ diff_content ++ [ch_newline]
               ++ py "```" ++ after).
  { unfold prompt_for.
    match goal with
    | |- context [py ?s1 ++ diff_content ++ py ?s2] =>
        set (a := py s1); set (b := py s2);
        assert (Ha : a = List.firstn (List.length a - 4) a ++ py "```" ++ [ch_newline])
          by (vm_compute; reflexivity);
        assert (Hb : b = [ch_newline] ++ py "```" ++ List.skipn 4 b)
          by (vm_compute; reflexivity)
    end.
    exists (List.firstn (List.length a - 4) a), (List.skipn 4 b).
    transitivity ((List.firstn (List.length a - 4) a ++ py "```" ++ [ch_newline])
                  ++ diff_content ++ ([ch_newline] ++ py "```" ++ List.skipn 4 b)).
    - rewrite <- Ha, <- Hb. reflexivity.
    - now rewrite <- !app_assoc. }
  destruct (api w (changelog_request c items diff_content)) as [msg | [| [content|] rest]].
  - destruct (console_rejects w (error_line msg)) as [refusal|] eqn:E;
      eexists _, _; (split; [reflexivity|]);
      rewrite ?printed_files, ?printed_requests; (split; [reflexivity|]);
      (split; [reflexivity|]); (split; [|exact Hp]).
    + intros Hok. specialize (Hok msg eq_refl). congruence.
    + eauto.
  - eexists _, _. split; [reflexivity|]. rewrite printed_files, printed_requests.
    repeat split; eauto.
  - eexists _, _. split; [reflexivity|]. repeat split; eauto.
  - eexists _, _. split; [reflexivity|]. rewrite printed_files, printed_requests.
    repeat split; eauto.
Qed.

Lemma generate_changelog_request_witness :
  exists r w',
    generate_changelog (VDict [(py "url", VStr (py "http://localhost:11434/v1"))])
      (py "+ fix") world0 = (r, w') /\
    files w' = ∅ /\
    requests w' = [] ++
      [{| req_base_url := py "http://localhost:11434/v1"; req_api_key := VStr (py "dummy");
          req_model := VStr (py "gpt-3.5-turbo");
          req_messages := [(py "user", prompt_for (py "+ fix"))];
          req_max_tokens := 1000; req_temperature := Some (3 # 10)%Q |}] /\
    ((forall msg,
        api world0 (changelog_request local_client
                      [(py "url", VStr (py "http://localhost:11434/v1"))] (py "+ fix"))
          = ApiRaise msg ->
        console_rejects world0 (error_line msg) = None) ->
     exists v, r = Ok v) /\
    exists before after,
      prompt_for (py "+ fix") =
        before ++ py "```" ++ [ch_newline] ++ py "+ fix" ++ [ch_newline] ++ py "```" ++ after.
Proof.
  apply (generate_changelog_request [(py "url", VStr (py "http://localhost:11434/v1"))]
           local_client (py "+ fix") world0).
  reflexivity.
Defined.

(** X21: when the constructor of the client rejects the resolved url, the
    error leaves [get_client] and [generate_changelog], which calls it
    outside its handler: nothing is printed and no request is sent.
    [test_connection], which calls it inside its handler, answers
    [False]. *)
Theorem generate_changelog_client_refused
    (items : dict) (raw port key url msg diff_content : pystr) (w : world) :
  dict_get items (py "url") (VStr []) = VStr raw ->
  dict_get items (py "port") (VStr []) = VStr port ->
  dict_get items (py "key") (VStr []) = VStr key ->
  get_api_url (VDict items) w = (Ok (Some url), w) ->
  client_refused w url (VStr (if str_empty key then py "dummy" else key)) = Some msg ->
  generate_changelog (VDict items) diff_content w = (Raise (OtherError msg), w) /\
  test_connection (VDict items) w = (Ok false, w).
Proof.
  intros Hu Hp Hk Hurl Hno.
  pose proof (get_api_url_some_nonempty _ _ _ _ _ Hu Hp Hurl) as Hne.
  assert (E : get_client (VDict items) w = (Raise (OtherError msg), w)).
  { unfold get_client, bind at 1. rewrite Hurl. unfold bind at 1, config_get, ret at 1.
    rewrite Hk. destruct url as [|x url]; [congruence|].
    unfold bind at 1, truthy, ret at 1.
    assert (Hkey : (if negb (str_empty key) then VStr key else VStr (py "dummy")) =
                   VStr (if str_empty key then py "dummy" else key))
      by now destruct (str_empty key).
    rewrite Hkey. unfold bind, OpenAI. now rewrite Hno. }
  split.
  - unfold generate_changelog, bind. now rewrite E.
  - unfold test_connection, try_except_all, bind. now rewrite E.
Qed.

Lemma generate_changelog_client_refused_witness :
  generate_changelog
    (VDict [(py "url", VStr (py "http://localhost")); (py "port", VStr (py "abc"))])
    (py "+ fix") strict_client_world =
    (Raise (OtherError (py "Invalid port: 'abc'")), strict_client_world) /\
  test_connection
    (VDict [(py "url", VStr (py "http://localhost")); (py "port", VStr (py "abc"))])
    strict_client_world = (Ok false, strict_client_world).
Proof.
  apply (generate_changelog_client_refused
           [(py "url", VStr (py "http://localhost")); (py "port", VStr (py "abc"))]
           (py "http://localhost") (py "abc") [] (py "http://localhost:abc")
           (py "Invalid port: 'abc'") (py "+ fix") strict_client_world); reflexivity.
Defined.
